(** * CamGuard: the observe / plan / guard / execute core, embedded in Rocq.

    The development follows the Python sources under [backend/]:
    - [core/severity.py]  : [compute_severity], [compute_risk_score];
    - [core/guard.py]     : [reset_camera_state], [approve_plan];
    - [core/planner.py]   : [_fallback_plan], [handle_incident],
                            [_strong_verify_task], and one iteration of
                            the loops of [_start_replan_loop] and
                            [_start_severity_ticker];
    - [core/executor.py]  : [_run_action], [execute_actions];
    - [core/idle.py]      : [is_camera_idle], [apply_config_suggestions];
    - [api/incidents.py]  : [acknowledge_incident], [false_alarm];
    - [api/twilio.py]     : [dtmf_webhook];
    - [api/vision.py]     : [_generate_plan_for_incident].

    Conventions.  Python [int] is [Z].  Python [float] is modelled by the
    exact rationals [Q]: the code only compares, adds and subtracts such
    values, and every comparison below is the decidable comparison of [Q];
    rounding and the IEEE special values are outside the model.  A [str]
    is the [string] of the bytes of its UTF-8 encoding.  A [dict] keyed by
    strings is a [gmap string _]; the relational tables are maps
    from the primary key to the row, or lists of rows.  The planner, the
    SMS / voice gateway and the text formatting of the libraries are
    collaborators whose answers are parameters (record [Env]); the tasks
    that a handler starts are recorded, not run, and their bodies are
    modelled on their own; the best-effort mirror of every write to the
    analytics warehouse ([snowflake_client.write_*]) is left out, as are
    the log lines. *)

From Stdlib Require Import ZArith QArith Lia Lqa Sorted.
From stdpp Require Import gmap strings list pretty.

Local Open Scope string_scope.
Local Open Scope list_scope.
Local Open Scope Z_scope.

(** ** Comparisons of rationals as booleans *)

(** [x > y] on Python floats. *)
Definition Qgtb (x y : Q) : bool := negb (Qle_bool x y).

(** [x < y] on Python floats. *)
Definition Qltb (x y : Q) : bool := Qgtb y x.

(** Python's two-argument [max(a, b)]: [a], unless [b > a]. *)
Definition py_max (a b : Q) : Q := if Qgtb b a then b else a.

(** Python's two-argument [min(a, b)]: [a], unless [b < a]. *)
Definition py_min (a b : Q) : Q := if Qltb b a then b else a.

(** ** core/severity.py *)

Module Severity.

(** [compute_severity], lines 7-38. *)
Definition compute_severity
    (severity_seed : Z) (time_down_s stillness_score motion_energy : Q)
    (acknowledged : bool) : Z :=
  let sev := severity_seed in
  let sev :=
    if Qgtb time_down_s 120 then Z.max sev 5
    else if Qgtb time_down_s 45 then Z.max sev 4
    else if Qgtb time_down_s 15 then Z.max sev 3
    else sev in
  let sev :=
    if Qgtb stillness_score 0.9 && Qgtb time_down_s 30
    then Z.min (sev + 1) 5 else sev in
  let sev :=
    if Qgtb motion_energy 0.5 && Qltb stillness_score 0.3
    then Z.max (sev - 1) 1 else sev in
  let sev := if acknowledged then Z.max (sev - 1) 1 else sev in
  Z.max 1 (Z.min 5 sev).

(** The reference computation, step by step as the specification words it:
    three independent "raise to at least" steps, the stillness bonus, the
    recovery malus, the acknowledgement malus, the final clamp. *)
Definition raise_to_at_least (floor : Z) (cond : bool) (s : Z) : Z :=
  if cond then Z.max s floor else s.

Definition clamp_1_5 (s : Z) : Z := Z.max 1 (Z.min 5 s).

Definition severity_reference
    (seed : Z) (t_down_s stillness motion : Q) (acked : bool) : Z :=
  let s := seed in
  let s := raise_to_at_least 3 (Qgtb t_down_s 15) s in
  let s := raise_to_at_least 4 (Qgtb t_down_s 45) s in
  let s := raise_to_at_least 5 (Qgtb t_down_s 120) s in
  let s := if Qgtb stillness 0.9 && Qgtb t_down_s 30
           then Z.min (s + 1) 5 else s in
  let s := if Qgtb motion 0.5 && Qltb stillness 0.3
           then Z.max (s - 1) 1 else s in
  let s := if acked then s - 1 else s in
  clamp_1_5 s.

(** The table of [compute_risk_score], lines 50-58. *)
Definition bed_state_scores : gmap string Q :=
  list_to_map
    [ ("IN_BED", 0.0%Q); ("NEAR_EDGE", 0.2%Q); ("SITTING_EDGE", 0.4%Q);
      ("LEGS_OVER", 0.6%Q); ("STANDING_NEAR_BED", 0.3%Q);
      ("OUT_OF_BED", 0.1%Q); ("UNKNOWN", 0.15%Q) ].

(** The seven bed states of [schemas.BedState]. *)
Definition listed_bed_states : list string :=
  [ "IN_BED"; "NEAR_EDGE"; "SITTING_EDGE"; "LEGS_OVER";
    "STANDING_NEAR_BED"; "OUT_OF_BED"; "UNKNOWN" ].

(** [score += 0.25] / [score += 0.1] of lines 61-64. *)
Definition add_stability (stability : string) (score : Q) : Q :=
  if String.eqb stability "UNSTABLE" then (score + 0.25)%Q
  else if String.eqb stability "UNKNOWN" then (score + 0.1)%Q
  else score.

(** The night window of lines 66-67. *)
Definition add_night (hour_of_day : Z) (score : Q) : Q :=
  if (22 <=? hour_of_day) || (hour_of_day <=? 5) then (score + 0.1)%Q
  else score.

(** [compute_risk_score], lines 41-69. *)
Definition compute_risk_score
    (bed_state stability : string) (hour_of_day : Z) (base_score : Q) : Q :=
  let score := base_score in
  let score := (score + default 0.1%Q (bed_state_scores !! bed_state))%Q in
  let score := add_stability stability score in
  let score := add_night hour_of_day score in
  py_max 0.0%Q (py_min 1.0%Q score).

End Severity.

(** ** schemas.py *)

Inductive ActionType : Set :=
  | INCREASE_CHECK_RATE
  | SEND_LOW_PRIORITY_HEADSUP
  | SEND_SMS_PRIMARY
  | START_VOICE_CALL_PRIMARY
  | ESCALATE_TO_BACKUP
  | CANCEL_ESCALATION
  | CLOSE_INCIDENT
  | REQUEST_STRONG_VERIFY.

#[global] Instance ActionType_eq_dec : EqDecision ActionType.
Proof. solve_decision. Defined.

(** [ActionType.value]. *)
Definition ActionType_value (t : ActionType) : string :=
  match t with
  | INCREASE_CHECK_RATE => "INCREASE_CHECK_RATE"
  | SEND_LOW_PRIORITY_HEADSUP => "SEND_LOW_PRIORITY_HEADSUP"
  | SEND_SMS_PRIMARY => "SEND_SMS_PRIMARY"
  | START_VOICE_CALL_PRIMARY => "START_VOICE_CALL_PRIMARY"
  | ESCALATE_TO_BACKUP => "ESCALATE_TO_BACKUP"
  | CANCEL_ESCALATION => "CANCEL_ESCALATION"
  | CLOSE_INCIDENT => "CLOSE_INCIDENT"
  | REQUEST_STRONG_VERIFY => "REQUEST_STRONG_VERIFY"
  end.

Inductive Verdict : Set :=
  | NO_INCIDENT | POSSIBLE_FALL | CONFIRMED_FALL | FALSE_ALARM.

#[global] Instance Verdict_eq_dec : EqDecision Verdict.
Proof. solve_decision. Defined.

Definition Verdict_value (v : Verdict) : string :=
  match v with
  | NO_INCIDENT => "NO_INCIDENT"
  | POSSIBLE_FALL => "POSSIBLE_FALL"
  | CONFIRMED_FALL => "CONFIRMED_FALL"
  | FALSE_ALARM => "FALSE_ALARM"
  end.

(** A JSON scalar, for the values of [params] and of the camera config. *)
Inductive json : Set :=
  | JNull
  | JBool (b : bool)
  | JNum (q : Q)
  | JStr (s : string).

(** [schemas.PlanAction]. *)
Record PlanAction := mkPlanAction {
  type : ActionType;
  delay_s : Q;
  params : gmap string json;
}.

(** [schemas.PlannerPlan]. *)
Record PlannerPlan := mkPlannerPlan {
  verdict : Verdict;
  severity_seed : Z;
  confidence : Q;
  reasons : list string;
  actions : list PlanAction;
  replan_interval_s : Q;
}.

(** ** core/guard.py *)

Module Guard.

(** The module-level dictionaries [_last_contact_time] and
    [_primary_call_counts], lines 13-14. *)
Record GuardState := mkGuardState {
  _last_contact_time : gmap string Q;
  _primary_call_counts : gmap string Z;
}.

(** The state of a fresh process. *)
Definition initial : GuardState := mkGuardState ∅ ∅.

(** [reset_camera_state], lines 17-19: [pop(camera_id, None)] on both. *)
Definition reset_camera_state (camera_id : string) (g : GuardState)
    : GuardState :=
  mkGuardState (delete camera_id (_last_contact_time g))
               (delete camera_id (_primary_call_counts g)).

(** The arguments of [approve_plan] other than [actions], lines 23-31. *)
Record Args := mkArgs {
  camera_id : string;
  acknowledged : bool;
  voice_enabled : bool;
  sms_enabled : bool;
  escalation_stage : Z;
  cooldown_contact_s : Z;
  max_primary_call_attempts : Z;
  max_escalation_stage : Z;
}.

(** A call that leaves the three keyword arguments at their defaults. *)
Definition default_args (camera_id : string)
    (acknowledged voice_enabled sms_enabled : bool) (escalation_stage : Z)
    : Args :=
  mkArgs camera_id acknowledged voice_enabled sms_enabled escalation_stage
         5 2 2.

(** The dictionary [decision] of line 41. *)
Record Decision := mkDecision {
  action : string;
  approved : bool;
  reason : string;
}.

(** The tuple of line 53-54. *)
Definition contact_class : list ActionType :=
  [SEND_SMS_PRIMARY; START_VOICE_CALL_PRIMARY; SEND_LOW_PRIORITY_HEADSUP].

(** The tuple of lines 97-98. *)
Definition stamps_contact : list ActionType :=
  [SEND_SMS_PRIMARY; START_VOICE_CALL_PRIMARY; SEND_LOW_PRIORITY_HEADSUP;
   ESCALATE_TO_BACKUP].

(** The three local accumulators of the loop: [approved], [decisions] and
    the two dictionaries. *)
Definition Acc : Type := list PlanAction * list Decision * GuardState.

(** One iteration of the [for] loop, lines 40-102; every [continue] is the
    end of a branch.  [now] is the reading of [time.time()] of line 38. *)
Definition approve_one (p : Args) (now : Q) (acc : Acc) (a : PlanAction)
    : Acc :=
  let '(approved, decisions, g) := acc in
  let decision := mkDecision (ActionType_value (type a)) true "" in
  let rejected why :=
    (approved, decisions ++ [mkDecision (action decision) false why], g) in
  if bool_decide (type a = CLOSE_INCIDENT) then
    (approved ++ [a], decisions ++ [decision], g)
  else if bool_decide (type a = CANCEL_ESCALATION) then
    (approved ++ [a], decisions ++ [decision], g)
  else if bool_decide (type a ∈ contact_class)
          && Qltb (now - default 0%Q (_last_contact_time g !! camera_id p))
                  (inject_Z (cooldown_contact_s p)) then
    rejected ("Contact cooldown: " +:+ pretty (cooldown_contact_s p)
              +:+ "s not elapsed")
  else if bool_decide (type a = START_VOICE_CALL_PRIMARY)
          && negb (voice_enabled p) then
    rejected "Voice disabled for this camera"
  else if bool_decide (type a = START_VOICE_CALL_PRIMARY)
          && (max_primary_call_attempts p
              <=? default 0 (_primary_call_counts g !! camera_id p))%Z then
    rejected ("Max primary call attempts ("
              +:+ pretty (max_primary_call_attempts p) +:+ ") reached")
  else if bool_decide (type a = SEND_SMS_PRIMARY)
          && negb (sms_enabled p) then
    rejected "SMS disabled for this camera"
  else if bool_decide (type a = ESCALATE_TO_BACKUP) && acknowledged p then
    rejected "Already acknowledged – no backup escalation"
  else if bool_decide (type a = ESCALATE_TO_BACKUP)
          && (max_escalation_stage p <=? escalation_stage p)%Z then
    rejected ("Max escalation stage (" +:+ pretty (max_escalation_stage p)
              +:+ ") reached")
  else
    let g :=
      if bool_decide (type a ∈ stamps_contact)
      then mkGuardState (<[camera_id p := now]> (_last_contact_time g))
                        (_primary_call_counts g)
      else g in
    let g :=
      if bool_decide (type a = START_VOICE_CALL_PRIMARY)
      then mkGuardState
             (_last_contact_time g)
             (<[camera_id p :=
                  default 0 (_primary_call_counts g !! camera_id p) + 1]>
                (_primary_call_counts g))
      else g in
    (approved ++ [a], decisions ++ [decision], g).

(** [approve_plan], lines 22-108.  The result is the returned pair
    [(approved, decisions)] together with the dictionaries as the call
    leaves them. *)
Definition approve_plan (p : Args) (now : Q) (actions : list PlanAction)
    (g : GuardState) : Acc :=
  fold_left (approve_one p now) actions ([], [], g).

(** *** The rules as the specification words them *)

(** [(now - last_contact[cam]) >= cooldown_contact_s]. *)
Definition cooldown_elapsed (p : Args) (now : Q) (g : GuardState) : bool :=
  Qle_bool (inject_Z (cooldown_contact_s p))
           (now - default 0%Q (_last_contact_time g !! camera_id p)).

(** [primary_call_count[cam]]. *)
Definition call_count (p : Args) (g : GuardState) : Z :=
  default 0 (_primary_call_counts g !! camera_id p).

(** When the rules approve an action of type [t] in the state [g]; a type
    for which the rules name no reason to reject is approved. *)
Definition permitted (p : Args) (now : Q) (g : GuardState) (t : ActionType)
    : bool :=
  match t with
  | CLOSE_INCIDENT | CANCEL_ESCALATION => true
  | SEND_LOW_PRIORITY_HEADSUP => cooldown_elapsed p now g
  | SEND_SMS_PRIMARY => cooldown_elapsed p now g && sms_enabled p
  | START_VOICE_CALL_PRIMARY =>
      cooldown_elapsed p now g && voice_enabled p
      && (call_count p g <? max_primary_call_attempts p)%Z
  | ESCALATE_TO_BACKUP =>
      negb (acknowledged p)
      && (escalation_stage p <? max_escalation_stage p)%Z
  | INCREASE_CHECK_RATE | REQUEST_STRONG_VERIFY => true
  end.

(** [last_contact[cam] = now]. *)
Definition stamp (p : Args) (now : Q) (g : GuardState) : GuardState :=
  mkGuardState (<[camera_id p := now]> (_last_contact_time g))
               (_primary_call_counts g).

(** [primary_call_count[cam] += 1]. *)
Definition count_call (p : Args) (g : GuardState) : GuardState :=
  mkGuardState (_last_contact_time g)
               (<[camera_id p := call_count p g + 1]>
                  (_primary_call_counts g)).

(** The state after the approval of an action of type [t]. *)
Definition on_approval (p : Args) (now : Q) (g : GuardState)
    (t : ActionType) : GuardState :=
  match t with
  | SEND_SMS_PRIMARY | SEND_LOW_PRIORITY_HEADSUP | ESCALATE_TO_BACKUP =>
      stamp p now g
  | START_VOICE_CALL_PRIMARY => count_call p (stamp p now g)
  | _ => g
  end.

(** The rules run over a list of actions, in list order: one decision per
    action, each taken in the state the earlier approvals left. *)
Inductive rules_run (p : Args) (now : Q)
    : GuardState -> list PlanAction -> list Decision -> GuardState -> Prop :=
  | rules_nil g : rules_run p now g [] [] g
  | rules_cons g a d rest ds g' :
      action d = ActionType_value (type a) ->
      approved d = permitted p now g (type a) ->
      rules_run p now
        (if approved d then on_approval p now g (type a) else g)
        rest ds g' ->
      rules_run p now g (a :: rest) (d :: ds) g'.

(** The actions whose decision is an approval, in list order. *)
Definition kept (actions : list PlanAction) (decisions : list Decision)
    : list PlanAction :=
  (filter (fun ad => approved ad.2 = true) (zip actions decisions)).*1.

(** *** Runs of the guard over a process lifetime *)

(** What the rest of the program does to the dictionaries: a call of
    [approve_plan] at clock reading [now], or a [reset_camera_state]. *)
Inductive Op :=
  | Approve (p : Args) (now : Q) (actions : list PlanAction)
  | Forget (camera_id : string).

(** The observable history: one entry per decision, with the camera, the
    clock reading and the cooldown of its call, and one entry per reset. *)
Inductive Entry :=
  | Evaluated (camera_id : string) (now : Q) (cooldown_contact_s : Z)
              (t : ActionType) (approved : bool)
  | Cleared (camera_id : string).

Definition entries (p : Args) (now : Q) (actions : list PlanAction)
    (decisions : list Decision) : list Entry :=
  zip_with
    (fun a d =>
       Evaluated (camera_id p) now (cooldown_contact_s p) (type a)
                 (approved d))
    actions decisions.

Definition run_op (s : GuardState * list Entry) (op : Op)
    : GuardState * list Entry :=
  match op with
  | Approve p now actions =>
      let '(_, decisions, g) := approve_plan p now actions s.1 in
      (g, s.2 ++ entries p now actions decisions)
  | Forget camera_id =>
      (reset_camera_state camera_id s.1, s.2 ++ [Cleared camera_id])
  end.

Definition run (ops : list Op) (g : GuardState)
    : GuardState * list Entry :=
  fold_left run_op ops (g, []).

(** The clock readings of the calls, in call order. *)
Definition call_times (ops : list Op) : list Q :=
  omap (fun op => match op with
                  | Approve _ now _ => Some now
                  | Forget _ => None
                  end) ops.

(** The clock does not run backwards between calls. *)
Definition chronological (ops : list Op) : Prop :=
  Sorted Qle (call_times ops).

(** *** Properties of a history *)

(** Every approved stamping decision still in force (no reset of its
    camera since) is covered by the camera's [_last_contact_time]. *)
Definition stamped (g : GuardState) (log : list Entry) : Prop :=
  forall (i : nat) cam t c ty,
    log !! i = Some (Evaluated cam t c ty true) ->
    ty ∈ stamps_contact ->
    (forall k : nat, (i < k)%nat -> log !! k ≠ Some (Cleared cam)) ->
    exists t', _last_contact_time g !! cam = Some t' /\ (t <= t')%Q.

(** No decision of the history was taken after [hi]. *)
Definition before (hi : Q) (log : list Entry) : Prop :=
  forall (i : nat) cam t c ty ok,
    log !! i = Some (Evaluated cam t c ty ok) -> (t <= hi)%Q.

(** The property of the history that the cooldown is there for. *)
Definition exclusive (log : list Entry) : Prop :=
  forall (i j : nat) cam t1 c1 ty1 t2 c2 ty2 ok2,
    log !! i = Some (Evaluated cam t1 c1 ty1 true) ->
    log !! j = Some (Evaluated cam t2 c2 ty2 ok2) ->
    (i < j)%nat ->
    ty1 ∈ contact_class ->
    ty2 ∈ contact_class ->
    (forall k : nat, (i < k < j)%nat -> log !! k ≠ Some (Cleared cam)) ->
    (t2 - t1 < inject_Z c2)%Q ->
    ok2 = false.

(** The calls still to come are not earlier than [hi], nor than one
    another. *)
Fixpoint not_before (hi : Q) (ops : list Op) : Prop :=
  match ops with
  | [] => True
  | Approve _ now _ :: rest => (hi <= now)%Q /\ not_before now rest
  | Forget _ :: rest => not_before hi rest
  end.

End Guard.

(** [schemas.TelemetryPacket], the fields the incident path reads. *)
Module TelemetryPacket.

Record t := mk {
  camera_id : string;
  room_type : string;
  motion_energy : Q;
  stillness_score : Q;
  frames_jpeg_base64 : list string;
  language : option string;
}.

End TelemetryPacket.

(** ** store/models.py

    The columns that no modelled function reads or writes ([name],
    [bed_polygon], [profile_id], the time stamps, generated row ids) are
    left out. *)

(** [models.Camera]; [config] is a nullable JSON column. *)
Module Camera.

Record t := mk {
  id : string;
  room_type : string;
  primary_contact : string;
  backup_contact : string;
  voice_enabled : bool;
  sms_enabled : bool;
  risk_score : Q;
  config : option (gmap string json);
}.

Definition set_config (v : option (gmap string json)) (x : t) : t :=
  mk (id x) (room_type x) (primary_contact x) (backup_contact x)
     (voice_enabled x) (sms_enabled x) (risk_score x) v.

End Camera.

(** [models.NotificationPolicy]. *)
Module NotificationPolicy.

Record t := mk {
  camera_id : string;
  sms_enabled : bool;
  voice_enabled : bool;
  escalation_delay_s : Z;
  cooldown_contact_s : Z;
  max_primary_call_attempts : Z;
}.

End NotificationPolicy.

(** [models.Incident]. *)
Module Incident.

Record t := mk {
  id : string;
  camera_id : string;
  status : string;
  verdict : string;
  severity_seed : Z;
  severity_current : Z;
  risk_score : Q;
  confidence : Q;
  time_down_s : Q;
  acknowledged : bool;
  ack_by : option string;
  escalation_stage : Z;
  plan_version : Z;
  reasons_current : option (list string);
  language : string;
  summary_text : option string;
  frames_b64 : option (list string);
}.

Definition set_status (v : string) (x : t) : t :=
  mk (id x) (camera_id x) v (verdict x) (severity_seed x) (severity_current x)
     (risk_score x) (confidence x) (time_down_s x) (acknowledged x) (ack_by x)
     (escalation_stage x) (plan_version x) (reasons_current x) (language x)
     (summary_text x) (frames_b64 x).

Definition set_verdict (v : string) (x : t) : t :=
  mk (id x) (camera_id x) (status x) v (severity_seed x) (severity_current x)
     (risk_score x) (confidence x) (time_down_s x) (acknowledged x) (ack_by x)
     (escalation_stage x) (plan_version x) (reasons_current x) (language x)
     (summary_text x) (frames_b64 x).

Definition set_severity_seed (v : Z) (x : t) : t :=
  mk (id x) (camera_id x) (status x) (verdict x) v (severity_current x)
     (risk_score x) (confidence x) (time_down_s x) (acknowledged x) (ack_by x)
     (escalation_stage x) (plan_version x) (reasons_current x) (language x)
     (summary_text x) (frames_b64 x).

Definition set_severity_current (v : Z) (x : t) : t :=
  mk (id x) (camera_id x) (status x) (verdict x) (severity_seed x) v
     (risk_score x) (confidence x) (time_down_s x) (acknowledged x) (ack_by x)
     (escalation_stage x) (plan_version x) (reasons_current x) (language x)
     (summary_text x) (frames_b64 x).

Definition set_confidence (v : Q) (x : t) : t :=
  mk (id x) (camera_id x) (status x) (verdict x) (severity_seed x)
     (severity_current x) (risk_score x) v (time_down_s x) (acknowledged x)
     (ack_by x) (escalation_stage x) (plan_version x) (reasons_current x)
     (language x) (summary_text x) (frames_b64 x).

Definition set_acknowledged (v : bool) (x : t) : t :=
  mk (id x) (camera_id x) (status x) (verdict x) (severity_seed x)
     (severity_current x) (risk_score x) (confidence x) (time_down_s x) v
     (ack_by x) (escalation_stage x) (plan_version x) (reasons_current x)
     (language x) (summary_text x) (frames_b64 x).

Definition set_ack_by (v : option string) (x : t) : t :=
  mk (id x) (camera_id x) (status x) (verdict x) (severity_seed x)
     (severity_current x) (risk_score x) (confidence x) (time_down_s x)
     (acknowledged x) v (escalation_stage x) (plan_version x)
     (reasons_current x) (language x) (summary_text x) (frames_b64 x).

Definition set_escalation_stage (v : Z) (x : t) : t :=
  mk (id x) (camera_id x) (status x) (verdict x) (severity_seed x)
     (severity_current x) (risk_score x) (confidence x) (time_down_s x)
     (acknowledged x) (ack_by x) v (plan_version x) (reasons_current x)
     (language x) (summary_text x) (frames_b64 x).

Definition set_plan_version (v : Z) (x : t) : t :=
  mk (id x) (camera_id x) (status x) (verdict x) (severity_seed x)
     (severity_current x) (risk_score x) (confidence x) (time_down_s x)
     (acknowledged x) (ack_by x) (escalation_stage x) v (reasons_current x)
     (language x) (summary_text x) (frames_b64 x).

Definition set_reasons_current (v : option (list string)) (x : t) : t :=
  mk (id x) (camera_id x) (status x) (verdict x) (severity_seed x)
     (severity_current x) (risk_score x) (confidence x) (time_down_s x)
     (acknowledged x) (ack_by x) (escalation_stage x) (plan_version x) v
     (language x) (summary_text x) (frames_b64 x).

Definition set_summary_text (v : option string) (x : t) : t :=
  mk (id x) (camera_id x) (status x) (verdict x) (severity_seed x)
     (severity_current x) (risk_score x) (confidence x) (time_down_s x)
     (acknowledged x) (ack_by x) (escalation_stage x) (plan_version x)
     (reasons_current x) (language x) v (frames_b64 x).

End Incident.

(** [models.IncidentPlan]. *)
Module IncidentPlan.

Record t := mk {
  incident_id : string;
  version : Z;
  model_used : string;
  verdict : string;
  severity_seed : Z;
  confidence : Q;
  reasons : list string;
  actions : list PlanAction;
  replan_interval_s : Q;
}.

End IncidentPlan.

(** [models.ActionLog]. *)
Module ActionLog.

Record t := mk {
  incident_id : string;
  camera_id : string;
  action_type : string;
  params : gmap string json;
  result : string;
}.

End ActionLog.

(** [models.ConfigUpdate]. *)
Module ConfigUpdate.

Record t := mk {
  camera_id : string;
  reason : string;
  confidence : Q;
  config_json : gmap string json;
  applied : bool;
}.

End ConfigUpdate.

(** ** The process state and its effects *)

(** The payload of a timeline event, one constructor per shape of
    dictionary that the modelled calls of [log_event] pass. *)
Inductive Payload :=
  | PTrigger (trigger_kind : string) (motion_energy stillness_score : Q)
  | PPlan (model : string) (version : Z) (plan : PlannerPlan)
  | PDecisions (decisions : list Guard.Decision)
  | PAction (action_type result : string) (params : gmap string json)
  | PAck (ack_by : string) (digit : option string)
  | PReason (reason : string) (digit : option string)
  | PStage (stage : Z) (digit : string)
  | PConfig (config : gmap string json) (reason : string)
  | PTick (severity_current : Z) (time_down_s : Q)
  | PReplan (version : Z) (plan : PlannerPlan)
  | PEscalation (stage : Z)
  | PDone (actions_executed : nat) (plan_id : string).

(** A row of [models.IncidentTimeline]. *)
Record TimelineEvent := mkEvent {
  ev_incident_id : string;
  ev_camera_id : string;
  ev_kind : string;
  ev_payload : Payload;
}.

(** The dictionary of [_build_incident_state], planner.py lines 58-69. *)
Record IncidentState := mkIncidentState {
  st_incident_id : string;
  st_status : string;
  st_severity_seed : Z;
  st_severity_current : Z;
  st_time_down_s : Q;
  st_acknowledged : bool;
  st_escalation_stage : Z;
  st_plan_version : Z;
  st_reasons_current : list string;
}.

(** The arguments of one call of [gemini_client.incident_plan]. *)
Record PlanRequest := mkPlanRequest {
  rq_frames_b64 : list string;
  rq_motion_energy : Q;
  rq_stillness_score : Q;
  rq_room_type : string;
  rq_policy_text : string;
  rq_incident_state : IncidentState;
  rq_agent_notes : list string;
  rq_mode : string;
}.

(** What a call of the planner client does: return text, or raise. *)
Inductive Reply :=
  | Text (raw : string)
  | Failure.

(** The tasks handed to [asyncio.create_task]; they are recorded, not
    run. *)
Inductive Task :=
  | ReplanLoop (incident_id camera_id : string) (interval_s : Q)
  | SeverityTicker (incident_id camera_id : string)
  | StrongVerify (incident_id : string).

(** What leaves through the SMS / voice gateway. *)
Inductive Outgoing :=
  | Sms (to_number body : string)
  | VoiceCall (to_number incident_id : string).

(** The state of the process: the tables of the store, the dictionaries
    of the guard, the registry of replan tasks, and what has gone out to
    the collaborators. *)
Record World := mkWorld {
  cameras : gmap string Camera.t;
  incidents : gmap string Incident.t;
  notification_policies : list NotificationPolicy.t;
  incident_plans : list IncidentPlan.t;
  action_logs : list ActionLog.t;
  config_updates : list ConfigUpdate.t;
  timeline : list TimelineEvent;
  guard : Guard.GuardState;
  _active_replan_tasks : gset string;
  spawned : list Task;
  gateway : list Outgoing;
  gemini_calls : list PlanRequest;
}.

(** One updater per field. *)
Definition upd_cameras
    (f : gmap string Camera.t
         -> gmap string Camera.t)
    (w : World) : World :=
  mkWorld (f (cameras w)) (incidents w) (notification_policies w)
     (incident_plans w) (action_logs w) (config_updates w) (timeline w)
     (guard w) (_active_replan_tasks w) (spawned w) (gateway w)
     (gemini_calls w).

Definition upd_incidents
    (f : gmap string Incident.t
         -> gmap string Incident.t)
    (w : World) : World :=
  mkWorld (cameras w) (f (incidents w)) (notification_policies w)
     (incident_plans w) (action_logs w) (config_updates w) (timeline w)
     (guard w) (_active_replan_tasks w) (spawned w) (gateway w)
     (gemini_calls w).

Definition upd_notification_policies
    (f : list NotificationPolicy.t
         -> list NotificationPolicy.t)
    (w : World) : World :=
  mkWorld (cameras w) (incidents w) (f (notification_policies w))
     (incident_plans w) (action_logs w) (config_updates w) (timeline w)
     (guard w) (_active_replan_tasks w) (spawned w) (gateway w)
     (gemini_calls w).

Definition upd_incident_plans
    (f : list IncidentPlan.t
         -> list IncidentPlan.t)
    (w : World) : World :=
  mkWorld (cameras w) (incidents w) (notification_policies w)
     (f (incident_plans w)) (action_logs w) (config_updates w) (timeline w)
     (guard w) (_active_replan_tasks w) (spawned w) (gateway w)
     (gemini_calls w).

Definition upd_action_logs
    (f : list ActionLog.t
         -> list ActionLog.t)
    (w : World) : World :=
  mkWorld (cameras w) (incidents w) (notification_policies w)
     (incident_plans w) (f (action_logs w)) (config_updates w) (timeline w)
     (guard w) (_active_replan_tasks w) (spawned w) (gateway w)
     (gemini_calls w).

Definition upd_config_updates
    (f : list ConfigUpdate.t
         -> list ConfigUpdate.t)
    (w : World) : World :=
  mkWorld (cameras w) (incidents w) (notification_policies w)
     (incident_plans w) (action_logs w) (f (config_updates w)) (timeline w)
     (guard w) (_active_replan_tasks w) (spawned w) (gateway w)
     (gemini_calls w).

Definition upd_timeline
    (f : list TimelineEvent
         -> list TimelineEvent)
    (w : World) : World :=
  mkWorld (cameras w) (incidents w) (notification_policies w)
     (incident_plans w) (action_logs w) (config_updates w) (f (timeline w))
     (guard w) (_active_replan_tasks w) (spawned w) (gateway w)
     (gemini_calls w).

Definition upd_guard
    (f : Guard.GuardState
         -> Guard.GuardState)
    (w : World) : World :=
  mkWorld (cameras w) (incidents w) (notification_policies w)
     (incident_plans w) (action_logs w) (config_updates w) (timeline w)
     (f (guard w)) (_active_replan_tasks w) (spawned w) (gateway w)
     (gemini_calls w).

Definition upd_active_replan_tasks
    (f : gset string
         -> gset string)
    (w : World) : World :=
  mkWorld (cameras w) (incidents w) (notification_policies w)
     (incident_plans w) (action_logs w) (config_updates w) (timeline w)
     (guard w) (f (_active_replan_tasks w)) (spawned w) (gateway w)
     (gemini_calls w).

Definition upd_spawned
    (f : list Task
         -> list Task)
    (w : World) : World :=
  mkWorld (cameras w) (incidents w) (notification_policies w)
     (incident_plans w) (action_logs w) (config_updates w) (timeline w)
     (guard w) (_active_replan_tasks w) (f (spawned w)) (gateway w)
     (gemini_calls w).

Definition upd_gateway
    (f : list Outgoing
         -> list Outgoing)
    (w : World) : World :=
  mkWorld (cameras w) (incidents w) (notification_policies w)
     (incident_plans w) (action_logs w) (config_updates w) (timeline w)
     (guard w) (_active_replan_tasks w) (spawned w) (f (gateway w))
     (gemini_calls w).

Definition upd_gemini_calls
    (f : list PlanRequest
         -> list PlanRequest)
    (w : World) : World :=
  mkWorld (cameras w) (incidents w) (notification_policies w)
     (incident_plans w) (action_logs w) (config_updates w) (timeline w)
     (guard w) (_active_replan_tasks w) (spawned w) (gateway w)
     (f (gemini_calls w)).

(** The exceptions that the modelled code can raise. *)
Inductive Exn :=
  | MultipleResultsFound
  | NoResultFound
  | HTTPException (status_code : Z) (detail : string)
  | PlannerError.

Inductive Outcome (A : Type) :=
  | Ok (a : A)
  | Raise (e : Exn).
Arguments Ok {A} a.
Arguments Raise {A} e.

(** A computation over the process state that returns or raises. *)
Definition M (A : Type) : Type := World -> Outcome A * World.

Definition ret {A} (a : A) : M A := fun w => (Ok a, w).

Definition bind {A B} (m : M A) (k : A -> M B) : M B :=
  fun w =>
    match m w with
    | (Ok a, w1) => k a w1
    | (Raise e, w1) => (Raise e, w1)
    end.

Definition raise {A} (e : Exn) : M A := fun w => (Raise e, w).

Definition get : M World := fun w => (Ok w, w).

Definition modify (f : World -> World) : M unit := fun w => (Ok tt, f w).

(** [try: m except Exception: handler]. *)
Definition try_except {A} (m : M A) (handler : Exn -> M A) : M A :=
  fun w =>
    match m w with
    | (Ok a, w1) => (Ok a, w1)
    | (Raise e, w1) => handler e w1
    end.

(** [for x in xs: body x]. *)
Fixpoint for_each {A} (xs : list A) (body : A -> M unit) : M unit :=
  match xs with
  | [] => ret tt
  | x :: rest => bind (body x) (fun _ => for_each rest body)
  end.

Notation "'let!' x ':=' m 'in' k" := (bind m (fun x => k))
  (at level 10, x name, m at level 100, k at level 200).
Notation "m '>>' k" := (bind m (fun _ => k))
  (at level 100, k at level 200, right associativity).

(** [result.scalar_one_or_none()] over the rows a query selects. *)
Definition scalar_one_or_none {A} (rows : list A) : M (option A) :=
  match rows with
  | [] => ret None
  | [row] => ret (Some row)
  | _ :: _ :: _ => raise MultipleResultsFound
  end.

(** [result.scalar_one()]. *)
Definition scalar_one {A} (rows : list A) : M A :=
  match rows with
  | [] => raise NoResultFound
  | [row] => ret row
  | _ :: _ :: _ => raise MultipleResultsFound
  end.

(** [select(Camera).where(Camera.id == camera_id)], by primary key. *)
Definition select_camera (camera_id : string) : M (option Camera.t) :=
  let! w := get in
  scalar_one_or_none (option_list (cameras w !! camera_id)).

(** [select(Incident).where(Incident.id == incident_id)], by primary key. *)
Definition incidents_by_id (incident_id : string) (w : World)
    : list Incident.t :=
  option_list (incidents w !! incident_id).

(** [select(Incident).where(Incident.camera_id == camera_id,
    Incident.status == "ACTIVE")]. *)
Definition active_incidents (camera_id : string) (w : World)
    : list Incident.t :=
  filter (fun inc => Incident.camera_id inc = camera_id
                     /\ Incident.status inc = "ACTIVE")
         (map_to_list (incidents w)).*2.

(** [select(NotificationPolicy).where(NotificationPolicy.camera_id ==
    camera_id)]. *)
Definition policies_of (camera_id : string) (w : World)
    : list NotificationPolicy.t :=
  filter (fun pol => NotificationPolicy.camera_id pol = camera_id)
         (notification_policies w).

(** [db.add(incident)] followed by [db.commit()]. *)
Definition add_incident (inc : Incident.t) : M unit :=
  modify (upd_incidents (insert (Incident.id inc) inc)).

(** Attribute assignments on the row that was loaded under the primary key
    [key], followed by [db.commit()]: the row under [key] becomes [inc]. *)
Definition update_incident (key : string) (inc : Incident.t) : M unit :=
  modify (upd_incidents (insert key inc)).

Definition update_camera (key : string) (cam : Camera.t) : M unit :=
  modify (upd_cameras (insert key cam)).

(** ** core/logging.py *)

(** [log_event], lines 30-77: the event is appended to the timeline
    table; the warehouse queue and the broadcast receive the same event. *)
Definition log_event (incident_id camera_id kind : string)
    (payload : Payload) : M unit :=
  modify (upd_timeline
            (fun t => t ++ [mkEvent incident_id camera_id kind payload])).

(** ** The collaborators outside the repository

    The planner client, the SMS / voice gateway and the library code that
    parses and formats text are taken as they answer, not as they work.
    [incident_plan n req] is the reply of the planner client to the request
    [req] when [n] calls were made before it; [send_sms] and
    [start_voice_call] return the identifier that the gateway hands back,
    or [None]; [_parse_plan] is planner.py lines 72-83 ([json.loads] and
    the validation of [PlannerPlan]); [_generate_summary],
    [_build_policy_text] and [py_str] format numbers as Python does;
    [_get_active_notes] reads the agent notes, which nothing below
    writes. *)
Record Env := mkEnv {
  incident_plan : nat -> PlanRequest -> Reply;
  _parse_plan : string -> option PlannerPlan;
  _generate_summary : Incident.t -> string;
  _build_policy_text : option NotificationPolicy.t -> Camera.t -> string;
  _get_active_notes : string -> list string;
  send_sms : string -> string -> option string;
  start_voice_call : string -> string -> option string;
  py_str : json -> string;
}.

(** [s or d] on strings. *)
Definition str_or (s d : string) : string :=
  if decide (s = "") then d else s.

(** [f"{sid}"] for an optional identifier. *)
Definition fmt_sid (sid : option string) : string := default "None" sid.

(** [str(e)] for the exceptions of the model. *)
Definition Exn_str (e : Exn) : string :=
  match e with
  | MultipleResultsFound =>
      "Multiple rows were found when one or none was required"
  | NoResultFound => "No row was found when one was required"
  | HTTPException _ detail => detail
  | PlannerError => "planner error"
  end.

(** ** core/executor.py *)

Module Executor.
Section WithEnv.
Variable env : Env.

Definition twilio_send_sms (to_number body : string) : M (option string) :=
  modify (upd_gateway (fun out => out ++ [Sms to_number body])) >>
  ret (send_sms env to_number body).

Definition twilio_start_voice_call (to_number incident_id : string)
    : M (option string) :=
  modify (upd_gateway (fun out => out ++ [VoiceCall to_number incident_id]))
  >> ret (start_voice_call env to_number incident_id).

(** [_run_action], lines 67-126. *)
Definition _run_action (action : PlanAction)
    (incident_id camera_id primary_contact backup_contact summary_text
       : string) : M string :=
  try_except
    (match type action with
     | SEND_SMS_PRIMARY =>
         let body :=
           "🚨 CamGuard Alert: "
           +:+ str_or summary_text "Possible fall detected."
           +:+ " Incident: " +:+ String.substring 0 8 incident_id in
         let! sid := twilio_send_sms primary_contact body in
         ret ("SMS sent: " +:+ fmt_sid sid)
     | SEND_LOW_PRIORITY_HEADSUP =>
         let body :=
           "ℹ️ CamGuard Heads-up: Risk score rising for camera "
           +:+ String.substring 0 8 camera_id +:+ ". " +:+ summary_text in
         let! sid := twilio_send_sms primary_contact body in
         ret ("Heads-up SMS sent: " +:+ fmt_sid sid)
     | START_VOICE_CALL_PRIMARY =>
         let! sid := twilio_start_voice_call primary_contact incident_id in
         ret ("Voice call started: " +:+ fmt_sid sid)
     | ESCALATE_TO_BACKUP =>
         let body :=
           "🚨 CamGuard ESCALATION: "
           +:+ str_or summary_text "Fall not acknowledged."
           +:+ " Incident: " +:+ String.substring 0 8 incident_id in
         let! sid := twilio_send_sms backup_contact body in
         let! call_sid :=
           twilio_start_voice_call backup_contact incident_id in
         ret ("Escalated to backup: SMS=" +:+ fmt_sid sid
              +:+ ", Call=" +:+ fmt_sid call_sid)
     | CANCEL_ESCALATION => ret "Escalation cancelled"
     | CLOSE_INCIDENT =>
         let! w := get in
         let! incident := scalar_one_or_none (incidents_by_id incident_id w) in
         match incident with
         | Some incident =>
             update_incident incident_id
               (Incident.set_status "CLOSED" incident)
         | None => ret tt
         end >>
         ret "Incident closed"
     | INCREASE_CHECK_RATE =>
         let new_interval :=
           match params action !! "interval_s" with
           | Some v => py_str env v
           | None => "10"
           end in
         ret ("Check rate increased to " +:+ new_interval +:+ "s")
     | REQUEST_STRONG_VERIFY => ret "Strong verification requested"
     end)
    (fun e => ret ("Error: " +:+ Exn_str e)).

(** The body of the loop of [execute_actions], lines 29-64; the wait of
    [delay_s] seconds changes no state. *)
Definition execute_one
    (incident_id camera_id primary_contact backup_contact summary_text
       : string) (action : PlanAction) : M unit :=
  let! result :=
    _run_action action incident_id camera_id primary_contact
                backup_contact summary_text in
  modify (upd_action_logs (fun rows =>
    rows ++ [ActionLog.mk incident_id camera_id
               (ActionType_value (type action)) (params action) result]))
  >>
  log_event incident_id camera_id "ACTION_EXECUTED"
    (PAction (ActionType_value (type action)) result (params action)).

(** [execute_actions], lines 19-64. *)
Definition execute_actions (actions : list PlanAction)
    (incident_id camera_id primary_contact backup_contact summary_text
       : string) : M unit :=
  for_each actions
    (execute_one incident_id camera_id primary_contact backup_contact
                 summary_text).

End WithEnv.
End Executor.

(** ** core/planner.py *)

Module Planner.

(** [_fallback_plan], lines 86-98. *)
Definition _fallback_plan (motion_energy : Q) (voice_enabled : bool)
    : PlannerPlan :=
  let sev := if Qgtb motion_energy 0.8 then 4 else 3 in
  let actions := [mkPlanAction SEND_SMS_PRIMARY 0 ∅] in
  let actions :=
    if voice_enabled && (4 <=? sev)
    then actions ++ [mkPlanAction START_VOICE_CALL_PRIMARY 1.0 ∅]
    else actions in
  mkPlannerPlan POSSIBLE_FALL sev 0.3
    ["Fallback plan: Gemini unavailable or returned invalid response"]
    actions 5.0.

(** [needs_strong_verify], lines 101-106. *)
Definition needs_strong_verify (plan : PlannerPlan) : bool :=
  if bool_decide (verdict plan = POSSIBLE_FALL)
     && Qltb (confidence plan) 0.6 then true
  else if (4 <=? severity_seed plan) && Qltb (confidence plan) 0.7 then true
  else false.

(** [_build_incident_state], lines 58-69. *)
Definition _build_incident_state (incident : Incident.t) : IncidentState :=
  mkIncidentState
    (Incident.id incident) (Incident.status incident)
    (Incident.severity_seed incident) (Incident.severity_current incident)
    (Incident.time_down_s incident) (Incident.acknowledged incident)
    (Incident.escalation_stage incident) (Incident.plan_version incident)
    (default [] (Incident.reasons_current incident)).

(** What [handle_incident] returns: the dictionary with the key ["error"],
    or the dictionary of lines 391-397. *)
Inductive Result :=
  | CameraNotFound
  | Planned (incident_id : string) (plan_version : Z) (verdict : string)
            (severity : Z) (actions_executed : nat).

(** [cancel_replan], lines 622-625. *)
Definition cancel_replan (incident_id : string) : M unit :=
  modify (upd_active_replan_tasks (fun tasks => tasks ∖ {[incident_id]})).

(** [_start_replan_loop], lines 464-581: the running task of the incident,
    if any, is cancelled and a new one is created and registered. *)
Definition _start_replan_loop (incident_id camera_id : string)
    (interval_s : Q) : M unit :=
  modify (upd_spawned
            (fun ts => ts ++ [ReplanLoop incident_id camera_id interval_s]))
  >>
  modify (upd_active_replan_tasks (fun tasks => {[incident_id]} ∪ tasks)).

(** [_start_severity_ticker], lines 584-619. *)
Definition _start_severity_ticker (incident_id camera_id : string)
    : M unit :=
  modify (upd_spawned
            (fun ts => ts ++ [SeverityTicker incident_id camera_id])).

Section WithEnv.
Variable env : Env.

(** One [await gemini_client.incident_plan(...)]. *)
Definition call_incident_plan (req : PlanRequest) : M string :=
  let! w := get in
  modify (upd_gemini_calls (fun calls => calls ++ [req])) >>
  match incident_plan env (length (gemini_calls w)) req with
  | Text raw => ret raw
  | Failure => raise PlannerError
  end.

(** The request of lines 288-297 and 304-313, for a given slice of the
    frames. *)
Definition incident_request (packet : TelemetryPacket.t)
    (policy_text : string) (incident_state : IncidentState)
    (agent_notes : list string) (frames : list string) : PlanRequest :=
  mkPlanRequest frames
    (TelemetryPacket.motion_energy packet)
    (TelemetryPacket.stillness_score packet)
    (TelemetryPacket.room_type packet)
    policy_text incident_state agent_notes "incident".

(** [handle_incident], lines 288-319: the call of the planner, the retry
    and the fallback. *)
Definition plan_with_retry (packet : TelemetryPacket.t) (camera : Camera.t)
    (policy_text : string) (incident_state : IncidentState)
    (agent_notes : list string) : M PlannerPlan :=
  let request :=
    incident_request packet policy_text incident_state agent_notes in
  let! raw_plan :=
    call_incident_plan
      (request (take 4 (TelemetryPacket.frames_jpeg_base64 packet))) in
  let plan := _parse_plan env raw_plan in
  let retry_count := 0 in
  let! plan :=
    if negb (bool_decide (is_Some plan)) && (retry_count =? 0) then
      try_except
        (let! raw_plan :=
           call_incident_plan
             (request (take 2 (TelemetryPacket.frames_jpeg_base64 packet)))
         in
         ret (_parse_plan env raw_plan))
        (fun _ => ret plan)
    else ret plan in
  ret (match plan with
       | Some plan => plan
       | None =>
           _fallback_plan (TelemetryPacket.motion_energy packet)
                          (Camera.voice_enabled camera)
       end).

(** The call of [approve_plan] of lines 365-371, at clock reading [now]. *)
Definition guard_plan (now : Q) (actions : list PlanAction)
    (camera_id : string) (camera : Camera.t) (incident : Incident.t)
    : M (list PlanAction * list Guard.Decision) :=
  let! w := get in
  let '(approved, decisions, g) :=
    Guard.approve_plan
      (Guard.default_args camera_id
         (Incident.acknowledged incident) (Camera.voice_enabled camera)
         (Camera.sms_enabled camera) (Incident.escalation_stage incident))
      now actions (guard w) in
  modify (upd_guard (fun _ => g)) >>
  ret (approved, decisions).

(** [handle_incident], lines 321-397: the plan is written to the incident
    and to the plan table, guarded and executed, and the tasks of the
    incident are started.  [incident] is the row as the first session
    loaded it. *)
Definition persist_and_execute (now : Q) (packet : TelemetryPacket.t)
    (camera : Camera.t) (incident : Incident.t) (plan : PlannerPlan)
    : M Result :=
  let incident_id := Incident.id incident in
  let camera_id := TelemetryPacket.camera_id packet in
  let! w := get in
  let! inc := scalar_one (incidents_by_id incident_id w) in
  let inc := Incident.set_plan_version (Incident.plan_version inc + 1) inc in
  let inc := Incident.set_severity_seed (severity_seed plan) inc in
  let inc := Incident.set_severity_current (severity_seed plan) inc in
  let inc := Incident.set_verdict (Verdict_value (verdict plan)) inc in
  let inc := Incident.set_confidence (confidence plan) inc in
  let inc := Incident.set_reasons_current (Some (reasons plan)) inc in
  let inc :=
    Incident.set_summary_text (Some (_generate_summary env inc)) inc in
  update_incident incident_id inc >>
  modify (upd_incident_plans (fun rows =>
    rows ++ [IncidentPlan.mk incident_id (Incident.plan_version inc) "fast"
               (Verdict_value (verdict plan)) (severity_seed plan)
               (confidence plan) (reasons plan) (actions plan)
               (replan_interval_s plan)])) >>
  log_event incident_id camera_id "PLAN_CREATED"
    (PPlan "fast" (Incident.plan_version inc) plan) >>
  let! guarded :=
    guard_plan now (actions plan) camera_id camera incident in
  log_event incident_id camera_id "PLAN_APPROVED" (PDecisions guarded.2) >>
  Executor.execute_actions env guarded.1 incident_id camera_id
    (Camera.primary_contact camera) (Camera.backup_contact camera)
    (match Incident.summary_text incident with
     | Some s => str_or s (_generate_summary env incident)
     | None => _generate_summary env incident
     end) >>
  (if needs_strong_verify plan
   then modify (upd_spawned (fun ts => ts ++ [StrongVerify incident_id]))
   else ret tt) >>
  _start_replan_loop incident_id camera_id (replan_interval_s plan) >>
  _start_severity_ticker incident_id camera_id >>
  ret (Planned incident_id (Incident.plan_version inc)
         (Verdict_value (verdict plan)) (severity_seed plan)
         (length guarded.1)).

(** [handle_incident], lines 272-397, once the incident of the trigger is
    known. *)
Definition plan_incident (now : Q) (packet : TelemetryPacket.t)
    (camera : Camera.t) (incident : Incident.t) : M Result :=
  let camera_id := TelemetryPacket.camera_id packet in
  let! w := get in
  let! policy := scalar_one_or_none (policies_of camera_id w) in
  log_event (Incident.id incident) camera_id "TRIGGER_RECEIVED"
    (PTrigger "FALL_TRIGGER" (TelemetryPacket.motion_energy packet)
              (TelemetryPacket.stillness_score packet)) >>
  let policy_text := _build_policy_text env policy camera in
  let agent_notes := _get_active_notes env camera_id in
  let incident_state := _build_incident_state incident in
  let! plan :=
    plan_with_retry packet camera policy_text incident_state agent_notes in
  persist_and_execute now packet camera incident plan.

(** The [language] of a new incident, line 266. *)
Definition incident_language (packet : TelemetryPacket.t)
    (camera : Camera.t) : string :=
  match Camera.config camera with
  | Some config =>
      if decide (config = ∅) then "en"
      else
        match TelemetryPacket.language packet with
        | Some l =>
            if decide (l = "") then
              match config !! "language" with
              | Some (JStr s) => s
              | Some v => py_str env v
              | None => "en"
              end
            else l
        | None =>
            match config !! "language" with
            | Some (JStr s) => s
            | Some v => py_str env v
            | None => "en"
            end
        end
  | None => "en"
  end.

(** The row of lines 260-267, with the column defaults of [models.py];
    [new_id] is the identifier that [uuid.uuid4()] draws. *)
Definition new_incident (new_id : string) (packet : TelemetryPacket.t)
    (camera : Camera.t) : Incident.t :=
  Incident.mk new_id (TelemetryPacket.camera_id packet) "ACTIVE"
    "POSSIBLE_FALL" 3 3 0.8 0.0 0.0 false None 0 0 (Some [])
    (incident_language packet camera) None
    (Some (take 4 (TelemetryPacket.frames_jpeg_base64 packet))).

(** [handle_incident], lines 239-397.  [now] is the clock reading of the
    call of [approve_plan]. *)
Definition handle_incident (now : Q) (new_id : string)
    (packet : TelemetryPacket.t) : M Result :=
  let! camera := select_camera (TelemetryPacket.camera_id packet) in
  match camera with
  | None => ret CameraNotFound
  | Some camera =>
      let! w := get in
      let! active_incident :=
        scalar_one_or_none
          (active_incidents (TelemetryPacket.camera_id packet) w) in
      let! incident :=
        match active_incident with
        | Some active_incident => ret active_incident
        | None =>
            let incident := new_incident new_id packet camera in
            add_incident incident >> ret incident
        end in
      plan_incident now packet camera incident
  end.

End WithEnv.
End Planner.

(** ** api/incidents.py *)

Module IncidentsApi.

(** [acknowledge_incident], lines 49-71; [ack_by] is [req.ack_by].  The
    result is the pair of the values of ["status"] and ["incident_id"]. *)
Definition acknowledge_incident (incident_id ack_by : string)
    : M (string * string) :=
  let! w := get in
  let! incident := scalar_one_or_none (incidents_by_id incident_id w) in
  match incident with
  | None => raise (HTTPException 404 "Incident not found")
  | Some incident =>
      let incident := Incident.set_acknowledged true incident in
      let incident := Incident.set_ack_by (Some ack_by) incident in
      let incident := Incident.set_status "ACKED" incident in
      update_incident incident_id incident >>
      Planner.cancel_replan incident_id >>
      modify (upd_guard
                (Guard.reset_camera_state (Incident.camera_id incident))) >>
      log_event incident_id (Incident.camera_id incident) "ACK_RECEIVED"
        (PAck ack_by None) >>
      ret ("acknowledged", incident_id)
  end.

(** [false_alarm], lines 74-96.  The result is the pair of the values of
    ["status"] and ["reason"]. *)
Definition false_alarm (incident_id : string) : M (string * string) :=
  let! w := get in
  let! incident := scalar_one_or_none (incidents_by_id incident_id w) in
  match incident with
  | None => raise (HTTPException 404 "Incident not found")
  | Some incident =>
      let incident := Incident.set_status "CLOSED" incident in
      let incident := Incident.set_verdict "FALSE_ALARM" incident in
      let incident := Incident.set_acknowledged true incident in
      update_incident incident_id incident >>
      Planner.cancel_replan incident_id >>
      modify (upd_guard
                (Guard.reset_camera_state (Incident.camera_id incident))) >>
      log_event incident_id (Incident.camera_id incident) "CLOSED"
        (PReason "false_alarm" None) >>
      ret ("closed", "false_alarm")
  end.

End IncidentsApi.

(** ** api/twilio.py *)

Module TwilioApi.

(** A Python string is modelled by the bytes of its UTF-8 encoding, so a
    character takes one to four bytes.  [str.strip()] removes the
    characters for which [str.isspace()] holds: U+0009 to U+000D, U+001C to
    U+0020, U+0085, U+00A0, U+1680, U+2000 to U+200A, U+2028, U+2029,
    U+202F, U+205F and U+3000. *)

(** The white space of one byte: U+0009 to U+000D and U+001C to U+0020. *)
Definition is_space (a : Ascii.ascii) : bool :=
  let n := Ascii.nat_of_ascii a in
  ((9 <=? n)%nat && (n <=? 13)%nat) || ((28 <=? n)%nat && (n <=? 32)%nat).

(** The white space of two bytes: U+0085 (C2 85) and U+00A0 (C2 A0). *)
Definition is_space2 (a b : Ascii.ascii) : bool :=
  let m := Ascii.nat_of_ascii a in
  let n := Ascii.nat_of_ascii b in
  ((m =? 194) && ((n =? 133) || (n =? 160)))%nat.

(** The white space of three bytes: U+1680 (E1 9A 80), U+2000 to U+200A
    (E2 80 80 to E2 80 8A), U+2028, U+2029 and U+202F (E2 80 A8, A9 and
    AF), U+205F (E2 81 9F) and U+3000 (E3 80 80). *)
Definition is_space3 (a b c : Ascii.ascii) : bool :=
  let l := Ascii.nat_of_ascii a in
  let m := Ascii.nat_of_ascii b in
  let n := Ascii.nat_of_ascii c in
  (((l =? 225) && (m =? 154) && (n =? 128))
   || ((l =? 226) && (m =? 128)
       && (((128 <=? n) && (n <=? 138))
           || (n =? 168) || (n =? 169) || (n =? 175)))
   || ((l =? 226) && (m =? 129) && (n =? 159))
   || ((l =? 227) && (m =? 128) && (n =? 128)))%nat.

(** The string without the white space it starts with.  With [backwards]
    the bytes of [s] are read from the end of a string, so the bytes of a
    character come in the opposite order. *)
Fixpoint drop_space (backwards : bool) (s : string) : string :=
  match s with
  | String a rest =>
      if is_space a then drop_space backwards rest
      else
        match rest with
        | String b rest2 =>
            if (if backwards then is_space2 b a else is_space2 a b)
            then drop_space backwards rest2
            else
              match rest2 with
              | String c rest3 =>
                  if (if backwards then is_space3 c b a
                      else is_space3 a b c)
                  then drop_space backwards rest3
                  else s
              | EmptyString => s
              end
        | EmptyString => s
        end
  | EmptyString => EmptyString
  end.

Definition string_rev (s : string) : string :=
  String.string_of_list_ascii (rev (String.list_ascii_of_string s)).

(** [str.lstrip()] and [str.rstrip()]. *)
Definition lstrip (s : string) : string := drop_space false s.

Definition rstrip (s : string) : string :=
  string_rev (drop_space true (string_rev s)).

(** [str.strip()]. *)
Definition strip (s : string) : string := rstrip (lstrip s).

(** [dtmf_webhook], lines 33-99.  The result is the content of the
    response. *)
Definition dtmf_webhook (incident_id Digits : string) : M string :=
  let! w := get in
  let! incident := scalar_one_or_none (incidents_by_id incident_id w) in
  match incident with
  | None => ret "<Response><Say>Incident not found.</Say></Response>"
  | Some incident =>
      let digit := strip Digits in
      let! msg :=
        if decide (digit = "1") then
          let incident := Incident.set_acknowledged true incident in
          let incident := Incident.set_ack_by (Some "voice_dtmf") incident in
          let incident := Incident.set_status "ACKED" incident in
          update_incident incident_id incident >>
          Planner.cancel_replan incident_id >>
          modify (upd_guard
                    (Guard.reset_camera_state (Incident.camera_id incident)))
          >>
          log_event incident_id (Incident.camera_id incident) "ACK_RECEIVED"
            (PAck "voice_dtmf" (Some "1")) >>
          ret "Acknowledged. Escalation cancelled. Thank you."
        else if decide (digit = "2") then
          let incident := Incident.set_acknowledged true incident in
          let incident :=
            Incident.set_ack_by (Some "voice_dtmf_will_call") incident in
          let incident := Incident.set_status "ACKED" incident in
          update_incident incident_id incident >>
          Planner.cancel_replan incident_id >>
          log_event incident_id (Incident.camera_id incident) "ACK_RECEIVED"
            (PAck "voice_dtmf_will_call" (Some "2")) >>
          ret "Noted. You will call the monitored person. Escalation paused."
        else if decide (digit = "3") then
          let incident :=
            Incident.set_escalation_stage
              (Z.min (Incident.escalation_stage incident + 1) 2) incident in
          update_incident incident_id incident >>
          log_event incident_id (Incident.camera_id incident) "ESCALATION"
            (PStage (Incident.escalation_stage incident) "3") >>
          ret "Escalating to backup contact now."
        else if decide (digit = "4") then
          let incident := Incident.set_status "CLOSED" incident in
          let incident := Incident.set_verdict "FALSE_ALARM" incident in
          let incident := Incident.set_acknowledged true incident in
          update_incident incident_id incident >>
          Planner.cancel_replan incident_id >>
          modify (upd_guard
                    (Guard.reset_camera_state (Incident.camera_id incident)))
          >>
          log_event incident_id (Incident.camera_id incident) "CLOSED"
            (PReason "false_alarm_dtmf" (Some "4")) >>
          ret "Marked as false alarm. Incident closed."
        else ret "Invalid option. Goodbye." in
      ret ("<Response><Say voice='Polly.Joanna'>" +:+ msg
           +:+ "</Say></Response>")
  end.

End TwilioApi.

(** ** core/idle.py *)

Module Idle.

(** A row of [snowflake_client.read_config_suggestions]; [camera_id] and
    [config_json] may be null. *)
Record Suggestion := mkSuggestion {
  sg_id : string;
  sg_camera_id : option string;
  sg_reason : string;
  sg_confidence : Q;
  sg_config_json : option (gmap string json);
}.

(** [allowed_keys], lines 64-68. *)
Definition allowed_keys : gset string :=
  {[ "motion_spike_threshold"; "stillness_threshold";
     "risk_threshold_low"; "risk_threshold_high";
     "escalation_delay_s" ]}.

(** [is_camera_idle], lines 21-41. *)
Definition is_camera_idle (camera_id : string) : M bool :=
  let! camera := select_camera camera_id in
  match camera with
  | None => ret false
  | Some camera =>
      if Qgtb (Camera.risk_score camera) 0.3 then ret false
      else
        let! w := get in
        let! active := scalar_one_or_none (active_incidents camera_id w) in
        match active with
        | Some _ => ret false
        | None => ret true
        end
  end.

(** The body of the loop of [apply_config_suggestions], lines 50-115;
    every [continue] is the end of a branch. *)
Definition apply_suggestion (suggestion : Suggestion) : M unit :=
  let camera_id := default "" (sg_camera_id suggestion) in
  if decide (camera_id = "") then ret tt
  else
    let! idle := is_camera_idle camera_id in
    if negb idle then ret tt
    else
      let config_json := default ∅ (sg_config_json suggestion) in
      if decide (config_json = ∅) then ret tt
      else
        let filtered :=
          filter (fun kv => kv.1 ∈ allowed_keys) config_json in
        if decide (filtered = ∅) then ret tt
        else
          try_except
            (let! camera := select_camera camera_id in
             match camera with
             | None => ret tt
             | Some camera =>
                 let old_config := default ∅ (Camera.config camera) in
                 let new_config := filtered ∪ old_config in
                 update_camera camera_id
                   (Camera.set_config (Some new_config) camera) >>
                 modify (upd_config_updates (fun rows =>
                   rows ++ [ConfigUpdate.mk camera_id (sg_reason suggestion)
                              (sg_confidence suggestion) filtered true])) >>
                 log_event "system" camera_id "CONFIG_SUGGESTION_APPLIED"
                   (PConfig filtered (sg_reason suggestion))
             end)
            (fun _ => ret tt).

(** [apply_config_suggestions], lines 44-115, on the rows that the
    warehouse returned. *)
Definition apply_config_suggestions (suggestions : list Suggestion)
    : M unit :=
  for_each suggestions apply_suggestion.

(** Idleness as the specification words it: a risk score of at most 0.3
    and no ACTIVE incident on the camera. *)
Definition idle (w : World) (camera_id : string) : Prop :=
  exists camera,
    cameras w !! camera_id = Some camera
    /\ (Camera.risk_score camera <= 0.3)%Q
    /\ forall i inc,
         incidents w !! i = Some inc ->
         Incident.camera_id inc = camera_id ->
         Incident.status inc ≠ "ACTIVE".

(** The camera that a suggestion names; a null identifier counts as the
    empty one. *)
Definition target (s : Suggestion) : string := default "" (sg_camera_id s).

(** The suggested patch; a null patch counts as the empty one. *)
Definition patch (s : Suggestion) : gmap string json :=
  default ∅ (sg_config_json s).

(** When a suggestion is applied: it names a camera, the camera is idle,
    and the patch names at least one allowed key. *)
Definition applicable (s : Suggestion) (w : World) : Prop :=
  target s ≠ ""
  /\ idle w (target s)
  /\ exists k, k ∈ allowed_keys /\ is_Some (patch s !! k).

(** [camera.config.get(key)] for the camera stored under [camera_id]. *)
Definition config_value (w : World) (camera_id key : string)
    : option json :=
  match cameras w !! camera_id with
  | Some camera => default ∅ (Camera.config camera) !! key
  | None => None
  end.

(** The six recognised configuration keys of the specification. *)
Definition recognised_keys : gset string :=
  {[ "motion_spike_threshold"; "stillness_threshold";
     "risk_threshold_low"; "risk_threshold_high";
     "escalation_delay_s"; "check_interval_s" ]}.

End Idle.

(** ** What a computation does to the incident table *)

(** No incident row appears or disappears, and no row changes its
    frames. *)
Definition same_incidents (w w' : World) : Prop :=
  dom (incidents w') = dom (incidents w)
  /\ forall i inc',
       incidents w' !! i = Some inc' ->
       exists inc, incidents w !! i = Some inc
                   /\ Incident.frames_b64 inc' = Incident.frames_b64 inc.

(** A computation that keeps the incident rows in that sense, and whose
    result, when it returns, satisfies [Q]. *)
Definition ensures {A} (Q : A -> Prop) (m : M A) : Prop :=
  forall w, same_incidents w (m w).2 /\ forall a, (m w).1 = Ok a -> Q a.

Definition anything {A} : A -> Prop := fun _ => True.

(** What [handle_incident] returns for the incident [incident_id]. *)
Definition planned_for (incident_id : string) (r : Planner.Result) : Prop :=
  exists version verdict severity executed,
    r = Planner.Planned incident_id version verdict severity executed.

(** ** Concrete states and collaborators for the worked cases *)

Module Examples.

(** A camera with the default configuration of [models.Camera]. *)
Definition cam1 : Camera.t :=
  Camera.mk "cam1" "bedroom" "+15550100" "+15550101" true true 0.0
    (Some (list_to_map
       [ ("motion_spike_threshold", JNum 0.7);
         ("stillness_threshold", JNum 0.8);
         ("risk_threshold_low", JNum 0.3);
         ("risk_threshold_high", JNum 0.7);
         ("escalation_delay_s", JNum 60);
         ("check_interval_s", JNum 30) ])).

(** A closed, never acknowledged incident on [cam1]. *)
Definition closed_incident : Incident.t :=
  Incident.mk "inc1" "cam1" "CLOSED" "CONFIRMED_FALL" 4 5 0.9 0.8 130
    false None 1 2 (Some ["Person detected on the floor"]) "en" None
    (Some ["frame0"]).

(** An active incident on [cam1], of severity 5. *)
Definition active_incident : Incident.t :=
  Incident.mk "inc2" "cam1" "ACTIVE" "CONFIRMED_FALL" 5 5 0.9 0.8 130
    false None 1 2 (Some ["Person detected on the floor"]) "en" None
    (Some ["frame0"]).

(** The guard after one approved SMS and one approved call on [cam1]. *)
Definition contacted : Guard.GuardState :=
  Guard.mkGuardState {[ "cam1" := 100%Q ]} {[ "cam1" := 1 ]}.

Definition world_with (inc : Incident.t) (g : Guard.GuardState) : World :=
  mkWorld {[ "cam1" := cam1 ]} {[ Incident.id inc := inc ]}
          [] [] [] [] [] g ∅ [] [] [].

Definition closed_world : World := world_with closed_incident contacted.

Definition active_world : World := world_with active_incident Guard.initial.

(** A planner whose every reply fails to parse, and a gateway that
    answers every request. *)
Definition planner_down : Env :=
  mkEnv (fun _ _ => Text "not json") (fun _ => None)
        (fun _ => "summary") (fun _ _ => "policy") (fun _ => [])
        (fun _ _ => Some "SM1") (fun _ _ => Some "CA1") (fun _ => "?").

(** A planner whose replies all parse to one plan of severity seed 2. *)
Definition mild_plan : PlannerPlan :=
  mkPlannerPlan POSSIBLE_FALL 2 0.9 ["Person is sitting up"] [] 10.

Definition planner_mild : Env :=
  mkEnv (fun _ _ => Text "{}") (fun _ => Some mild_plan)
        (fun _ => "summary") (fun _ _ => "policy") (fun _ => [])
        (fun _ _ => Some "SM1") (fun _ _ => Some "CA1") (fun _ => "?").

(** A fall trigger on [cam1] carrying one frame, and one carrying three. *)
Definition trigger1 : TelemetryPacket.t :=
  TelemetryPacket.mk "cam1" "bedroom" 0.9 0.1 ["frame1"] None.

Definition trigger3 : TelemetryPacket.t :=
  TelemetryPacket.mk "cam1" "bedroom" 0.9 0.1
    ["frame1"; "frame2"; "frame3"] None.

(** A suggestion for [cam1] that only names [check_interval_s], and one
    that names an allowed key, [check_interval_s] and an unknown key. *)
Definition suggest_interval : Idle.Suggestion :=
  Idle.mkSuggestion "sg1" (Some "cam1") "tune" 0.9
    (Some {[ "check_interval_s" := JNum 10 ]}).

Definition suggest_mixed : Idle.Suggestion :=
  Idle.mkSuggestion "sg2" (Some "cam1") "tune" 0.9
    (Some (list_to_map
       [ ("escalation_delay_s", JNum 90);
         ("check_interval_s", JNum 10);
         ("frame_rate", JNum 5) ])).

End Examples.

(** ** core/guard.py: the decision of one action as a table *)

Module GuardTable.

(** The reason of the cooldown rejection, line 58. *)
Definition cooldown_message (p : Guard.Args) : string :=
  "Contact cooldown: " +:+ pretty (Guard.cooldown_contact_s p)
  +:+ "s not elapsed".

(** The reason with which an action of type [t] is rejected in the state
    [g], or [None] when it is approved: per type, the first test of the
    loop body that fails, in the order in which the body makes them. *)
Definition rejection (p : Guard.Args) (now : Q) (g : Guard.GuardState)
    (t : ActionType) : option string :=
  match t with
  | CLOSE_INCIDENT | CANCEL_ESCALATION
  | INCREASE_CHECK_RATE | REQUEST_STRONG_VERIFY => None
  | SEND_LOW_PRIORITY_HEADSUP =>
      if Guard.cooldown_elapsed p now g then None
      else Some (cooldown_message p)
  | SEND_SMS_PRIMARY =>
      if negb (Guard.cooldown_elapsed p now g) then
        Some (cooldown_message p)
      else if negb (Guard.sms_enabled p) then
        Some "SMS disabled for this camera"
      else None
  | START_VOICE_CALL_PRIMARY =>
      if negb (Guard.cooldown_elapsed p now g) then
        Some (cooldown_message p)
      else if negb (Guard.voice_enabled p) then
        Some "Voice disabled for this camera"
      else if Guard.call_count p g <? Guard.max_primary_call_attempts p then
        None
      else
        Some ("Max primary call attempts ("
              +:+ pretty (Guard.max_primary_call_attempts p)
              +:+ ") reached")
  | ESCALATE_TO_BACKUP =>
      if Guard.acknowledged p then
        Some "Already acknowledged – no backup escalation"
      else if Guard.escalation_stage p <? Guard.max_escalation_stage p then
        None
      else
        Some ("Max escalation stage ("
              +:+ pretty (Guard.max_escalation_stage p) +:+ ") reached")
  end.

(** The decision that goes with it. *)
Definition decision_for (p : Guard.Args) (now : Q) (g : Guard.GuardState)
    (a : PlanAction) : Guard.Decision :=
  match rejection p now g (type a) with
  | None => Guard.mkDecision (ActionType_value (type a)) true ""
  | Some why => Guard.mkDecision (ActionType_value (type a)) false why
  end.

(** The decisions of a list of actions and the state they leave, each
    decision taken in the state that the earlier approvals left. *)
Fixpoint table_run (p : Guard.Args) (now : Q) (g : Guard.GuardState)
    (actions : list PlanAction) : list Guard.Decision * Guard.GuardState :=
  match actions with
  | [] => ([], g)
  | a :: rest =>
      let d := decision_for p now g a in
      let g1 :=
        if Guard.approved d then Guard.on_approval p now g (type a)
        else g in
      let '(ds, g') := table_run p now g1 rest in
      (d :: ds, g')
  end.

(** How many actions of a list are voice calls to the primary contact,
    and how many are contact-class. *)
Definition voice_calls (actions : list PlanAction) : nat :=
  length (filter (fun a => type a = START_VOICE_CALL_PRIMARY) actions).

Definition contacts (actions : list PlanAction) : nat :=
  length (filter (fun a => type a ∈ Guard.contact_class) actions).

(** Two states of the guard that hold the same entries for a camera. *)
Definition agree_on (camera_id : string) (g1 g2 : Guard.GuardState)
    : Prop :=
  Guard._last_contact_time g1 !! camera_id
  = Guard._last_contact_time g2 !! camera_id
  /\ Guard._primary_call_counts g1 !! camera_id
     = Guard._primary_call_counts g2 !! camera_id.

End GuardTable.

(** ** core/planner.py: the severity ticker *)

Module Ticker.

(** Python's [int(x)] on a float: truncation towards zero. *)
Definition py_int (x : Q) : Z := Z.quot (Qnum x) (Z.pos (Qden x)).

(** The payload of a [SEVERITY_TICK] event, lines 609-613. *)
Record SeverityTick := mkSeverityTick {
  tick_severity_current : Z;
  tick_time_down_s : Q;
}.

(** [incident.time_down_s = v]. *)
Definition set_time_down_s (v : Q) (x : Incident.t) : Incident.t :=
  Incident.mk (Incident.id x) (Incident.camera_id x) (Incident.status x)
    (Incident.verdict x) (Incident.severity_seed x)
    (Incident.severity_current x) (Incident.risk_score x)
    (Incident.confidence x) v (Incident.acknowledged x) (Incident.ack_by x)
    (Incident.escalation_stage x) (Incident.plan_version x)
    (Incident.reasons_current x) (Incident.language x)
    (Incident.summary_text x) (Incident.frames_b64 x).

Section WithEnv.
Variable env : Env.

(** The row that one tick writes, lines 594-605. *)
Definition ticked (incident : Incident.t) : Incident.t :=
  let incident :=
    set_time_down_s (Incident.time_down_s incident + 1.0)%Q incident in
  let new_sev :=
    Severity.compute_severity
      (Incident.severity_seed incident) (Incident.time_down_s incident)
      0.7 0.1 (Incident.acknowledged incident) in
  let incident := Incident.set_severity_current new_sev incident in
  Incident.set_summary_text (Some (_generate_summary env incident)) incident.

(** One iteration of the loop of [_tick], lines 586-617, after the sleep.
    The result is [None] when the loop breaks; otherwise it holds the
    payload of the [SEVERITY_TICK] event that the iteration appends to the
    timeline, if it appends one.  An exception is logged and the loop
    goes on; the cancellation of the task is outside the model. *)
Definition _tick (incident_id camera_id : string)
    : M (option (option SeverityTick)) :=
  try_except
    (let! w := get in
     let! incident := scalar_one_or_none (incidents_by_id incident_id w) in
     match incident with
     | None => ret None
     | Some incident =>
         if negb (String.eqb (Incident.status incident) "ACTIVE")
         then ret None
         else
           let old_sev := Incident.severity_current incident in
           let incident := ticked incident in
           let new_sev := Incident.severity_current incident in
           update_incident incident_id incident >>
           if negb (new_sev =? old_sev)
              || (py_int (Incident.time_down_s incident) mod 5 =? 0)
           then
             log_event incident_id camera_id "SEVERITY_TICK"
               (PTick new_sev (Incident.time_down_s incident)) >>
             ret (Some (Some (mkSeverityTick
                                new_sev (Incident.time_down_s incident))))
           else ret (Some None)
     end)
    (fun _ => ret (Some None)).

(** What an iteration logs for the row [inc] found. *)
Definition tick_log (inc : Incident.t) : option SeverityTick :=
  if negb (Incident.severity_current (ticked inc)
           =? Incident.severity_current inc)
     || (py_int (Incident.time_down_s (ticked inc)) mod 5 =? 0)
  then Some (mkSeverityTick (Incident.severity_current (ticked inc))
                            (Incident.time_down_s (ticked inc)))
  else None.

(** The timeline events of an iteration that logs [logged]. *)
Definition tick_events (incident_id camera_id : string)
    (logged : option SeverityTick) : list TimelineEvent :=
  match logged with
  | Some tick =>
      [mkEvent incident_id camera_id "SEVERITY_TICK"
         (PTick (tick_severity_current tick) (tick_time_down_s tick))]
  | None => []
  end.

(** The loop of [_tick] for at most [n] wake-ups, when nothing else runs
    in between; the result is the list of the payloads logged. *)
Fixpoint run_ticker (n : nat) (incident_id camera_id : string)
    : M (list SeverityTick) :=
  match n with
  | O => ret []
  | S n =>
      let! step := _tick incident_id camera_id in
      match step with
      | None => ret []
      | Some logged =>
          let! rest := run_ticker n incident_id camera_id in
          ret (option_list logged ++ rest)
      end
  end.

End WithEnv.
End Ticker.

(** ** core/executor.py: what a run leaves behind *)

Module Trail.

(** The number that a message or a call goes to. *)
Definition recipient (o : Outgoing) : string :=
  match o with
  | Sms to_number _ => to_number
  | VoiceCall to_number _ => to_number
  end.

(** The timeline event that goes with a row of the action log,
    executor.py lines 60-64. *)
Definition logged_event (row : ActionLog.t) : TimelineEvent :=
  mkEvent (ActionLog.incident_id row) (ActionLog.camera_id row)
    "ACTION_EXECUTED"
    (PAction (ActionLog.action_type row) (ActionLog.result row)
             (ActionLog.params row)).

(** How many actions of a list escalate to the backup contact. *)
Definition escalations (actions : list PlanAction) : nat :=
  length (filter (fun a => type a = ESCALATE_TO_BACKUP) actions).

(** Whether a list holds a [CLOSE_INCIDENT]. *)
Definition closes (actions : list PlanAction) : bool :=
  bool_decide (Exists (fun a => type a = CLOSE_INCIDENT) actions).

(** The incident table with the row of [incident_id], if there is one,
    set to [CLOSED]. *)
Definition closed_rows (incident_id : string)
    (rows : gmap string Incident.t) : gmap string Incident.t :=
  match rows !! incident_id with
  | Some incident =>
      <[incident_id := Incident.set_status "CLOSED" incident]> rows
  | None => rows
  end.

(** The state [w] with a new incident table, and with rows appended to
    the action log, events to the timeline and messages to what went out
    through the gateway. *)
Definition extend (rows' : gmap string Incident.t)
    (logs : list ActionLog.t) (events : list TimelineEvent)
    (out : list Outgoing) (w : World) : World :=
  mkWorld (cameras w) rows' (notification_policies w) (incident_plans w)
    (action_logs w ++ logs) (config_updates w) (timeline w ++ events)
    (guard w) (_active_replan_tasks w) (spawned w) (gateway w ++ out)
    (gemini_calls w).

(** What the execution of one action of type [t] hands to the gateway. *)
Definition sends (incident_id primary_contact backup_contact : string)
    (t : ActionType) (out : list Outgoing) : Prop :=
  match t with
  | SEND_SMS_PRIMARY | SEND_LOW_PRIORITY_HEADSUP =>
      exists body, out = [Sms primary_contact body]
  | START_VOICE_CALL_PRIMARY => out = [VoiceCall primary_contact incident_id]
  | ESCALATE_TO_BACKUP =>
      exists body, out = [Sms backup_contact body;
                          VoiceCall backup_contact incident_id]
  | _ => out = []
  end.

(** The rows of the action log that go with a list of actions. *)
Definition rows_of (incident_id camera_id : string)
    (actions : list PlanAction) (logs : list ActionLog.t) : Prop :=
  Forall2 (fun a row =>
             row = ActionLog.mk incident_id camera_id
                     (ActionType_value (type a)) (params a)
                     (ActionLog.result row))
          actions logs.

End Trail.

(** ** What a computation leaves alone *)

(** The computation [m] never changes the part [f] of the state, whether
    it returns or raises. *)
Definition preserves {A X} (f : World -> X) (m : M A) : Prop :=
  forall w, f (m w).2 = f w.

(** The computation [m] hands at most [bound] messages to the gateway,
    each of them satisfying [R]; when it returns, its result satisfies
    [Q]. *)
Definition emits {A} (Q : A -> Prop) (bound : nat) (R : Outgoing -> Prop)
    (m : M A) : Prop :=
  forall w,
    (exists out, gateway (m w).2 = gateway w ++ out
                 /\ (length out <= bound)%nat /\ Forall R out)
    /\ forall a, (m w).1 = Ok a -> Q a.

(** ** api/twilio.py: the state after each digit *)

Module Digits.

(** The state that the webhook leaves for each of the four digits. *)
Definition after_digit (incident_id : string) (inc : Incident.t)
    (digit : string) (w : World) : World :=
  if decide (digit = "1") then
    upd_timeline
      (fun t => t ++ [mkEvent incident_id (Incident.camera_id inc)
                        "ACK_RECEIVED" (PAck "voice_dtmf" (Some "1"))])
      (upd_guard (Guard.reset_camera_state (Incident.camera_id inc))
         (upd_active_replan_tasks (fun tasks => tasks ∖ {[incident_id]})
            (upd_incidents
               (insert incident_id
                  (Incident.set_status "ACKED"
                     (Incident.set_ack_by (Some "voice_dtmf")
                        (Incident.set_acknowledged true inc))))
               w)))
  else if decide (digit = "2") then
    upd_timeline
      (fun t => t ++ [mkEvent incident_id (Incident.camera_id inc)
                        "ACK_RECEIVED"
                        (PAck "voice_dtmf_will_call" (Some "2"))])
      (upd_active_replan_tasks (fun tasks => tasks ∖ {[incident_id]})
         (upd_incidents
            (insert incident_id
               (Incident.set_status "ACKED"
                  (Incident.set_ack_by (Some "voice_dtmf_will_call")
                     (Incident.set_acknowledged true inc))))
            w))
  else if decide (digit = "3") then
    upd_timeline
      (fun t => t ++ [mkEvent incident_id (Incident.camera_id inc)
                        "ESCALATION"
                        (PStage (Z.min (Incident.escalation_stage inc + 1) 2)
                                "3")])
      (upd_incidents
         (insert incident_id
            (Incident.set_escalation_stage
               (Z.min (Incident.escalation_stage inc + 1) 2) inc))
         w)
  else if decide (digit = "4") then
    upd_timeline
      (fun t => t ++ [mkEvent incident_id (Incident.camera_id inc)
                        "CLOSED" (PReason "false_alarm_dtmf" (Some "4"))])
      (upd_guard (Guard.reset_camera_state (Incident.camera_id inc))
         (upd_active_replan_tasks (fun tasks => tasks ∖ {[incident_id]})
            (upd_incidents
               (insert incident_id
                  (Incident.set_acknowledged true
                     (Incident.set_verdict "FALSE_ALARM"
                        (Incident.set_status "CLOSED" inc))))
               w)))
  else w.

End Digits.

(** ** core/planner.py: what the incident path never writes *)

(** The columns of an incident that [handle_incident] only ever sets when
    it creates the row. *)
Record Kept := mkKept {
  kept_id : string;
  kept_camera_id : string;
  kept_risk_score : Q;
  kept_time_down_s : Q;
  kept_acknowledged : bool;
  kept_ack_by : option string;
  kept_escalation_stage : Z;
  kept_language : string;
  kept_frames_b64 : option (list string);
}.

Definition kept_columns (inc : Incident.t) : Kept :=
  mkKept (Incident.id inc) (Incident.camera_id inc)
    (Incident.risk_score inc) (Incident.time_down_s inc)
    (Incident.acknowledged inc) (Incident.ack_by inc)
    (Incident.escalation_stage inc) (Incident.language inc)
    (Incident.frames_b64 inc).

(** Those columns of the row stored under [i], if there is one. *)
Definition kept_at (i : string) (w : World) : option Kept :=
  kept_columns <$> incidents w !! i.

(** ** More states and collaborators for the worked cases *)

Module Cases.

(** A second active incident on [cam1]. *)
Definition other_active : Incident.t :=
  Incident.mk "inc3" "cam1" "ACTIVE" "POSSIBLE_FALL" 3 3 0.8 0.0 2
    false None 0 1 (Some []) "en" None (Some ["frame9"]).

(** [cam1] with two active incidents. *)
Definition two_active_world : World :=
  mkWorld {[ "cam1" := Examples.cam1 ]}
          (<[ "inc3" := other_active ]>
             {[ "inc2" := Examples.active_incident ]})
          [] [] [] [] [] Guard.initial ∅ [] [] [].

(** [cam1] with no incident at all. *)
Definition quiet_world : World :=
  mkWorld {[ "cam1" := Examples.cam1 ]} ∅ [] [] [] [] []
          Guard.initial ∅ [] [] [].

(** A planner client that raises on every call. *)
Definition planner_raises : Env :=
  mkEnv (fun _ _ => Failure) (fun _ => None)
        (fun _ => "summary") (fun _ _ => "policy") (fun _ => [])
        (fun _ _ => Some "SM1") (fun _ _ => Some "CA1") (fun _ => "?").

End Cases.

(** ** core/planner.py: the strong verification task *)

Module StrongVerify.
Section WithEnv.
Variable env : Env.

(** The second collaborator of the planner, [gemini_client.strong_verify]:
    its reply to the frames, the two scores, the current plan and the
    state of the incident. *)
Variable strong_verify :
  list string -> Q -> Q -> PlannerPlan -> IncidentState -> Reply.

(** [_strong_verify_task], lines 400-461. *)
Definition _strong_verify_task (incident_id : string)
    (packet : TelemetryPacket.t) (current_plan : PlannerPlan) : M unit :=
  try_except
    (let! w := get in
     let! incident := scalar_one_or_none (incidents_by_id incident_id w) in
     match incident with
     | None => ret tt
     | Some incident =>
         let! raw :=
           match strong_verify
                   (take 4 (TelemetryPacket.frames_jpeg_base64 packet))
                   (TelemetryPacket.motion_energy packet)
                   (TelemetryPacket.stillness_score packet)
                   current_plan (Planner._build_incident_state incident)
           with
           | Text raw => ret raw
           | Failure => raise PlannerError
           end in
         match _parse_plan env raw with
         | None => ret tt
         | Some strong_plan =>
             let! w := get in
             let! inc := scalar_one (incidents_by_id incident_id w) in
             let inc :=
               Incident.set_plan_version (Incident.plan_version inc + 1) inc in
             let inc :=
               Incident.set_verdict (Verdict_value (verdict strong_plan)) inc in
             let inc :=
               Incident.set_confidence (confidence strong_plan) inc in
             let inc :=
               Incident.set_reasons_current (Some (reasons strong_plan)) inc in
             let inc :=
               Incident.set_summary_text
                 (Some (_generate_summary env inc)) inc in
             update_incident incident_id inc >>
             modify (upd_incident_plans (fun rows =>
               rows ++ [IncidentPlan.mk incident_id
                          (Incident.plan_version inc) "strong"
                          (Verdict_value (verdict strong_plan))
                          (severity_seed strong_plan)
                          (confidence strong_plan) (reasons strong_plan)
                          (actions strong_plan)
                          (replan_interval_s strong_plan)])) >>
             log_event incident_id (TelemetryPacket.camera_id packet)
               "PLAN_CREATED"
               (PPlan "strong" (Incident.plan_version inc) strong_plan)
         end
     end)
    (fun _ => ret tt).

(** The plan that the task obtains for the row [inc] of the incident:
    the parsed reply of the client, if it replies and the reply parses. *)
Definition strong_plan_for (packet : TelemetryPacket.t)
    (current_plan : PlannerPlan) (inc : Incident.t) : option PlannerPlan :=
  match strong_verify (take 4 (TelemetryPacket.frames_jpeg_base64 packet))
          (TelemetryPacket.motion_energy packet)
          (TelemetryPacket.stillness_score packet) current_plan
          (Planner._build_incident_state inc)
  with
  | Text raw => _parse_plan env raw
  | Failure => None
  end.

End WithEnv.
End StrongVerify.

(** ** api/vision.py: the plan of an incident created from a video upload *)

Module VisionApi.

(** [Verdict(verdict)], line 246: the member of the enumeration whose
    value is the string [s], if there is one. *)
Definition Verdict_of (s : string) : option Verdict :=
  if decide (s = "NO_INCIDENT") then Some NO_INCIDENT
  else if decide (s = "POSSIBLE_FALL") then Some POSSIBLE_FALL
  else if decide (s = "CONFIRMED_FALL") then Some CONFIRMED_FALL
  else if decide (s = "FALSE_ALARM") then Some FALSE_ALARM
  else None.

(** The actions of lines 233-243. *)
Definition upload_actions (severity : Z) : list PlanAction :=
  if 4 <=? severity then
    [ mkPlanAction SEND_SMS_PRIMARY 0 ∅;
      mkPlanAction START_VOICE_CALL_PRIMARY 1.0 ∅ ]
  else
    [ mkPlanAction SEND_SMS_PRIMARY 0 ∅;
      mkPlanAction INCREASE_CHECK_RATE 0 {[ "interval_s" := JNum 10 ]} ].

(** The fields of the plan of lines 245-252, for the member [v] that
    [Verdict(verdict)] returns. *)
Definition plan_fields (severity : Z) (v : Verdict) (verdict : string)
    : PlannerPlan :=
  mkPlannerPlan v severity 0.75 ["Video upload detection: " +:+ verdict]
    (upload_actions severity) 10.0.

Section WithEnv.
Variable env : Env.

(** The exceptions of the two constructors of lines 245-252: the
    [ValueError] of [Verdict(verdict)] for a string that is no value of
    the enumeration, and the [ValidationError] of [PlannerPlan] for a
    severity outside 1..5 (schemas.py line 100).  The function catches
    neither. *)
Variable value_error : Exn.
Variable validation_error : Exn.

(** The plan of lines 233-252.  The argument [Verdict(verdict)] is
    evaluated before [PlannerPlan] validates its fields; the confidence
    0.75 and the interval 10.0 are within their bounds. *)
Definition upload_plan (severity : Z) (verdict : string) : M PlannerPlan :=
  match Verdict_of verdict with
  | None => raise value_error
  | Some v =>
      if (1 <=? severity) && (severity <=? 5)
      then ret (plan_fields severity v verdict)
      else raise validation_error
  end.

(** The first [try] block, lines 258-286: the version of the stored plan,
    or [None] after a [PLAN_FAILED]. *)
Definition store_plan (inc_id camera_id : string) (plan : PlannerPlan)
    : M (option Z) :=
  try_except
    (let! w := get in
     let! inc := scalar_one_or_none (incidents_by_id inc_id w) in
     match inc with
     | None =>
         log_event inc_id camera_id "PLAN_FAILED"
           (PReason "Incident not found" None) >>
         ret None
     | Some inc =>
         let inc :=
           Incident.set_plan_version (Incident.plan_version inc + 1) inc in
         let version := Incident.plan_version inc in
         update_incident inc_id inc >>
         modify (upd_incident_plans (fun rows =>
           rows ++ [IncidentPlan.mk inc_id version "video_upload"
                      (Verdict_value (verdict plan)) (severity_seed plan)
                      (confidence plan) (reasons plan) (actions plan)
                      (replan_interval_s plan)])) >>
         ret (Some version)
     end)
    (fun e =>
       log_event inc_id camera_id "PLAN_FAILED" (PReason (Exn_str e) None)
       >> ret None).

(** [_generate_plan_for_incident], lines 229-331; [now] is the clock
    reading of the call of [approve_plan] and [plan_id] the identifier
    that [uuid.uuid4()] draws.  The function returns [None] on every
    path. *)
Definition _generate_plan_for_incident (now : Q)
    (plan_id inc_id camera_id : string) (severity : Z) (verdict : string)
    : M unit :=
  let! plan := upload_plan severity verdict in
  let! version := store_plan inc_id camera_id plan in
  match version with
  | None => ret tt
  | Some version =>
      log_event inc_id camera_id "PLAN_CREATED"
        (PPlan "video_upload" version plan) >>
      let! camera := select_camera camera_id in
      match camera with
      | None => ret tt
      | Some camera =>
          let! w := get in
          let '(approved, decisions, g) :=
            Guard.approve_plan
              (Guard.default_args camera_id false
                 (Camera.voice_enabled camera) (Camera.sms_enabled camera) 0)
              now (actions plan) (guard w) in
          modify (upd_guard (fun _ => g)) >>
          Executor.execute_actions env approved inc_id camera_id
            (Camera.primary_contact camera) (Camera.backup_contact camera)
            (verdict +:+ " detected via video upload") >>
          log_event inc_id camera_id "ACTION_DONE"
            (PDone (length approved) plan_id)
      end
  end.

End WithEnv.
End VisionApi.

(** ** core/guard.py: a running cooldown *)

Module Cooldown.

(** The camera was contacted less than [cooldown_contact_s] seconds before
    [now]. *)
Definition running (camera_id : string) (cooldown_contact_s : Z) (now : Q)
    (g : Guard.GuardState) : Prop :=
  exists t, Guard._last_contact_time g !! camera_id = Some t
            /\ (now - t < inject_Z cooldown_contact_s)%Q.

End Cooldown.

(** ** core/planner.py: the replan loop *)

Module Replan.

(** The payloads of the two kinds of timeline event that the loop
    writes, [REPLAN] (lines 528-532) and [ESCALATION] (lines 561-565). *)
Inductive LoopEvent :=
  | REPLAN (version : Z) (plan : PlannerPlan)
  | ESCALATION (stage : Z).

(** The timeline event of the loop of [incident_id] and [camera_id]. *)
Definition event_of (incident_id camera_id : string) (ev : LoopEvent)
    : TimelineEvent :=
  match ev with
  | REPLAN version plan =>
      mkEvent incident_id camera_id "REPLAN" (PReplan version plan)
  | ESCALATION stage =>
      mkEvent incident_id camera_id "ESCALATION" (PEscalation stage)
  end.

(** How an iteration ends: the loop breaks, goes on to its next sleep, or
    goes on after the handler of line 575 logged an exception. *)
Inductive Step := Break | Again | Failed.

(** A computation of the loop: it runs on the process state and on the
    list of the [REPLAN] and [ESCALATION] events that the loop has logged
    so far, which are in the timeline as well; it returns or raises. *)
Definition L (A : Type) : Type :=
  list LoopEvent -> World -> Outcome A * list LoopEvent * World.

Definition lret {A} (a : A) : L A := fun l w => (Ok a, l, w).

Definition lbind {A B} (m : L A) (k : A -> L B) : L B :=
  fun l w =>
    match m l w with
    | (Ok a, l1, w1) => k a l1 w1
    | (Raise e, l1, w1) => (Raise e, l1, w1)
    end.

Definition lraise {A} (e : Exn) : L A := fun l w => (Raise e, l, w).

(** A computation on the process state alone. *)
Definition lift {A} (m : M A) : L A :=
  fun l w => let '(o, w1) := m w in (o, l, w1).

(** [log_event] for the two kinds of the loop: the event is appended to
    the timeline, and to the list of the loop. *)
Definition tell (incident_id camera_id : string) (ev : LoopEvent)
    : L unit :=
  fun l w =>
    (Ok tt, l ++ [ev],
     upd_timeline (fun t => t ++ [event_of incident_id camera_id ev]) w).

Definition ltry {A} (m : L A) (handler : Exn -> L A) : L A :=
  fun l w =>
    match m l w with
    | (Ok a, l1, w1) => (Ok a, l1, w1)
    | (Raise e, l1, w1) => handler e l1 w1
    end.

Notation "'let*' x ':=' m 'in' k" := (lbind m (fun x => k))
  (at level 10, x name, m at level 100, k at level 200).
Notation "m '>>>' k" := (lbind m (fun _ => k))
  (at level 100, k at level 200, right associativity).

(** [t > v] for a float [t] and a value [v] read from a JSON column:
    defined for numbers and booleans; for [None] and for a string Python
    raises [TypeError]. *)
Definition py_gt (t : Q) (v : json) : option bool :=
  match v with
  | JNum q => Some (Qgtb t q)
  | JBool b => Some (Qgtb t (if b then 1 else 0))
  | JNull | JStr _ => None
  end.

Section WithEnv.
Variable env : Env.

(** The [TypeError] of line 547; the handler of the loop does not tell
    one exception from another. *)
Variable type_error : Exn.

(** The request of lines 489-498. *)
Definition replan_request (incident : Incident.t) (camera : Camera.t)
    (policy : option NotificationPolicy.t) (camera_id : string)
    : PlanRequest :=
  mkPlanRequest (default [] (Incident.frames_b64 incident)) 0.3 0.7
    (Camera.room_type camera) (_build_policy_text env policy camera)
    (Planner._build_incident_state incident)
    (_get_active_notes env camera_id) "incident".

(** The condition of lines 547-548, with the short circuit of [and]. *)
Definition escalation_due (incident : Incident.t) (camera : Camera.t)
    : L bool :=
  let config := default ∅ (Camera.config camera) in
  let esc_delay := default (JNum 60) (config !! "escalation_delay_s") in
  if Incident.acknowledged incident then lret false
  else
    match py_gt (Incident.time_down_s incident) esc_delay with
    | None => lraise type_error
    | Some false => lret false
    | Some true => lret (Incident.escalation_stage incident <? 2)
    end.

(** One iteration of the loop of [_replan], lines 469-578, after the
    sleep.  [now1] and [now2] are the clock readings of the two calls of
    [approve_plan].  The cancellation of the task (line 572) comes from
    outside and is not an exception of the model. *)
Definition _replan (now1 now2 : Q) (incident_id camera_id : string)
    : L Step :=
  ltry
    (let* w := lift get in
     let* incident :=
       lift (scalar_one_or_none (incidents_by_id incident_id w)) in
     match incident with
     | None => lret Break
     | Some incident =>
         if negb (String.eqb (Incident.status incident) "ACTIVE")
         then lret Break
         else
           let* camera := lift (select_camera camera_id) in
           match camera with
           | None => lret Break
           | Some camera =>
               let* w := lift get in
               let* policy :=
                 lift (scalar_one_or_none (policies_of camera_id w)) in
               let* raw :=
                 lift (Planner.call_incident_plan env
                         (replan_request incident camera policy camera_id))
               in
               let plan :=
                 match _parse_plan env raw with
                 | Some plan => plan
                 | None =>
                     Planner._fallback_plan 0.3 (Camera.voice_enabled camera)
                 end in
               let* w := lift get in
               let* inc := lift (scalar_one (incidents_by_id incident_id w)) in
               let inc :=
                 Incident.set_plan_version (Incident.plan_version inc + 1)
                   inc in
               let inc :=
                 Incident.set_reasons_current (Some (reasons plan)) inc in
               let inc :=
                 Incident.set_summary_text
                   (Some (_generate_summary env inc)) inc in
               lift (update_incident incident_id inc) >>>
               lift (modify (upd_incident_plans (fun rows =>
                 rows ++ [IncidentPlan.mk incident_id
                            (Incident.plan_version inc) "fast"
                            (Verdict_value (verdict plan))
                            (severity_seed plan) (confidence plan)
                            (reasons plan) (actions plan)
                            (replan_interval_s plan)]))) >>>
               tell incident_id camera_id
                 (REPLAN (Incident.plan_version inc) plan) >>>
               let* guarded :=
                 lift (Planner.guard_plan now1 (actions plan) camera_id
                         camera incident) in
               let* due := escalation_due incident camera in
               let* approved :=
                 if due then
                   let* esc :=
                     lift (Planner.guard_plan now2
                             [mkPlanAction ESCALATE_TO_BACKUP 0 ∅]
                             camera_id camera incident) in
                   match esc.1 with
                   | [] => lret guarded.1
                   | _ :: _ =>
                       let* w := lift get in
                       let* inc2 :=
                         lift (scalar_one (incidents_by_id incident_id w)) in
                       lift (update_incident incident_id
                               (Incident.set_escalation_stage
                                  (Incident.escalation_stage inc2 + 1)
                                  inc2)) >>>
                       tell incident_id camera_id
                         (ESCALATION
                            (Incident.escalation_stage incident + 1)) >>>
                       lret (guarded.1 ++ esc.1)
                   end
                 else lret guarded.1 in
               lift (Executor.execute_actions env approved incident_id
                       camera_id (Camera.primary_contact camera)
                       (Camera.backup_contact camera)
                       (default "" (Incident.summary_text incident))) >>>
               lret Again
           end
     end)
    (fun _ => lret Failed).

End WithEnv.

(** The computation [m] of the loop never changes the part [f] of the
    process state. *)
Definition keeps {A X} (f : World -> X) (m : L A) : Prop :=
  forall l w, f (m l w).2 = f w.

(** An incident row with the columns that the loop writes blanked out:
    the status, the plan version, the reasons, the summary and the
    escalation stage. *)
Definition blank (inc : Incident.t) : Incident.t :=
  Incident.set_status ""
    (Incident.set_plan_version 0
       (Incident.set_reasons_current None
          (Incident.set_summary_text None
             (Incident.set_escalation_stage 0 inc)))).

End Replan.

(* ===================================================================== *)
(** * Part II: properties *)
(* ===================================================================== *)

(** ** Boolean comparisons of rationals *)

Lemma Qgtb_true (x y : Q) : Qgtb x y = true <-> (y < x)%Q.
Proof.
  unfold Qgtb. rewrite negb_true_iff.
  destruct (Qle_bool x y) eqn:E.
  - apply Qle_bool_iff in E. split; [discriminate | intros H; lra].
  - split; [intros _ | reflexivity].
    destruct (Qlt_le_dec y x) as [H | H]; [exact H |].
    apply Qle_bool_iff in H. congruence.
Qed.

Lemma Qgtb_false (x y : Q) : Qgtb x y = false <-> (x <= y)%Q.
Proof.
  unfold Qgtb. rewrite negb_false_iff. apply Qle_bool_iff.
Qed.

Lemma Qltb_true (x y : Q) : Qltb x y = true <-> (x < y)%Q.
Proof. apply Qgtb_true. Qed.

Lemma Qltb_false (x y : Q) : Qltb x y = false <-> (y <= x)%Q.
Proof. apply Qgtb_false. Qed.


(** ** core/severity.py *)

Lemma py_min_spec (a b : Q) : (py_min a b <= a)%Q /\ (py_min a b <= b)%Q.
Proof.
  unfold py_min. destruct (Qltb b a) eqn:E.
  - apply Qltb_true in E. lra.
  - apply Qltb_false in E. lra.
Qed.

Lemma py_max_spec (a b : Q) : (a <= py_max a b)%Q /\ (b <= py_max a b)%Q.
Proof.
  unfold py_max. destruct (Qgtb b a) eqn:E.
  - apply Qgtb_true in E. lra.
  - apply Qgtb_false in E. lra.
Qed.

Lemma py_clamp_unit (score : Q) :
  (0 <= py_max 0.0 (py_min 1.0 score) <= 1)%Q.
Proof.
  pose proof (py_max_spec 0.0 (py_min 1.0 score)) as [Hlo _].
  pose proof (py_min_spec 1.0 score) as [Hhi _].
  split; [lra |].
  unfold py_max. destruct (Qgtb _ _); lra.
Qed.

(** C1.  For every integer seed, rational [t_down_s], [stillness], [motion]
    and boolean [acked], [compute_severity] returns an integer between 1
    and 5, equal to the reference computation of the specification: start
    from the seed; raise to at least 3 when [t_down_s > 15], to at least 4
    when [> 45], to at least 5 when [> 120]; add 1 capped at 5 when
    [stillness > 0.9] and [t_down_s > 30]; subtract 1 floored at 1 when
    [motion > 0.5] and [stillness < 0.3]; subtract 1 when acknowledged;
    clamp to 1..5. *)
Theorem compute_severity_is_reference
    (seed : Z) (t_down_s stillness motion : Q) (acked : bool) :
  Severity.compute_severity seed t_down_s stillness motion acked
  = Severity.severity_reference seed t_down_s stillness motion acked
  /\ 1 <= Severity.compute_severity seed t_down_s stillness motion acked <= 5.
Proof.
  unfold Severity.compute_severity, Severity.severity_reference,
    Severity.raise_to_at_least, Severity.clamp_1_5.
  destruct (Qgtb t_down_s 120), (Qgtb t_down_s 45), (Qgtb t_down_s 15),
    (Qgtb stillness 0.9), (Qgtb t_down_s 30), (Qgtb motion 0.5),
    (Qltb stillness 0.3), acked; simpl; lia.
Qed.

Lemma bed_state_scores_listed (bed_state : string) :
  bed_state ∈ Severity.listed_bed_states
  <-> is_Some (Severity.bed_state_scores !! bed_state).
Proof.
  unfold Severity.listed_bed_states, Severity.bed_state_scores.
  rewrite <- elem_of_dom. rewrite dom_list_to_map_L. simpl.
  rewrite !elem_of_cons, elem_of_nil.
  rewrite !elem_of_union, !elem_of_singleton, elem_of_empty. tauto.
Qed.

(** C10.  [compute_risk_score] is a total function that cannot fail: for
    every bed-state string, every stability string, every integer hour and
    every base score the result lies in the interval [0,1]; a bed state
    outside the seven listed ones contributes a base of 0.1. *)
Theorem compute_risk_score_total_clamped
    (bed_state stability : string) (hour_of_day : Z) (base_score : Q) :
  (0 <= Severity.compute_risk_score bed_state stability hour_of_day base_score
     <= 1)%Q
  /\ (bed_state ∉ Severity.listed_bed_states ->
      Severity.compute_risk_score bed_state stability hour_of_day base_score
      = py_max 0.0 (py_min 1.0
          (Severity.add_night hour_of_day
             (Severity.add_stability stability (base_score + 0.1)%Q)))).
Proof.
  split.
  - apply py_clamp_unit.
  - intros Hnot. unfold Severity.compute_risk_score.
    destruct (Severity.bed_state_scores !! bed_state) as [q|] eqn:E.
    + exfalso. apply Hnot. apply bed_state_scores_listed. eauto.
    + reflexivity.
Qed.

(** C10 at a concrete input: an unlisted bed state at night. *)
Lemma compute_risk_score_total_clamped_witness :
  ("ON_THE_ROOF" ∉ Severity.listed_bed_states)
  /\ Severity.compute_risk_score "ON_THE_ROOF" "UNSTABLE" 23 0.0%Q
     = py_max 0.0 (py_min 1.0
         (Severity.add_night 23
            (Severity.add_stability "UNSTABLE" (0.0 + 0.1)%Q))).
Proof.
  assert ("ON_THE_ROOF" ∉ Severity.listed_bed_states) as H.
  { unfold Severity.listed_bed_states.
    rewrite !not_elem_of_cons. repeat split; try discriminate.
    apply not_elem_of_nil. }
  split; [exact H |].
  exact (proj2 (compute_risk_score_total_clamped
                  "ON_THE_ROOF" "UNSTABLE" 23 0.0%Q) H).
Defined.

(** ** core/guard.py: the loop of [approve_plan] against the rules *)

Section GuardRules.
Import Guard.
Variables (p : Args) (now : Q).

Lemma cooldown_check (g : GuardState) :
  Qltb (now - default 0%Q (_last_contact_time g !! camera_id p))
       (inject_Z (cooldown_contact_s p))
  = negb (cooldown_elapsed p now g).
Proof. reflexivity. Qed.

Lemma attempts_check (g : GuardState) :
  (max_primary_call_attempts p
     <=? default 0 (_primary_call_counts g !! camera_id p))
  = negb (call_count p g <? max_primary_call_attempts p).
Proof. unfold call_count. rewrite Z.ltb_antisym, negb_involutive. done. Qed.

Lemma stage_check :
  (max_escalation_stage p <=? escalation_stage p)
  = negb (escalation_stage p <? max_escalation_stage p).
Proof. rewrite Z.ltb_antisym, negb_involutive. done. Qed.

(** One iteration appends exactly one decision, the one the rules take,
    and keeps the action exactly when that decision approves. *)
Lemma approve_one_rules approved decisions g a :
  exists d,
    approve_one p now (approved, decisions, g) a
    = (if Guard.approved d then approved ++ [a] else approved,
       decisions ++ [d],
       if Guard.approved d then on_approval p now g (type a) else g)
    /\ action d = ActionType_value (type a)
    /\ Guard.approved d = permitted p now g (type a).
Proof.
  unfold approve_one. rewrite cooldown_check, attempts_check, stage_check.
  unfold contact_class, stamps_contact.
  destruct a as [t dl ps]; simpl.
  destruct t; simpl;
    repeat (case_bool_decide; try congruence; try set_solver; simpl);
    destruct (cooldown_elapsed p now g), (voice_enabled p),
      (sms_enabled p), (acknowledged p),
      (call_count p g <? max_primary_call_attempts p),
      (escalation_stage p <? max_escalation_stage p); simpl;
    (eexists (mkDecision _ _ _);
     (split; [| split; simpl; reflexivity]); simpl; reflexivity).
Qed.

Lemma kept_cons a d actions ds :
  kept (a :: actions) (d :: ds)
  = if Guard.approved d then a :: kept actions ds else kept actions ds.
Proof.
  unfold kept. simpl. rewrite filter_cons. simpl.
  destruct (Guard.approved d); reflexivity.
Qed.

Lemma approve_fold actions :
  forall approved decisions g,
  exists ds g',
    fold_left (approve_one p now) actions (approved, decisions, g)
    = (approved ++ kept actions ds, decisions ++ ds, g')
    /\ rules_run p now g actions ds g'.
Proof.
  induction actions as [|a rest IH]; intros approved decisions g;
    cbn [fold_left].
  - exists [], g. rewrite !app_nil_r. split; [done | constructor].
  - destruct (approve_one_rules approved decisions g a)
      as (d & -> & Hact & Hok).
    destruct (IH (if Guard.approved d then approved ++ [a] else approved)
                 (decisions ++ [d])
                 (if Guard.approved d
                  then on_approval p now g (type a) else g))
      as (ds & g' & -> & Hrun).
    exists (d :: ds), g'. split.
    + rewrite kept_cons. destruct (Guard.approved d);
        by rewrite <- !app_assoc.
    + by constructor.
Qed.

Lemma rules_run_length g actions ds g' :
  rules_run p now g actions ds g' -> length ds = length actions.
Proof. induction 1; simpl; congruence. Qed.

Lemma rules_run_actions g actions ds g' :
  rules_run p now g actions ds g' ->
  map action ds = map (fun a => ActionType_value (type a)) actions.
Proof. induction 1; simpl; congruence. Qed.

Lemma kept_sublist actions : forall ds, sublist (kept actions ds) actions.
Proof.
  induction actions as [|a rest IH]; intros [|d ds];
    try (unfold kept; simpl; apply sublist_nil_l).
  rewrite kept_cons. destruct (Guard.approved d).
  - apply sublist_skip, IH.
  - apply sublist_cons, IH.
Qed.
End GuardRules.

(** C2.  For every list of actions and every camera state, [approve_plan]
    returns exactly one decision per input action, in input order, each
    carrying the action type, an approval flag and a reason; the flag is
    the verdict of the rules in the state left by the earlier actions of
    the list: CLOSE_INCIDENT and CANCEL_ESCALATION always; a contact-class
    action only when [now - last_contact[camera] >= cooldown_contact_s];
    START_VOICE_CALL_PRIMARY moreover only when voice is enabled and
    [primary_call_count[camera] < max_primary_call_attempts];
    SEND_SMS_PRIMARY moreover only when SMS is enabled; ESCALATE_TO_BACKUP
    only when not acknowledged and below the maximal escalation stage.  The
    approved actions are those of the input, in the original order; an
    approved contact-class or escalation action sets [last_contact[camera]]
    to the clock reading of the call, and an approved voice call increments
    [primary_call_count[camera]]. *)
Theorem approve_plan_follows_rules
    (p : Guard.Args) (now : Q) (actions : list PlanAction)
    (g : Guard.GuardState) :
  exists approved decisions g',
    Guard.approve_plan p now actions g = (approved, decisions, g')
    /\ Guard.rules_run p now g actions decisions g'
    /\ approved = Guard.kept actions decisions
    /\ length decisions = length actions
    /\ map Guard.action decisions
       = map (fun a => ActionType_value (type a)) actions
    /\ sublist approved actions.
Proof.
  destruct (approve_fold p now actions [] [] g) as (ds & g' & Heq & Hrun).
  exists (Guard.kept actions ds), ds, g'.
  split; [exact Heq |]. split; [exact Hrun |]. split; [reflexivity |].
  split; [eapply rules_run_length; eauto |].
  split; [eapply rules_run_actions; eauto | apply kept_sublist].
Qed.

(** ** core/guard.py: the contact cooldown over a run *)

Section GuardHistory.
Import Guard.

Lemma before_mono hi hi' log :
  (hi <= hi')%Q -> before hi log -> before hi' log.
Proof.
  intros Hle Hb i cam t c ty ok Hi. specialize (Hb _ _ _ _ _ _ Hi). lra.
Qed.

Lemma contact_class_stamps ty : ty ∈ contact_class -> ty ∈ stamps_contact.
Proof.
  unfold contact_class, stamps_contact.
  rewrite !elem_of_cons, !elem_of_nil. tauto.
Qed.

Lemma on_approval_last p now g ty :
  _last_contact_time (on_approval p now g ty)
  = if bool_decide (ty ∈ stamps_contact)
    then <[camera_id p := now]> (_last_contact_time g)
    else _last_contact_time g.
Proof.
  destruct ty; reflexivity.
Qed.

Lemma permitted_cooling p now g ty t' :
  ty ∈ contact_class ->
  _last_contact_time g !! camera_id p = Some t' ->
  (now - t' < inject_Z (cooldown_contact_s p))%Q ->
  permitted p now g ty = false.
Proof.
  intros Hty Hlast Hlt.
  assert (cooldown_elapsed p now g = false) as Hcool.
  { unfold cooldown_elapsed. rewrite Hlast. simpl.
    destruct (Qle_bool _ _) eqn:E; [| reflexivity].
    apply Qle_bool_iff in E. lra. }
  unfold contact_class in Hty.
  rewrite !elem_of_cons, elem_of_nil in Hty.
  destruct Hty as [-> | [-> | [-> | []]]]; simpl; by rewrite Hcool.
Qed.

(** One decision of the loop keeps the three properties. *)
Lemma decision_step p now g log hi ty :
  stamped g log -> before hi log -> exclusive log -> (hi <= now)%Q ->
  let ok := permitted p now g ty in
  let g1 := if ok then on_approval p now g ty else g in
  let log1 :=
    log ++ [Evaluated (camera_id p) now (cooldown_contact_s p) ty ok] in
  stamped g1 log1 /\ before now log1 /\ exclusive log1.
Proof.
  intros Hst Hbe Hex Hhi ok g1 log1. split; [| split].
  - intros i cam t c ty' Hi Hty' Hfresh.
    apply lookup_snoc_Some in Hi as [[Hlt Hi] | [-> Heq]].
    + assert (t <= hi)%Q as Ht by (eapply Hbe; eauto).
      assert (exists t0, _last_contact_time g !! cam = Some t0
                         /\ (t <= t0)%Q) as (t0 & Hg & Ht0).
      { eapply Hst; eauto. intros k Hk Hc.
        apply (Hfresh k Hk). unfold log1.
        rewrite lookup_app_l; [done |]. by eapply lookup_lt_Some. }
      subst g1. destruct ok; [| eauto].
      rewrite on_approval_last. case_bool_decide; [| eauto].
      destruct (decide (camera_id p = cam)) as [<- | Hne].
      * rewrite lookup_insert_eq. eexists; split; [done | lra].
      * rewrite lookup_insert_ne by done. eauto.
    + injection Heq as <- <- <- <- Hok.
      subst g1. rewrite Hok. rewrite on_approval_last.
      rewrite bool_decide_eq_true_2 by done.
      rewrite lookup_insert_eq. eexists; split; [done | lra].
  - intros i cam t c ty' ok' Hi.
    apply lookup_snoc_Some in Hi as [[_ Hi] | [_ Heq]].
    + specialize (Hbe _ _ _ _ _ _ Hi). lra.
    + injection Heq as <- <- <- <- <-. lra.
  - intros i j cam t1 c1 ty1 t2 c2 ty2 ok2 Hi Hj Hij Hty1 Hty2 Hfresh Hlt.
    apply lookup_snoc_Some in Hj as [[Hjlt Hj] | [-> Heq]].
    + assert (log !! i = Some (Evaluated cam t1 c1 ty1 true)) as Hi'.
      { unfold log1 in Hi. rewrite lookup_app_l in Hi by lia. done. }
      eapply (Hex i j); eauto. intros k Hk Hc.
      apply (Hfresh k Hk). unfold log1. rewrite lookup_app_l by lia. done.
    + assert (log !! i = Some (Evaluated cam t1 c1 ty1 true)) as Hi'.
      { unfold log1 in Hi. rewrite lookup_app_l in Hi by lia. done. }
      injection Heq as <- <- <- <- <-.
      destruct (Hst i _ _ _ _ Hi' (contact_class_stamps _ Hty1))
        as (t' & Hlast & Ht').
      { intros k Hk Hc.
        assert (k < length log)%nat as Hklen by (by eapply lookup_lt_Some).
        apply (Hfresh k); [lia |].
        unfold log1. rewrite lookup_app_l by lia. done. }
      subst ok. eapply permitted_cooling; eauto. lra.
Qed.

(** A reset keeps them too. *)
Lemma reset_step cam g log hi :
  stamped g log -> before hi log -> exclusive log ->
  stamped (reset_camera_state cam g) (log ++ [Cleared cam])
  /\ before hi (log ++ [Cleared cam])
  /\ exclusive (log ++ [Cleared cam]).
Proof.
  intros Hst Hbe Hex. split; [| split].
  - intros i cam' t c ty Hi Hty Hfresh.
    apply lookup_snoc_Some in Hi as [[Hlt Hi] | [_ Heq]]; [| done].
    destruct (decide (cam = cam')) as [<- | Hne].
    + exfalso. apply (Hfresh (length log) Hlt).
      by rewrite lookup_app_r, Nat.sub_diag.
    + simpl. rewrite lookup_delete_ne by done.
      eapply Hst; eauto. intros k Hk Hc. apply (Hfresh k Hk).
      rewrite lookup_app_l; [done |]. by eapply lookup_lt_Some.
  - intros i cam' t c ty ok Hi.
    apply lookup_snoc_Some in Hi as [[_ Hi] | [_ Heq]]; [| done].
    eapply Hbe; eauto.
  - intros i j cam' t1 c1 ty1 t2 c2 ty2 ok2 Hi Hj Hij Hty1 Hty2 Hfresh Hlt.
    apply lookup_snoc_Some in Hj as [[Hjlt Hj] | [_ Heq]]; [| done].
    rewrite lookup_app_l in Hi by lia.
    eapply (Hex i j); eauto. intros k Hk Hc.
    apply (Hfresh k Hk). rewrite lookup_app_l by lia. done.
Qed.

(** A whole call of [approve_plan] keeps them. *)
Lemma rules_run_step p now g actions ds g' :
  rules_run p now g actions ds g' ->
  forall log hi,
    stamped g log -> before hi log -> exclusive log -> (hi <= now)%Q ->
    stamped g' (log ++ entries p now actions ds)
    /\ before now (log ++ entries p now actions ds)
    /\ exclusive (log ++ entries p now actions ds).
Proof.
  induction 1 as [g | g a d rest ds g' Hact Hok Hrun IH];
    intros log hi Hst Hbe Hex Hhi.
  - unfold entries. simpl. rewrite app_nil_r.
    eauto using before_mono.
  - destruct (decision_step p now g log hi (type a) Hst Hbe Hex Hhi)
      as (Hst1 & Hbe1 & Hex1).
    rewrite <- Hok in Hst1, Hbe1, Hex1.
    destruct (IH _ now Hst1 Hbe1 Hex1) as (Hst2 & Hbe2 & Hex2); [lra |].
    unfold entries in *. simpl.
    rewrite <- app_assoc in Hst2, Hbe2, Hex2. simpl in *. eauto.
Qed.

Lemma run_exclusive ops :
  forall g log hi,
    stamped g log -> before hi log -> exclusive log ->
    not_before hi ops ->
    exclusive (fold_left run_op ops (g, log)).2.
Proof.
  induction ops as [|[p now actions | cam] ops IH];
    intros g log hi Hst Hbe Hex Hnb; cbn [fold_left].
  - done.
  - destruct Hnb as [Hhi Hnb]. unfold run_op at 2. simpl.
    unfold approve_plan.
    destruct (approve_fold p now actions [] [] g) as (ds & g' & -> & Hrun).
    destruct (rules_run_step _ _ _ _ _ _ Hrun log hi Hst Hbe Hex Hhi)
      as (Hst' & Hbe' & Hex').
    eapply IH; eauto.
  - unfold run_op at 2. simpl.
    destruct (reset_step cam g log hi Hst Hbe Hex) as (Hst' & Hbe' & Hex').
    eapply IH; eauto.
Qed.

Lemma strongly_sorted_not_before ops :
  forall hi,
    StronglySorted Qle (call_times ops) ->
    Forall (Qle hi) (call_times ops) ->
    not_before hi ops.
Proof.
  induction ops as [|[p now actions | cam] ops IH]; intros hi Hs Hall;
    simpl in *; [done | | by apply IH].
  apply StronglySorted_inv in Hs as [Hs Hrest].
  apply Forall_cons in Hall as [Hhi _]. split; [done |].
  apply IH; [done |]. apply Forall_forall.
  rewrite List.Forall_forall in Hrest.
  intros x Hx. apply Hrest. by apply list_elem_of_In.
Qed.

Lemma chronological_not_before ops :
  chronological ops -> exists hi, not_before hi ops.
Proof.
  intros Hs. apply Sorted_StronglySorted in Hs;
    [| intros x y z; apply Qle_trans].
  destruct (call_times ops) as [|t0 ts] eqn:E.
  - exists 0%Q. apply strongly_sorted_not_before; rewrite E; constructor.
  - exists t0. apply strongly_sorted_not_before; rewrite E; [done |].
    apply StronglySorted_inv in Hs as [_ Hrest].
    apply Forall_cons. split; [apply Qle_refl |].
    apply Forall_forall. rewrite List.Forall_forall in Hrest.
    intros x Hx. apply Hrest. by apply list_elem_of_In.
Qed.
End GuardHistory.

(** C6.  In any run of the guard whose calls are in chronological order,
    for every camera and every cooldown: of two contact-class decisions
    (SEND_SMS_PRIMARY, START_VOICE_CALL_PRIMARY, SEND_LOW_PRIORITY_HEADSUP)
    on that camera whose evaluation times differ by less than the cooldown,
    with no reset of the camera in between, at most one is an approval:
    when the earlier one was approved, the later one is rejected. *)
Theorem contact_cooldown_exclusive
    (ops : list Guard.Op) (g0 g : Guard.GuardState)
    (log : list Guard.Entry) (i j : nat) (cam : string)
    (t1 t2 : Q) (c1 c2 : Z) (ty1 ty2 : ActionType) (ok2 : bool) :
  Guard.chronological ops ->
  Guard.run ops g0 = (g, log) ->
  log !! i = Some (Guard.Evaluated cam t1 c1 ty1 true) ->
  log !! j = Some (Guard.Evaluated cam t2 c2 ty2 ok2) ->
  (i < j)%nat ->
  ty1 ∈ Guard.contact_class ->
  ty2 ∈ Guard.contact_class ->
  (forall k : nat, (i < k < j)%nat -> log !! k ≠ Some (Guard.Cleared cam)) ->
  (t2 - t1 < inject_Z c2)%Q ->
  ok2 = false.
Proof.
  intros Hchrono Hrun Hi Hj Hij Hty1 Hty2 Hfresh Hlt.
  destruct (chronological_not_before ops Hchrono) as [hi Hnb].
  assert (Guard.exclusive log) as Hex.
  { replace log with (Guard.run ops g0).2 by (by rewrite Hrun).
    unfold Guard.run. apply (run_exclusive ops g0 [] hi); [| | | exact Hnb].
    - intros k cam' t c ty Hk. by rewrite lookup_nil in Hk.
    - intros k cam' t c ty ok Hk. by rewrite lookup_nil in Hk.
    - intros k k' cam' ? ? ? ? ? ? ? Hk. by rewrite lookup_nil in Hk. }
  eapply (Hex i j); eauto.
Qed.

(** C6 on the cooldown scenario: camera ["C2"], default cooldown of 5 s,
    one SEND_SMS_PRIMARY proposed at clock reading 100 and one at 103. *)
Lemma contact_cooldown_exclusive_witness :
  Guard.chronological
    [Guard.Approve (Guard.default_args "C2" false true true 0) 100
       [mkPlanAction SEND_SMS_PRIMARY 0 ∅];
     Guard.Approve (Guard.default_args "C2" false true true 0) 103
       [mkPlanAction SEND_SMS_PRIMARY 0 ∅]]
  /\ (Guard.run
        [Guard.Approve (Guard.default_args "C2" false true true 0) 100
           [mkPlanAction SEND_SMS_PRIMARY 0 ∅];
         Guard.Approve (Guard.default_args "C2" false true true 0) 103
           [mkPlanAction SEND_SMS_PRIMARY 0 ∅]]
        Guard.initial).2
     = [Guard.Evaluated "C2" 100 5 SEND_SMS_PRIMARY true;
        Guard.Evaluated "C2" 103 5 SEND_SMS_PRIMARY false]
  /\ (103 - 100 < inject_Z 5)%Q
  /\ false = false.
Proof.
  set (ops :=
    [Guard.Approve (Guard.default_args "C2" false true true 0) 100
       [mkPlanAction SEND_SMS_PRIMARY 0 ∅];
     Guard.Approve (Guard.default_args "C2" false true true 0) 103
       [mkPlanAction SEND_SMS_PRIMARY 0 ∅]]).
  set (log := [Guard.Evaluated "C2" 100 5 SEND_SMS_PRIMARY true;
               Guard.Evaluated "C2" 103 5 SEND_SMS_PRIMARY false]).
  assert (Guard.chronological ops) as Hchrono.
  { unfold Guard.chronological. simpl.
    repeat constructor. unfold Qle. simpl. lia. }
  assert (Guard.run ops Guard.initial
          = ((Guard.run ops Guard.initial).1, log)) as Hrun.
  { vm_compute. reflexivity. }
  assert (103 - 100 < inject_Z 5)%Q as Hlt by reflexivity.
  split; [exact Hchrono |].
  split; [rewrite Hrun; reflexivity |].
  split; [exact Hlt |].
  apply (contact_cooldown_exclusive ops Guard.initial
           (Guard.run ops Guard.initial).1 log 0 1 "C2" 100 103 5 5
           SEND_SMS_PRIMARY SEND_SMS_PRIMARY false Hchrono Hrun).
  - reflexivity.
  - reflexivity.
  - lia.
  - constructor.
  - constructor.
  - intros k Hk. lia.
  - exact Hlt.
Defined.

(** ** api/incidents.py: acknowledgement of a closed incident *)

(** C5, as stated, fails: on the closed incident ["inc1"] the call returns
    success, but the status becomes ACKED, [acknowledged] becomes true and
    [ack_by] becomes the caller. *)
Lemma ack_on_closed_rewrites_incident :
  Incident.status <$> incidents Examples.closed_world !! "inc1"
  = Some "CLOSED"
  /\ Incident.acknowledged <$> incidents Examples.closed_world !! "inc1"
     = Some false
  /\ Incident.ack_by <$> incidents Examples.closed_world !! "inc1"
     = Some None
  /\ (IncidentsApi.acknowledge_incident "inc1" "caregiver"
        Examples.closed_world).1
     = Ok ("acknowledged", "inc1")
  /\ Incident.status
       <$> incidents (IncidentsApi.acknowledge_incident "inc1" "caregiver"
                        Examples.closed_world).2 !! "inc1"
     = Some "ACKED"
  /\ Incident.acknowledged
       <$> incidents (IncidentsApi.acknowledge_incident "inc1" "caregiver"
                        Examples.closed_world).2 !! "inc1"
     = Some true
  /\ Incident.ack_by
       <$> incidents (IncidentsApi.acknowledge_incident "inc1" "caregiver"
                        Examples.closed_world).2 !! "inc1"
     = Some (Some "caregiver").
Proof. repeat split; vm_compute; reflexivity. Qed.

(** C5, amended.  Acknowledging an incident whose status is CLOSED returns
    success and is not a no-op: the handler has no test of the status, so
    the row is rewritten with status ACKED, [acknowledged] true and
    [ack_by] the caller; the verdict is unchanged, and the guard state of
    the incident's camera is reset. *)
Theorem acknowledge_closed_incident
    (w : World) (incident_id ack_by : string) (inc : Incident.t) :
  incidents w !! incident_id = Some inc ->
  Incident.status inc = "CLOSED" ->
  exists w' inc',
    IncidentsApi.acknowledge_incident incident_id ack_by w
    = (Ok ("acknowledged", incident_id), w')
    /\ incidents w' = <[incident_id := inc']> (incidents w)
    /\ Incident.status inc' = "ACKED"
    /\ Incident.acknowledged inc' = true
    /\ Incident.ack_by inc' = Some ack_by
    /\ Incident.verdict inc' = Incident.verdict inc
    /\ guard w' = Guard.reset_camera_state (Incident.camera_id inc) (guard w).
Proof.
  intros Hrow _.
  unfold IncidentsApi.acknowledge_incident, bind, get, incidents_by_id.
  rewrite Hrow. simpl.
  eexists _, _. split; [reflexivity |]. simpl. repeat split.
Qed.

(** C5 amended, on the closed incident ["inc1"]. *)
Lemma acknowledge_closed_incident_witness :
  exists w' inc',
    IncidentsApi.acknowledge_incident "inc1" "caregiver"
      Examples.closed_world
    = (Ok ("acknowledged", "inc1"), w')
    /\ incidents w' = <[ "inc1" := inc']> (incidents Examples.closed_world)
    /\ Incident.status inc' = "ACKED"
    /\ Incident.acknowledged inc' = true
    /\ Incident.ack_by inc' = Some "caregiver"
    /\ Incident.verdict inc' = Incident.verdict Examples.closed_incident
    /\ guard w'
       = Guard.reset_camera_state
           (Incident.camera_id Examples.closed_incident)
           (guard Examples.closed_world).
Proof.
  apply (acknowledge_closed_incident Examples.closed_world "inc1"
           "caregiver" Examples.closed_incident).
  - vm_compute. reflexivity.
  - reflexivity.
Defined.

(** ** api/twilio.py: the DTMF webhook and the guard *)

(** C7 at the failing input: digit 2 on the active incident ["inc2"] of a
    camera that the guard has on record.  The incident is acknowledged and
    ACK_RECEIVED is logged, but both guard entries of the camera are still
    there; digit 1 on the same state clears them. *)
Lemma dtmf_will_call_keeps_guard_state :
  Incident.status
    <$> incidents (TwilioApi.dtmf_webhook "inc2" "2"
                     (Examples.world_with Examples.active_incident
                        Examples.contacted)).2 !! "inc2"
  = Some "ACKED"
  /\ map ev_kind
       (timeline (TwilioApi.dtmf_webhook "inc2" "2"
                    (Examples.world_with Examples.active_incident
                       Examples.contacted)).2)
     = ["ACK_RECEIVED"]
  /\ Guard._last_contact_time
       (guard (TwilioApi.dtmf_webhook "inc2" "2"
                 (Examples.world_with Examples.active_incident
                    Examples.contacted)).2) !! "cam1"
     = Some 100%Q
  /\ Guard._primary_call_counts
       (guard (TwilioApi.dtmf_webhook "inc2" "2"
                 (Examples.world_with Examples.active_incident
                    Examples.contacted)).2) !! "cam1"
     = Some 1
  /\ Guard._last_contact_time
       (guard (TwilioApi.dtmf_webhook "inc2" "1"
                 (Examples.world_with Examples.active_incident
                    Examples.contacted)).2) !! "cam1"
     = None
  /\ Guard._primary_call_counts
       (guard (TwilioApi.dtmf_webhook "inc2" "1"
                 (Examples.world_with Examples.active_incident
                    Examples.contacted)).2) !! "cam1"
     = None.
Proof. repeat split; vm_compute; reflexivity. Qed.

(** ** core/executor.py: an action on a missing incident *)

(** C9 at the failing input: CLOSE_INCIDENT for an incident identifier
    that is not in the store.  [_run_action] changes nothing and returns
    "Incident closed"; [execute_actions] records that result in the action
    log and emits ACTION_EXECUTED, and no PLAN_FAILED. *)
Lemma close_missing_incident_reports_success (env : Env) :
  incidents Examples.active_world !! "missing" = None
  /\ Executor._run_action env (mkPlanAction CLOSE_INCIDENT 0 ∅)
       "missing" "cam1" "+15550100" "+15550101" "" Examples.active_world
     = (Ok "Incident closed", Examples.active_world)
  /\ map ActionLog.result
       (action_logs
          (Executor.execute_actions env [mkPlanAction CLOSE_INCIDENT 0 ∅]
             "missing" "cam1" "+15550100" "+15550101" ""
             Examples.active_world).2)
     = ["Incident closed"]
  /\ map ev_kind
       (timeline
          (Executor.execute_actions env [mkPlanAction CLOSE_INCIDENT 0 ∅]
             "missing" "cam1" "+15550100" "+15550101" ""
             Examples.active_world).2)
     = ["ACTION_EXECUTED"].
Proof. repeat split; vm_compute; reflexivity. Qed.

(** ** core/planner.py: the retry and the fallback plan *)

(** C3, as stated, fails.  A fall trigger with a single frame reaches a
    planner whose replies never parse: the retry carries the same single
    frame as the first call, not half of it, and the incident is planned
    with a fallback plan whose reason is not the sentence of the
    specification. *)
Lemma fallback_reason_and_retry_frames :
  map rq_frames_b64
    (gemini_calls
       (Planner.handle_incident Examples.planner_down 1000 "new"
          Examples.trigger1 Examples.active_world).2)
  = [["frame1"]; ["frame1"]]
  /\ map IncidentPlan.reasons
       (incident_plans
          (Planner.handle_incident Examples.planner_down 1000 "new"
             Examples.trigger1 Examples.active_world).2)
     = [["Fallback plan: Gemini unavailable or returned invalid response"]]
  /\ map IncidentPlan.reasons
       (incident_plans
          (Planner.handle_incident Examples.planner_down 1000 "new"
             Examples.trigger1 Examples.active_world).2)
     ≠ [["Fallback plan: planner unavailable or invalid"]].
Proof.
  split; [vm_compute; reflexivity |].
  split; [vm_compute; reflexivity |].
  vm_compute. discriminate.
Qed.

(** ** core/idle.py: the idle gate and the merge of a suggested patch *)

Lemma elem_of_active_incidents (c : string) (w : World) (inc : Incident.t) :
  inc ∈ active_incidents c w
  <-> (exists i, incidents w !! i = Some inc)
      /\ Incident.camera_id inc = c /\ Incident.status inc = "ACTIVE".
Proof.
  unfold active_incidents. rewrite list_elem_of_filter, list_elem_of_fmap.
  split.
  - intros [[Hc Hs] ([i x] & -> & Hin)].
    apply elem_of_map_to_list in Hin. simpl. eauto.
  - intros [[i Hi] [Hc Hs]]. split; [done |].
    exists (i, inc). split; [done |]. by apply elem_of_map_to_list.
Qed.

Lemma active_incidents_nil (c : string) (w : World) :
  active_incidents c w = []
  <-> forall i inc,
        incidents w !! i = Some inc ->
        Incident.camera_id inc = c -> Incident.status inc ≠ "ACTIVE".
Proof.
  split.
  - intros Hnil i inc Hi Hc Hs.
    assert (inc ∈ active_incidents c w) as Hin
      by (apply elem_of_active_incidents; eauto).
    rewrite Hnil in Hin. by apply elem_of_nil in Hin.
  - intros Hnone. apply elem_of_nil_inv. intros inc Hin.
    apply elem_of_active_incidents in Hin as ([i Hi] & Hc & Hs).
    by apply (Hnone i inc).
Qed.

(** [is_camera_idle] leaves the state as it is, and answers [True] exactly
    on the cameras that are idle. *)
Lemma is_camera_idle_spec (c : string) (w : World) :
  exists r, Idle.is_camera_idle c w = (r, w)
            /\ (r = Ok true <-> Idle.idle w c).
Proof.
  unfold Idle.is_camera_idle, Idle.idle, select_camera, bind, get. simpl.
  destruct (cameras w !! c) as [cam |] eqn:Hcam; simpl.
  - destruct (Qgtb (Camera.risk_score cam) 0.3) eqn:Hrisk; simpl.
    + eexists. split; [reflexivity |]. split; [discriminate |].
      intros (cam' & Heq & Hle & _). injection Heq as <-.
      apply Qgtb_true in Hrisk. lra.
    + apply Qgtb_false in Hrisk.
      destruct (active_incidents c w) as [| a [| b l]] eqn:Hact; simpl;
        (eexists; split; [reflexivity |]).
      * split; [intros _ | reflexivity].
        exists cam. split; [done |]. split; [done |].
        by apply active_incidents_nil.
      * split; [discriminate |]. intros (_ & _ & _ & Hnone).
        apply active_incidents_nil in Hnone. congruence.
      * split; [discriminate |]. intros (_ & _ & _ & Hnone).
        apply active_incidents_nil in Hnone. congruence.
  - eexists. split; [reflexivity |]. split; [discriminate |].
    intros (cam & Heq & _). discriminate.
Qed.

Lemma allowed_patch_nonempty (patch : gmap string json) :
  filter (fun kv => kv.1 ∈ Idle.allowed_keys) patch ≠ ∅
  <-> exists k, k ∈ Idle.allowed_keys /\ is_Some (patch !! k).
Proof.
  split.
  - intros Hne. apply map_choose in Hne as (k & v & Hk).
    apply map_lookup_filter_Some in Hk as [Hk Hin]. eauto.
  - intros (k & Hin & [v Hk]) Hempty.
    assert (filter (fun kv => kv.1 ∈ Idle.allowed_keys) patch !! k = Some v)
      as Hf by (by apply map_lookup_filter_Some).
    rewrite Hempty in Hf. by rewrite lookup_empty in Hf.
Qed.

(** The camera table after one suggestion: untouched unless the suggestion
    is applicable, and then only the configuration of the target
    changes, to the allowed part of the patch laid over the old one. *)
Lemma apply_suggestion_cameras (s : Idle.Suggestion) (w : World) :
  (~ Idle.applicable s w -> (Idle.apply_suggestion s w).2 = w)
  /\ (Idle.applicable s w ->
      forall cam,
        cameras w !! Idle.target s = Some cam ->
        cameras (Idle.apply_suggestion s w).2
        = <[Idle.target s :=
              Camera.set_config
                (Some (filter (fun kv => kv.1 ∈ Idle.allowed_keys)
                              (Idle.patch s)
                       ∪ default ∅ (Camera.config cam))) cam]>
            (cameras w)
        /\ incidents (Idle.apply_suggestion s w).2 = incidents w).
Proof.
  unfold Idle.applicable, Idle.apply_suggestion, Idle.target, Idle.patch.
  set (c := default "" (Idle.sg_camera_id s)).
  set (p := default ∅ (Idle.sg_config_json s)).
  destruct (is_camera_idle_spec c w) as (r & Hrun & Hidle).
  destruct (decide (c = "")) as [Hc | Hc]; [split; [done | tauto] |].
  unfold try_except, select_camera. unfold bind, get. rewrite !Hrun.
  destruct r as [[|] | e]; simpl.
  - pose proof (proj1 Hidle eq_refl) as Hi.
    destruct (decide (p = ∅)) as [Hp | Hp].
    { split; [done |]. intros (_ & _ & k & _ & [v Hk]).
      rewrite Hp, lookup_empty in Hk. discriminate. }
    destruct (decide (filter (fun kv => kv.1 ∈ Idle.allowed_keys) p = ∅))
      as [Hf | Hf].
    { split; [done |]. intros (_ & _ & Hex).
      apply allowed_patch_nonempty in Hex. done. }
    split.
    + intros Hnot. exfalso. apply Hnot. split; [done |]. split; [done |].
      by apply allowed_patch_nonempty.
    + intros _ cam Hcam. rewrite Hcam. simpl. done.
  - split; [done |]. intros (_ & Hi & _).
    apply Hidle in Hi. discriminate.
  - split; [done |]. intros (_ & Hi & _).
    apply Hidle in Hi. discriminate.
Qed.

Lemma applicable_or_not (s : Idle.Suggestion) (w : World) :
  Idle.applicable s w \/ ~ Idle.applicable s w.
Proof.
  unfold Idle.applicable.
  destruct (decide (Idle.target s = "")) as [Hc | Hc]; [right; tauto |].
  destruct (is_camera_idle_spec (Idle.target s) w) as (r & _ & Hidle).
  destruct (decide (filter (fun kv => kv.1 ∈ Idle.allowed_keys)
                           (Idle.patch s) = ∅)) as [Hf | Hf].
  - right. intros (_ & _ & Hex). by apply allowed_patch_nonempty in Hex.
  - apply allowed_patch_nonempty in Hf.
    destruct r as [[|] | e].
    + left. split; [done |]. split; [by apply Hidle | done].
    + right. intros (_ & Hi & _). apply Hidle in Hi. discriminate.
    + right. intros (_ & Hi & _). apply Hidle in Hi. discriminate.
Qed.

(** Over the whole loop, the configuration of a camera that is not idle
    when the loop starts is never touched. *)
Lemma suggestions_skip_busy_camera (suggestions : list Idle.Suggestion) :
  forall (w : World) (c : string),
    ~ Idle.idle w c ->
    cameras (Idle.apply_config_suggestions suggestions w).2 !! c
    = cameras w !! c.
Proof.
  unfold Idle.apply_config_suggestions.
  induction suggestions as [| s rest IH]; intros w c Hbusy; [done |].
  cbn [for_each]. unfold bind.
  assert (cameras (Idle.apply_suggestion s w).2 !! c = cameras w !! c
          /\ ~ Idle.idle (Idle.apply_suggestion s w).2 c) as [Hsame Hbusy'].
  { destruct (apply_suggestion_cameras s w) as [Hskip Happly].
    destruct (applicable_or_not s w) as [Happ | Hnot].
    - pose proof Happ as (_ & (cam & Hcam & Hidle) & _).
      destruct (Happly Happ cam Hcam) as [Hcams Hincs].
      assert (Idle.target s ≠ c) as Hne.
      { intros <-. apply Hbusy. destruct Happ as (_ & Hi & _). exact Hi. }
      split.
      + rewrite Hcams. by rewrite lookup_insert_ne.
      + intros (cam' & Hcam' & Hrisk & Hnone). apply Hbusy.
        exists cam'. rewrite Hcams, lookup_insert_ne in Hcam' by done.
        split; [done |]. split; [done |].
        intros i inc Hi. apply (Hnone i). by rewrite Hincs.
    - rewrite (Hskip Hnot). done. }
  destruct (Idle.apply_suggestion s w) as [[[] | e] w1]; simpl in *.
  - rewrite IH by done. exact Hsame.
  - exact Hsame.
Qed.

(** C8, as stated, fails: [cam1] is idle and the suggestion names the
    recognised key [check_interval_s], yet nothing is applied and the
    configured interval stays 30. *)
Lemma check_interval_suggestion_ignored :
  (Idle.is_camera_idle "cam1" Examples.closed_world).1 = Ok true
  /\ Idle.sg_config_json Examples.suggest_interval
     = Some {[ "check_interval_s" := JNum 10 ]}
  /\ Idle.config_value Examples.closed_world "cam1" "check_interval_s"
     = Some (JNum 30)
  /\ Idle.config_value
       (Idle.apply_config_suggestions [Examples.suggest_interval]
          Examples.closed_world).2 "cam1" "check_interval_s"
     = Some (JNum 30)
  /\ timeline (Idle.apply_config_suggestions [Examples.suggest_interval]
                 Examples.closed_world).2
     = [].
Proof. repeat split; vm_compute; reflexivity. Qed.

(** C8, amended.  [apply_config_suggestions] never touches the
    configuration of a camera that is not idle (risk score at most 0.3 and
    no ACTIVE incident); a suggestion is applied exactly when it names an
    idle camera and its patch names one of the five allowed keys
    (motion_spike_threshold, stillness_threshold, risk_threshold_low,
    risk_threshold_high, escalation_delay_s); on apply, exactly the
    suggested keys among these five are merged into [camera.config],
    [check_interval_s] and every other key of the patch are ignored, and
    the keys of [camera.config] that the patch does not name are
    unchanged. *)
Theorem apply_config_suggestions_gate
    (suggestions : list Idle.Suggestion) (s : Idle.Suggestion)
    (w : World) (c : string) :
  (~ Idle.idle w c ->
   cameras (Idle.apply_config_suggestions suggestions w).2 !! c
   = cameras w !! c)
  /\ (~ Idle.applicable s w ->
      cameras (Idle.apply_suggestion s w).2 = cameras w)
  /\ (Idle.applicable s w ->
      exists cam new,
        cameras w !! Idle.target s = Some cam
        /\ cameras (Idle.apply_suggestion s w).2
           = <[Idle.target s := Camera.set_config (Some new) cam]>
               (cameras w)
        /\ forall k,
             new !! k
             = match Idle.patch s !! k with
               | Some v =>
                   if decide (k ∈ Idle.allowed_keys) then Some v
                   else default ∅ (Camera.config cam) !! k
               | None => default ∅ (Camera.config cam) !! k
               end)
  /\ Idle.allowed_keys ⊆ Idle.recognised_keys
  /\ "check_interval_s" ∉ Idle.allowed_keys.
Proof.
  split; [apply suggestions_skip_busy_camera |].
  destruct (apply_suggestion_cameras s w) as [Hskip Happly].
  split; [intros Hnot; by rewrite (Hskip Hnot) |].
  split.
  - intros Happ. pose proof Happ as (_ & (cam & Hcam & _) & _).
    destruct (Happly Happ cam Hcam) as [Hcams _].
    eexists cam, _. split; [done |]. split; [exact Hcams |].
    intros k. rewrite lookup_union, map_lookup_filter.
    destruct (Idle.patch s !! k) as [v |] eqn:Hk; simpl.
    + case_decide as Hin.
      * rewrite option_guard_True by done. simpl.
        by destruct (default ∅ (Camera.config cam) !! k).
      * rewrite option_guard_False by done. simpl.
        by destruct (default ∅ (Camera.config cam) !! k).
    + by destruct (default ∅ (Camera.config cam) !! k).
  - unfold Idle.allowed_keys, Idle.recognised_keys. split.
    + intros k. rewrite !elem_of_union, !elem_of_singleton. tauto.
    + rewrite !not_elem_of_union, !not_elem_of_singleton.
      repeat split; discriminate.
Qed.

(** C8 amended, on an idle camera and a patch that names one allowed key,
    [check_interval_s] and an unknown key. *)
Lemma apply_config_suggestions_gate_witness :
  Idle.applicable Examples.suggest_mixed Examples.closed_world
  /\ exists cam new,
       cameras Examples.closed_world !! "cam1" = Some cam
       /\ cameras (Idle.apply_suggestion Examples.suggest_mixed
                     Examples.closed_world).2
          = <[ "cam1" := Camera.set_config (Some new) cam]>
              (cameras Examples.closed_world)
       /\ new !! "escalation_delay_s" = Some (JNum 90)
       /\ new !! "check_interval_s" = Some (JNum 30)
       /\ new !! "frame_rate" = None.
Proof.
  assert (Idle.applicable Examples.suggest_mixed Examples.closed_world)
    as Happ.
  { split; [discriminate |]. split.
    - exists Examples.cam1. split; [reflexivity |].
      split; [unfold Qle; simpl; lia |].
      intros i inc Hi _.
      unfold Examples.closed_world, Examples.world_with in Hi. simpl in Hi.
      apply lookup_singleton_Some in Hi as [_ <-]. discriminate.
    - exists "escalation_delay_s". split.
      + unfold Idle.allowed_keys.
        rewrite !elem_of_union, !elem_of_singleton. tauto.
      + eexists. vm_compute. reflexivity. }
  split; [exact Happ |].
  destruct (proj1 (proj2 (proj2
              (apply_config_suggestions_gate [] Examples.suggest_mixed
                 Examples.closed_world "cam1"))) Happ)
    as (cam & new & Hcam & Hcams & Hnew).
  exists cam, new. split; [exact Hcam |]. split; [exact Hcams |].
  assert (cam = Examples.cam1) as ->.
  { change (Idle.target Examples.suggest_mixed) with "cam1" in Hcam.
    vm_compute in Hcam. injection Hcam as <-. reflexivity. }
  rewrite !Hnew. repeat split.
Defined.

(** ** core/planner.py: a trigger on a camera with an active incident *)

Section IncidentRows.
Variable env : Env.

Lemma same_incidents_refl w : same_incidents w w.
Proof. split; [done |]. eauto. Qed.

Lemma same_incidents_eq w w' :
  incidents w' = incidents w -> same_incidents w w'.
Proof. intros Heq. unfold same_incidents. rewrite Heq. split; eauto. Qed.

Lemma same_incidents_trans w1 w2 w3 :
  same_incidents w1 w2 -> same_incidents w2 w3 -> same_incidents w1 w3.
Proof.
  intros [Hd1 Hr1] [Hd2 Hr2]. split; [congruence |].
  intros i inc3 H3. destruct (Hr2 i inc3 H3) as (inc2 & H2 & Hf2).
  destruct (Hr1 i inc2 H2) as (inc1 & H1 & Hf1).
  exists inc1. split; [done | congruence].
Qed.

Lemma same_incidents_update w key inc inc' :
  incidents w !! key = Some inc ->
  Incident.frames_b64 inc' = Incident.frames_b64 inc ->
  same_incidents w (upd_incidents (insert key inc') w).
Proof.
  intros Hrow Hframes. split; simpl.
  - rewrite dom_insert_L. apply subseteq_union_1_L.
    apply singleton_subseteq_l. by eapply elem_of_dom_2.
  - intros i row Hi. destruct (decide (key = i)) as [<- | Hne].
    + rewrite lookup_insert_eq in Hi. injection Hi as <-. eauto.
    + rewrite lookup_insert_ne in Hi by done. eauto.
Qed.

Lemma ensures_ret {A} (Q : A -> Prop) (a : A) : Q a -> ensures Q (ret a).
Proof.
  intros HQ w. split; [apply same_incidents_refl |].
  intros a' Ha. injection Ha as <-. exact HQ.
Qed.

Lemma ensures_raise {A} (Q : A -> Prop) (e : Exn) : ensures Q (raise e).
Proof. intros w. split; [apply same_incidents_refl | discriminate]. Qed.

Lemma ensures_bind {A B} (P : A -> Prop) (Q : B -> Prop)
    (m : M A) (k : A -> M B) :
  ensures P m -> (forall a, P a -> ensures Q (k a)) -> ensures Q (bind m k).
Proof.
  intros Hm Hk w. unfold bind. destruct (Hm w) as [Hsame HP].
  destruct (m w) as [[a | e] w1]; simpl in *.
  - destruct (Hk a (HP a eq_refl) w1) as [Hsame' HQ].
    split; [eapply same_incidents_trans; eauto | exact HQ].
  - split; [exact Hsame | discriminate].
Qed.

Lemma ensures_weaken {A} (P Q : A -> Prop) (m : M A) :
  ensures P m -> (forall a, P a -> Q a) -> ensures Q m.
Proof.
  intros Hm HPQ w. destruct (Hm w) as [Hsame HP]. split; [done |].
  intros a Ha. eauto.
Qed.

Lemma ensures_get {A} (Q : A -> Prop) (k : World -> M A) :
  (forall w0, ensures Q (k w0)) -> ensures Q (bind get k).
Proof. intros Hk w. apply (Hk w w). Qed.

Lemma ensures_modify (f : World -> World) :
  (forall w, incidents (f w) = incidents w) -> ensures anything (modify f).
Proof.
  intros Hf w. split; [apply same_incidents_eq; simpl; apply Hf | done].
Qed.

Lemma ensures_try_except {A} (Q : A -> Prop) (m : M A)
    (handler : Exn -> M A) :
  ensures Q m -> (forall e, ensures Q (handler e)) ->
  ensures Q (try_except m handler).
Proof.
  intros Hm Hh w. unfold try_except. destruct (Hm w) as [Hsame HQ].
  destruct (m w) as [[a | e] w1]; simpl in *; [by split |].
  destruct (Hh e w1) as [Hsame' HQ'].
  split; [eapply same_incidents_trans; eauto | exact HQ'].
Qed.

Lemma ensures_for_each {A} (xs : list A) (body : A -> M unit) :
  (forall x, ensures anything (body x)) ->
  ensures anything (for_each xs body).
Proof.
  intros Hbody. induction xs as [| x rest IH]; simpl.
  - by apply ensures_ret.
  - eapply ensures_bind; [apply Hbody | intros _ _; exact IH].
Qed.

Lemma ensures_scalar_one_or_none {A} (rows : list A) :
  ensures anything (scalar_one_or_none rows).
Proof.
  destruct rows as [| a [| b rest]]; simpl;
    first [by apply ensures_ret | apply ensures_raise].
Qed.

Lemma ensures_log_event incident_id camera_id kind payload :
  ensures anything (log_event incident_id camera_id kind payload).
Proof. by apply ensures_modify. Qed.

(** The rows after an action: CLOSE_INCIDENT rewrites the status of a row
    that exists, the other actions leave the table alone. *)
Lemma ensures_run_action action incident_id camera_id primary backup
    summary :
  ensures anything
    (Executor._run_action env action incident_id camera_id primary backup
       summary).
Proof.
  unfold Executor._run_action.
  apply ensures_try_except; [| intros e; by apply ensures_ret].
  unfold Executor.twilio_send_sms, Executor.twilio_start_voice_call.
  destruct (type action);
    try (lazymatch goal with
         | |- ensures _ (bind get _) => fail
         | _ =>
             repeat first
               [ by apply ensures_ret
               | by apply ensures_modify
               | eapply ensures_bind; [| intros ? _] ]
         end).
  intros w. unfold bind, get, incidents_by_id. simpl.
  destruct (incidents w !! incident_id) as [inc |] eqn:Hrow; simpl.
  - split; [| intros; exact I]. by eapply same_incidents_update.
  - split; [apply same_incidents_refl | intros; exact I].
Qed.

Lemma ensures_execute_actions actions incident_id camera_id primary backup
    summary :
  ensures anything
    (Executor.execute_actions env actions incident_id camera_id primary
       backup summary).
Proof.
  apply ensures_for_each. intros action. unfold Executor.execute_one.
  eapply ensures_bind; [apply ensures_run_action | intros result _].
  eapply ensures_bind; [by apply ensures_modify | intros _ _].
  apply ensures_log_event.
Qed.

Lemma ensures_call_incident_plan req :
  ensures anything (Planner.call_incident_plan env req).
Proof.
  unfold Planner.call_incident_plan. apply ensures_get. intros w0.
  eapply ensures_bind; [by apply ensures_modify | intros _ _].
  destruct (incident_plan env _ req);
    [by apply ensures_ret | apply ensures_raise].
Qed.

Lemma ensures_plan_with_retry packet camera policy_text st notes :
  ensures anything
    (Planner.plan_with_retry env packet camera policy_text st notes).
Proof.
  unfold Planner.plan_with_retry. cbv zeta.
  eapply ensures_bind; [apply ensures_call_incident_plan | intros raw _].
  eapply ensures_bind with (P := anything); [| intros; by apply ensures_ret].
  destruct (negb _ && _); [| by apply ensures_ret].
  apply ensures_try_except; [| intros; by apply ensures_ret].
  eapply ensures_bind; [apply ensures_call_incident_plan | intros raw' _].
  by apply ensures_ret.
Qed.

Lemma ensures_guard_plan now actions camera_id camera incident :
  ensures anything
    (Planner.guard_plan now actions camera_id camera incident).
Proof.
  unfold Planner.guard_plan. apply ensures_get. intros w0.
  destruct (Guard.approve_plan _ now actions (guard w0)) as [[ap ds] g].
  eapply ensures_bind; [by apply ensures_modify | intros _ _].
  by apply ensures_ret.
Qed.

Lemma ensures_load_by_id {A} (Q : A -> Prop) (key : string)
    (k : Incident.t -> M A) :
  (forall w inc,
     incidents w !! key = Some inc ->
     same_incidents w (k inc w).2 /\ forall a, (k inc w).1 = Ok a -> Q a) ->
  ensures Q (let! w := get in
             let! inc := scalar_one (incidents_by_id key w) in
             k inc).
Proof.
  intros Hk w. unfold bind, get, incidents_by_id.
  destruct (incidents w !! key) as [inc |] eqn:Hrow; simpl.
  - by apply Hk.
  - split; [apply same_incidents_refl | discriminate].
Qed.

Lemma after_update {A} (Q : A -> Prop) (key : string)
    (inc inc' : Incident.t) (k : M A) (w : World) :
  incidents w !! key = Some inc ->
  Incident.frames_b64 inc' = Incident.frames_b64 inc ->
  ensures Q k ->
  same_incidents w ((update_incident key inc' >> k) w).2
  /\ forall a, ((update_incident key inc' >> k) w).1 = Ok a -> Q a.
Proof.
  intros Hrow Hframes Hk. unfold bind, update_incident, modify. simpl.
  destruct (Hk (upd_incidents (insert key inc') w)) as [Hsame HQ].
  split; [| exact HQ].
  eapply same_incidents_trans; [| exact Hsame].
  by eapply same_incidents_update.
Qed.

Lemma ensures_persist_and_execute now packet camera incident plan :
  ensures (planned_for (Incident.id incident))
    (Planner.persist_and_execute env now packet camera incident plan).
Proof.
  unfold Planner.persist_and_execute. cbv zeta.
  apply ensures_load_by_id. intros w inc Hrow.
  apply (after_update _ _ inc); [exact Hrow | reflexivity |].
  eapply ensures_bind; [by apply ensures_modify | intros _ _].
  eapply ensures_bind; [apply ensures_log_event | intros _ _].
  eapply ensures_bind; [apply ensures_guard_plan | intros guarded _].
  eapply ensures_bind; [apply ensures_log_event | intros _ _].
  eapply ensures_bind; [apply ensures_execute_actions | intros _ _].
  eapply ensures_bind with (P := anything).
  { destruct (Planner.needs_strong_verify plan);
      [by apply ensures_modify | by apply ensures_ret]. }
  intros _ _.
  eapply ensures_bind with (P := anything).
  { unfold Planner._start_replan_loop.
    eapply ensures_bind; [by apply ensures_modify | intros _ _].
    by apply ensures_modify. }
  intros _ _.
  eapply ensures_bind; [by apply ensures_modify | intros _ _].
  apply ensures_ret. unfold planned_for. eauto.
Qed.

Lemma ensures_plan_incident now packet camera incident :
  ensures (planned_for (Incident.id incident))
    (Planner.plan_incident env now packet camera incident).
Proof.
  unfold Planner.plan_incident. cbv zeta. apply ensures_get. intros w0.
  eapply ensures_bind; [apply ensures_scalar_one_or_none | intros policy _].
  eapply ensures_bind; [apply ensures_log_event | intros _ _].
  eapply ensures_bind; [apply ensures_plan_with_retry | intros plan _].
  apply ensures_persist_and_execute.
Qed.
End IncidentRows.




(* ===================================================================== *)
(** * Part III: further properties of the modelled code *)
(* ===================================================================== *)

(** ** core/guard.py: the decision table, locality, caps *)

Section GuardTableFacts.
Import Guard GuardTable.
Variables (p : Args) (now : Q).

(** One iteration of the loop appends the decision of the table. *)
Lemma approve_one_table approved decisions g a :
  approve_one p now (approved, decisions, g) a
  = (if Guard.approved (decision_for p now g a)
     then approved ++ [a] else approved,
     decisions ++ [decision_for p now g a],
     if Guard.approved (decision_for p now g a)
     then on_approval p now g (type a) else g).
Proof.
  unfold approve_one, decision_for, rejection, cooldown_message.
  rewrite cooldown_check, attempts_check, stage_check.
  unfold contact_class, stamps_contact.
  destruct a as [t dl ps]; simpl.
  destruct t; simpl;
    repeat (case_bool_decide; try congruence; try set_solver; simpl);
    destruct (cooldown_elapsed p now g), (voice_enabled p),
      (sms_enabled p), (acknowledged p),
      (call_count p g <? max_primary_call_attempts p),
      (escalation_stage p <? max_escalation_stage p); simpl;
    reflexivity.
Qed.

Lemma approve_fold_table actions :
  forall approved decisions g,
    fold_left (approve_one p now) actions (approved, decisions, g)
    = (approved ++ kept actions (table_run p now g actions).1,
       decisions ++ (table_run p now g actions).1,
       (table_run p now g actions).2).
Proof.
  induction actions as [| a rest IH]; intros approved decisions g;
    cbn [fold_left table_run].
  - unfold kept. simpl. by rewrite !app_nil_r.
  - rewrite approve_one_table, IH.
    destruct (table_run p now _ rest) as [ds g'] eqn:Hrest. simpl.
    rewrite kept_cons.
    destruct (Guard.approved (decision_for p now g a));
      by rewrite <- !app_assoc.
Qed.

Lemma approve_plan_table actions g :
  approve_plan p now actions g
  = (kept actions (table_run p now g actions).1,
     (table_run p now g actions).1,
     (table_run p now g actions).2).
Proof. unfold approve_plan. by rewrite approve_fold_table. Qed.

Lemma table_run_cons g a rest :
  table_run p now g (a :: rest)
  = (decision_for p now g a
     :: (table_run p now
           (if Guard.approved (decision_for p now g a)
            then on_approval p now g (type a) else g) rest).1,
     (table_run p now
        (if Guard.approved (decision_for p now g a)
         then on_approval p now g (type a) else g) rest).2).
Proof. cbn [table_run]. by destruct (table_run p now _ rest). Qed.

Lemma decision_reason g a :
  Guard.approved (decision_for p now g a) = true
  <-> reason (decision_for p now g a) = "".
Proof.
  unfold decision_for, rejection, cooldown_message.
  destruct (type a); simpl;
    repeat (match goal with
            | |- context [if ?b then _ else _] => destruct b; simpl
            end);
    split; intros H; try reflexivity; discriminate.
Qed.

Lemma table_run_reasons actions :
  forall g,
    Forall (fun d => Guard.approved d = true <-> reason d = "")
           (table_run p now g actions).1.
Proof.
  induction actions as [| a rest IH]; intros g.
  - constructor.
  - rewrite table_run_cons. simpl. constructor;
      [apply decision_reason | apply IH].
Qed.

Lemma on_approval_other g t cam :
  cam ≠ camera_id p ->
  _last_contact_time (on_approval p now g t) !! cam
  = _last_contact_time g !! cam
  /\ _primary_call_counts (on_approval p now g t) !! cam
     = _primary_call_counts g !! cam.
Proof.
  intros Hne. destruct t; simpl; rewrite ?lookup_insert_ne by done; done.
Qed.

Lemma table_run_other actions cam :
  cam ≠ camera_id p ->
  forall g,
    _last_contact_time (table_run p now g actions).2 !! cam
    = _last_contact_time g !! cam
    /\ _primary_call_counts (table_run p now g actions).2 !! cam
       = _primary_call_counts g !! cam.
Proof.
  intros Hne. induction actions as [| a rest IH]; intros g; [done |].
  rewrite table_run_cons. simpl.
  destruct (IH (if Guard.approved (decision_for p now g a)
                then on_approval p now g (type a) else g)) as [-> ->].
  destruct (Guard.approved _); [by apply on_approval_other | done].
Qed.

Lemma decision_for_agree g1 g2 a :
  agree_on (camera_id p) g1 g2 ->
  decision_for p now g1 a = decision_for p now g2 a.
Proof.
  intros [Hlast Hcount].
  unfold decision_for, rejection, cooldown_elapsed, call_count.
  by rewrite Hlast, Hcount.
Qed.

Lemma on_approval_agree g1 g2 t :
  agree_on (camera_id p) g1 g2 ->
  agree_on (camera_id p) (on_approval p now g1 t) (on_approval p now g2 t).
Proof.
  intros [Hlast Hcount].
  destruct t; unfold agree_on, on_approval, count_call, stamp, call_count;
    simpl; rewrite ?lookup_insert_eq, ?Hcount; done.
Qed.

Lemma table_run_agree actions :
  forall g1 g2,
    agree_on (camera_id p) g1 g2 ->
    (table_run p now g1 actions).1 = (table_run p now g2 actions).1
    /\ agree_on (camera_id p) (table_run p now g1 actions).2
                (table_run p now g2 actions).2.
Proof.
  induction actions as [| a rest IH]; intros g1 g2 Hagree; [done |].
  rewrite !table_run_cons. simpl.
  rewrite (decision_for_agree g1 g2 a Hagree).
  destruct (IH (if Guard.approved (decision_for p now g2 a)
                then on_approval p now g1 (type a) else g1)
               (if Guard.approved (decision_for p now g2 a)
                then on_approval p now g2 (type a) else g2))
    as [-> Hrest].
  { destruct (Guard.approved _); [by apply on_approval_agree | done]. }
  done.
Qed.
End GuardTableFacts.

(** X1.  Every decision of [approve_plan] is the one of the table: an
    action is rejected with the reason of the first test that fails, in
    the order cooldown, then capability, then attempts (voice) or
    acknowledgement, then stage (escalation), and approved with the empty
    reason otherwise; a decision is an approval exactly when its reason is
    empty. *)
Theorem approve_plan_reasons
    (p : Guard.Args) (now : Q) (actions : list PlanAction)
    (g : Guard.GuardState) :
  (Guard.approve_plan p now actions g).1.2
  = (GuardTable.table_run p now g actions).1
  /\ Forall (fun d => Guard.approved d = true <-> Guard.reason d = "")
            (Guard.approve_plan p now actions g).1.2.
Proof.
  rewrite approve_plan_table. simpl. split; [done |].
  apply table_run_reasons.
Qed.

(** X2.  [approve_plan] for one camera leaves the entries of every other
    camera in both dictionaries as they were. *)
Theorem approve_plan_other_cameras
    (p : Guard.Args) (now : Q) (actions : list PlanAction)
    (g : Guard.GuardState) (cam : string) :
  cam ≠ Guard.camera_id p ->
  Guard._last_contact_time (Guard.approve_plan p now actions g).2 !! cam
  = Guard._last_contact_time g !! cam
  /\ Guard._primary_call_counts (Guard.approve_plan p now actions g).2
       !! cam
     = Guard._primary_call_counts g !! cam.
Proof.
  intros Hne. rewrite approve_plan_table. simpl.
  by apply table_run_other.
Qed.

(** X2 on a guard that has camera ["cam1"] on record, called for
    ["cam2"]. *)
Lemma approve_plan_other_cameras_witness :
  Guard._last_contact_time
    (Guard.approve_plan (Guard.default_args "cam2" false true true 0) 200
       [mkPlanAction SEND_SMS_PRIMARY 0 ∅;
        mkPlanAction START_VOICE_CALL_PRIMARY 1 ∅]
       Examples.contacted).2 !! "cam1"
  = Guard._last_contact_time Examples.contacted !! "cam1"
  /\ Guard._primary_call_counts
       (Guard.approve_plan (Guard.default_args "cam2" false true true 0) 200
          [mkPlanAction SEND_SMS_PRIMARY 0 ∅;
           mkPlanAction START_VOICE_CALL_PRIMARY 1 ∅]
          Examples.contacted).2 !! "cam1"
     = Guard._primary_call_counts Examples.contacted !! "cam1".
Proof.
  apply (approve_plan_other_cameras
           (Guard.default_args "cam2" false true true 0) 200
           [mkPlanAction SEND_SMS_PRIMARY 0 ∅;
            mkPlanAction START_VOICE_CALL_PRIMARY 1 ∅]
           Examples.contacted "cam1").
  discriminate.
Defined.

(** X3.  The approved actions and the decisions of [approve_plan] depend
    on the dictionaries only through the two entries of the camera of the
    call; in particular, right after [reset_camera_state] they are those of
    a process that never saw the camera. *)
Theorem approve_plan_per_camera
    (p : Guard.Args) (now : Q) (actions : list PlanAction)
    (g1 g2 : Guard.GuardState) :
  GuardTable.agree_on (Guard.camera_id p) g1 g2 ->
  (Guard.approve_plan p now actions g1).1
  = (Guard.approve_plan p now actions g2).1
  /\ (Guard.approve_plan p now actions
        (Guard.reset_camera_state (Guard.camera_id p) g1)).1
     = (Guard.approve_plan p now actions Guard.initial).1.
Proof.
  intros Hagree. rewrite !approve_plan_table. simpl.
  destruct (table_run_agree p now actions g1 g2 Hagree) as [-> _].
  split; [done |].
  destruct (table_run_agree p now actions
              (Guard.reset_camera_state (Guard.camera_id p) g1)
              Guard.initial) as [-> _]; [| done].
  split; simpl; by rewrite lookup_delete_eq, lookup_empty.
Qed.

(** X3 on the recorded guard and a copy of it that also knows another
    camera. *)
Lemma approve_plan_per_camera_witness :
  (Guard.approve_plan (Guard.default_args "cam1" false true true 0) 103
     [mkPlanAction SEND_SMS_PRIMARY 0 ∅] Examples.contacted).1
  = (Guard.approve_plan (Guard.default_args "cam1" false true true 0) 103
       [mkPlanAction SEND_SMS_PRIMARY 0 ∅]
       (Guard.mkGuardState
          (<[ "cam9" := 7%Q ]> (Guard._last_contact_time Examples.contacted))
          (Guard._primary_call_counts Examples.contacted))).1
  /\ (Guard.approve_plan (Guard.default_args "cam1" false true true 0) 103
        [mkPlanAction SEND_SMS_PRIMARY 0 ∅]
        (Guard.reset_camera_state "cam1" Examples.contacted)).1
     = (Guard.approve_plan (Guard.default_args "cam1" false true true 0) 103
          [mkPlanAction SEND_SMS_PRIMARY 0 ∅] Guard.initial).1.
Proof.
  apply (approve_plan_per_camera
           (Guard.default_args "cam1" false true true 0) 103
           [mkPlanAction SEND_SMS_PRIMARY 0 ∅] Examples.contacted).
  split; simpl; [| reflexivity].
  by rewrite lookup_insert_ne.
Defined.

Section GuardCaps.
Import Guard GuardTable.
Variables (p : Args) (now : Q).

Lemma voice_calls_cons a rest :
  voice_calls (a :: rest)
  = if decide (type a = START_VOICE_CALL_PRIMARY)
    then S (voice_calls rest) else voice_calls rest.
Proof. unfold voice_calls. rewrite filter_cons. by case_decide. Qed.

Lemma contacts_cons a rest :
  contacts (a :: rest)
  = if decide (type a ∈ contact_class)
    then S (contacts rest) else contacts rest.
Proof. unfold contacts. rewrite filter_cons. by case_decide. Qed.

Lemma on_approval_count g t :
  call_count p (on_approval p now g t)
  = call_count p g
    + (if decide (t = START_VOICE_CALL_PRIMARY) then 1 else 0).
Proof.
  destruct t; unfold on_approval, count_call, stamp, call_count; simpl;
    rewrite ?lookup_insert_eq; simpl; lia.
Qed.

Lemma approved_voice_below_cap g a :
  type a = START_VOICE_CALL_PRIMARY ->
  Guard.approved (decision_for p now g a) = true ->
  call_count p g < max_primary_call_attempts p.
Proof.
  intros Hty. unfold decision_for, rejection. rewrite Hty.
  destruct (negb (cooldown_elapsed p now g)); [discriminate |].
  destruct (negb (voice_enabled p)); [discriminate |].
  destruct (call_count p g <? max_primary_call_attempts p) eqn:Hlt;
    [| discriminate].
  intros _. by apply Z.ltb_lt.
Qed.

Lemma table_run_voice actions :
  forall g,
    call_count p (table_run p now g actions).2
    = call_count p g
      + Z.of_nat (voice_calls (kept actions (table_run p now g actions).1))
    /\ ((0 < voice_calls (kept actions (table_run p now g actions).1))%nat ->
        call_count p (table_run p now g actions).2
        <= max_primary_call_attempts p).
Proof.
  induction actions as [| a rest IH]; intros g.
  - unfold kept, voice_calls. simpl. split; lia.
  - rewrite table_run_cons. simpl. rewrite kept_cons.
    destruct (Guard.approved (decision_for p now g a)) eqn:Hok.
    + destruct (IH (on_approval p now g (type a))) as [Hcount Hcap].
      rewrite on_approval_count in Hcount.
      rewrite voice_calls_cons.
      destruct (decide (type a = START_VOICE_CALL_PRIMARY)) as [Hty | Hty].
      * pose proof (approved_voice_below_cap g a Hty Hok) as Hlt.
        split; [lia |]. intros _.
        destruct (voice_calls
                    (kept rest
                       (table_run p now (on_approval p now g (type a))
                          rest).1)) as [| n] eqn:Hn; [lia |].
        apply Hcap. lia.
      * split; [lia | exact Hcap].
    + apply IH.
Qed.

Lemma cooling_rejects g a :
  0 < cooldown_contact_s p ->
  _last_contact_time g !! camera_id p = Some now ->
  type a ∈ contact_class ->
  Guard.approved (decision_for p now g a) = false.
Proof.
  intros Hpos Hlast Hty.
  assert (cooldown_elapsed p now g = false) as Hcool.
  { unfold cooldown_elapsed. rewrite Hlast. simpl.
    destruct (Qle_bool _ _) eqn:E; [| reflexivity].
    apply Qle_bool_iff in E.
    assert (inject_Z (cooldown_contact_s p) <= inject_Z 0)%Q as Hle
      by (change (inject_Z 0) with 0%Q; lra).
    rewrite <- Zle_Qle in Hle. lia. }
  unfold contact_class in Hty.
  rewrite !elem_of_cons, elem_of_nil in Hty.
  unfold decision_for, rejection.
  destruct Hty as [-> | [-> | [-> | []]]]; rewrite Hcool; reflexivity.
Qed.

Lemma on_approval_keeps_stamp g t :
  _last_contact_time g !! camera_id p = Some now ->
  _last_contact_time (on_approval p now g t) !! camera_id p = Some now.
Proof.
  intros Hlast. destruct t; simpl; rewrite ?lookup_insert_eq; done.
Qed.

Lemma on_approval_stamps g t :
  t ∈ contact_class ->
  _last_contact_time (on_approval p now g t) !! camera_id p = Some now.
Proof.
  unfold contact_class. rewrite !elem_of_cons, elem_of_nil.
  intros [-> | [-> | [-> | []]]]; simpl; by rewrite lookup_insert_eq.
Qed.

Lemma table_run_cooling actions :
  0 < cooldown_contact_s p ->
  forall g,
    _last_contact_time g !! camera_id p = Some now ->
    contacts (kept actions (table_run p now g actions).1) = 0%nat.
Proof.
  intros Hpos. induction actions as [| a rest IH]; intros g Hlast; [done |].
  rewrite table_run_cons. simpl. rewrite kept_cons.
  destruct (Guard.approved (decision_for p now g a)) eqn:Hok.
  - rewrite contacts_cons.
    destruct (decide (type a ∈ contact_class)) as [Hty | Hty].
    + rewrite (cooling_rejects g a Hpos Hlast Hty) in Hok. discriminate.
    + apply IH. by apply on_approval_keeps_stamp.
  - by apply IH.
Qed.

Lemma table_run_contacts actions :
  0 < cooldown_contact_s p ->
  forall g,
    (contacts (kept actions (table_run p now g actions).1) <= 1)%nat.
Proof.
  intros Hpos. induction actions as [| a rest IH]; intros g;
    [unfold kept, contacts; simpl; lia |].
  rewrite table_run_cons. simpl. rewrite kept_cons.
  destruct (Guard.approved (decision_for p now g a)) eqn:Hok; [| apply IH].
  rewrite contacts_cons.
  destruct (decide (type a ∈ contact_class)) as [Hty | Hty]; [| apply IH].
  rewrite (table_run_cooling rest Hpos); [lia |].
  by apply on_approval_stamps.
Qed.
End GuardCaps.

(** X4.  One call of [approve_plan] raises [primary_call_count[camera]] by
    exactly the number of voice calls it approves, and when it approves one
    the count it leaves does not exceed [max_primary_call_attempts]. *)
Theorem voice_calls_capped
    (p : Guard.Args) (now : Q) (actions : list PlanAction)
    (g : Guard.GuardState) :
  Guard.call_count p (Guard.approve_plan p now actions g).2
  = Guard.call_count p g
    + Z.of_nat
        (GuardTable.voice_calls (Guard.approve_plan p now actions g).1.1)
  /\ ((0 < GuardTable.voice_calls
             (Guard.approve_plan p now actions g).1.1)%nat ->
      Guard.call_count p (Guard.approve_plan p now actions g).2
      <= Guard.max_primary_call_attempts p).
Proof.
  rewrite approve_plan_table. simpl. apply table_run_voice.
Qed.

(** X4 on a camera with one call on record and the default cap of two. *)
Lemma voice_calls_capped_witness :
  (0 < GuardTable.voice_calls
         (Guard.approve_plan (Guard.default_args "cam1" false true true 0)
            200 [mkPlanAction START_VOICE_CALL_PRIMARY 1 ∅]
            Examples.contacted).1.1)%nat
  /\ Guard.call_count (Guard.default_args "cam1" false true true 0)
       (Guard.approve_plan (Guard.default_args "cam1" false true true 0)
          200 [mkPlanAction START_VOICE_CALL_PRIMARY 1 ∅]
          Examples.contacted).2
     <= 2.
Proof.
  assert (0 < GuardTable.voice_calls
                (Guard.approve_plan
                   (Guard.default_args "cam1" false true true 0)
                   200 [mkPlanAction START_VOICE_CALL_PRIMARY 1 ∅]
                   Examples.contacted).1.1)%nat as Hpos
    by (vm_compute; lia).
  split; [exact Hpos |].
  exact (proj2 (voice_calls_capped
                  (Guard.default_args "cam1" false true true 0) 200
                  [mkPlanAction START_VOICE_CALL_PRIMARY 1 ∅]
                  Examples.contacted) Hpos).
Defined.

(** X5.  With a positive cooldown, one call of [approve_plan] approves at
    most one contact-class action, whatever the list: the first approval
    stamps [last_contact[camera]] with the clock reading that the later
    actions of the call are tested against. *)
Theorem one_contact_per_call
    (p : Guard.Args) (now : Q) (actions : list PlanAction)
    (g : Guard.GuardState) :
  0 < Guard.cooldown_contact_s p ->
  (GuardTable.contacts (Guard.approve_plan p now actions g).1.1 <= 1)%nat.
Proof.
  intros Hpos. rewrite approve_plan_table. simpl.
  by apply table_run_contacts.
Qed.

(** X5 on the fallback plan of a severe fall: the voice call that follows
    the SMS is not approved. *)
Lemma one_contact_per_call_witness :
  0 < Guard.cooldown_contact_s (Guard.default_args "cam1" false true true 0)
  /\ (GuardTable.contacts
        (Guard.approve_plan (Guard.default_args "cam1" false true true 0)
           1000 (actions (Planner._fallback_plan 0.9 true))
           Guard.initial).1.1
      <= 1)%nat.
Proof.
  assert (0 < Guard.cooldown_contact_s
                (Guard.default_args "cam1" false true true 0)) as Hpos
    by (simpl; lia).
  split; [exact Hpos |].
  exact (one_contact_per_call
           (Guard.default_args "cam1" false true true 0) 1000
           (actions (Planner._fallback_plan 0.9 true)) Guard.initial Hpos).
Defined.

(** ** core/severity.py: order properties *)

(** A boolean comparison of rationals in a hypothesis, as the order. *)
Ltac Qprop H :=
  first [ apply Qgtb_true in H | apply Qgtb_false in H
        | apply Qltb_true in H | apply Qltb_false in H ].

Section SeverityOrder.
Import Severity.

Lemma Qgtb_mono (x y c : Q) :
  (x <= y)%Q -> Qgtb x c = true -> Qgtb y c = true.
Proof. rewrite !Qgtb_true. intros ? ?. lra. Qed.


Lemma compute_severity_mono_seed seed seed' t still motion acked :
  seed <= seed' ->
  compute_severity seed t still motion acked
  <= compute_severity seed' t still motion acked.
Proof.
  intros Hs. unfold compute_severity.
  destruct (Qgtb t 120), (Qgtb t 45), (Qgtb t 15),
    (Qgtb still 0.9 && Qgtb t 30), (Qgtb motion 0.5 && Qltb still 0.3),
    acked; lia.
Qed.

Lemma compute_severity_mono_time seed t t' still motion acked :
  seed <= 5 -> (t <= t')%Q ->
  compute_severity seed t still motion acked
  <= compute_severity seed t' still motion acked.
Proof.
  intros Hs Ht. unfold compute_severity.
  destruct (Qgtb t 120) eqn:E1, (Qgtb t 45) eqn:E2, (Qgtb t 15) eqn:E3,
    (Qgtb t 30) eqn:E4;
    Qprop E1; Qprop E2; Qprop E3; Qprop E4; try (exfalso; lra);
    destruct (Qgtb t' 120) eqn:F1, (Qgtb t' 45) eqn:F2, (Qgtb t' 15) eqn:F3,
      (Qgtb t' 30) eqn:F4;
    Qprop F1; Qprop F2; Qprop F3; Qprop F4; try (exfalso; lra);
    destruct (Qgtb still 0.9), (Qgtb motion 0.5 && Qltb still 0.3), acked;
    cbn [andb]; lia.
Qed.

End SeverityOrder.

(** X6.  [compute_severity] is monotone in the seed, for every seed: a
    larger seed, the other inputs being the same, never gives a lower
    severity.  For every seed an acknowledgement lowers the result by at
    most one level and never raises it.  For a seed of at most 5 (the
    bound of [PlannerPlan.severity_seed]) it is also monotone in the time
    down, alone and together with the seed: a longer time on the floor
    never gives a lower severity.  Above 5 the seed is not capped before
    the stillness bonus is, and the time can lower the result: with seed
    10, stillness 0.95 and an acknowledgement, 20 seconds on the floor
    give 5 and 40 seconds give 4. *)
Theorem compute_severity_monotone
    (seed seed' : Z) (t t' stillness motion : Q) (acked : bool) :
  (seed <= seed' ->
   Severity.compute_severity seed t stillness motion acked
   <= Severity.compute_severity seed' t stillness motion acked)
  /\ Severity.compute_severity seed t stillness motion true
     <= Severity.compute_severity seed t stillness motion false
     <= Severity.compute_severity seed t stillness motion true + 1
  /\ (seed <= 5 -> (t <= t')%Q ->
      Severity.compute_severity seed t stillness motion acked
      <= Severity.compute_severity seed t' stillness motion acked)
  /\ (seed <= seed' -> seed <= 5 -> (t <= t')%Q ->
      Severity.compute_severity seed t stillness motion acked
      <= Severity.compute_severity seed' t' stillness motion acked)
  /\ Severity.compute_severity 10 20 0.95 0.1 true = 5
  /\ Severity.compute_severity 10 40 0.95 0.1 true = 4.
Proof.
  split; [apply compute_severity_mono_seed |].
  split.
  { unfold Severity.compute_severity.
    destruct (Qgtb t 120), (Qgtb t 45), (Qgtb t 15),
      (Qgtb stillness 0.9 && Qgtb t 30),
      (Qgtb motion 0.5 && Qltb stillness 0.3); lia. }
  split; [apply compute_severity_mono_time |].
  split; [| split; reflexivity].
  intros Hs Hcap Ht. etransitivity.
  - apply compute_severity_mono_time; [exact Hcap | exact Ht].
  - apply compute_severity_mono_seed, Hs.
Qed.

Lemma compute_severity_monotone_witness :
  Severity.compute_severity 2 20 0.95 0.1 false
  <= Severity.compute_severity 9 50 0.95 0.1 false
  /\ Severity.compute_severity 9 20 0.95 0.1 true
     <= Severity.compute_severity 9 20 0.95 0.1 false
     <= Severity.compute_severity 9 20 0.95 0.1 true + 1.
Proof.
  split.
  - apply (compute_severity_monotone 2 9 20 50 0.95 0.1 false).
    + lia.
    + lia.
    + unfold Qle; simpl; lia.
  - apply (compute_severity_monotone 9 9 20 20 0.95 0.1 false).
Defined.

(** ** core/planner.py: the severity ticker *)

Section TickerFacts.
Import Ticker.
Variable env : Env.

Lemma incidents_by_id_Some w incident_id inc :
  incidents w !! incident_id = Some inc ->
  incidents_by_id incident_id w = [inc].
Proof. intros H. unfold incidents_by_id. rewrite H. reflexivity. Qed.

Lemma incidents_by_id_None w incident_id :
  incidents w !! incident_id = None ->
  incidents_by_id incident_id w = [].
Proof. intros H. unfold incidents_by_id. rewrite H. reflexivity. Qed.

Lemma eqb_ACTIVE (s : string) :
  String.eqb s "ACTIVE" = bool_decide (s = "ACTIVE").
Proof.
  destruct (String.eqb_spec s "ACTIVE") as [-> | Hne].
  - reflexivity.
  - symmetry. apply bool_decide_eq_false. exact Hne.
Qed.

Lemma tick_active_eq w incident_id camera_id inc :
  incidents w !! incident_id = Some inc ->
  Incident.status inc = "ACTIVE" ->
  _tick env incident_id camera_id w
  = (Ok (Some (tick_log env inc)),
     upd_timeline
       (fun t => t ++ tick_events incident_id camera_id (tick_log env inc))
       (upd_incidents (insert incident_id (ticked env inc)) w)).
Proof.
  intros Hrow Hst. unfold _tick, try_except, bind, get.
  rewrite (incidents_by_id_Some _ _ _ Hrow). cbn [scalar_one_or_none ret].
  rewrite Hst. cbn [String.eqb Ascii.eqb Bool.eqb negb andb].
  unfold update_incident, log_event, modify, tick_log.
  destruct (negb _ || _); [reflexivity |].
  unfold upd_timeline, tick_events. cbn. rewrite app_nil_r. reflexivity.
Qed.

Lemma tick_inactive_eq w incident_id camera_id :
  (forall inc, incidents w !! incident_id = Some inc ->
               Incident.status inc ≠ "ACTIVE") ->
  _tick env incident_id camera_id w = (Ok None, w).
Proof.
  intros Hno. unfold _tick, try_except, bind, get.
  destruct (incidents w !! incident_id) as [inc |] eqn:Hrow.
  - rewrite (incidents_by_id_Some _ _ _ Hrow). cbn [scalar_one_or_none ret].
    rewrite eqb_ACTIVE, bool_decide_eq_false_2 by (apply Hno; reflexivity).
    reflexivity.
  - rewrite (incidents_by_id_None _ _ Hrow). reflexivity.
Qed.

Lemma ticked_fields inc :
  Incident.status (ticked env inc) = Incident.status inc
  /\ Incident.severity_seed (ticked env inc) = Incident.severity_seed inc
  /\ Incident.acknowledged (ticked env inc) = Incident.acknowledged inc
  /\ Incident.time_down_s (ticked env inc)
     = (Incident.time_down_s inc + 1.0)%Q
  /\ Incident.severity_current (ticked env inc)
     = Severity.compute_severity (Incident.severity_seed inc)
         (Incident.time_down_s inc + 1.0) 0.7 0.1 (Incident.acknowledged inc).
Proof. repeat split. Qed.

(** Without stillness above 0.9 and without motion above 0.5, the
    severity is the clamp of the seed raised by the time thresholds, less
    one when acknowledged. *)
Lemma compute_severity_ticker seed t acked :
  Severity.compute_severity seed t 0.7 0.1 acked
  = Severity.clamp_1_5
      ((if Qgtb t 120 then Z.max seed 5
        else if Qgtb t 45 then Z.max seed 4
        else if Qgtb t 15 then Z.max seed 3 else seed)
       - (if acked then 1 else 0)).
Proof.
  unfold Severity.compute_severity, Severity.clamp_1_5.
  replace (Qgtb 0.7 0.9) with false by reflexivity.
  replace (Qgtb 0.1 0.5) with false by reflexivity.
  cbn [andb].
  destruct (Qgtb t 120), (Qgtb t 45), (Qgtb t 15), acked; lia.
Qed.

Lemma compute_severity_Qeq seed t t' still motion acked :
  (t == t')%Q ->
  Severity.compute_severity seed t still motion acked
  = Severity.compute_severity seed t' still motion acked.
Proof.
  intros Ht. unfold Severity.compute_severity, Qgtb.
  rewrite !(Qleb_comp _ _ Ht _ _ (Qeq_refl _)). reflexivity.
Qed.

Lemma run_ticker_active n :
  forall w incident_id camera_id inc,
    incidents w !! incident_id = Some inc ->
    Incident.status inc = "ACTIVE" ->
    exists ticks w' inc',
      run_ticker env n incident_id camera_id w = (Ok ticks, w')
      /\ incidents w' = <[incident_id := inc']> (incidents w)
      /\ Incident.status inc' = "ACTIVE"
      /\ Incident.severity_seed inc' = Incident.severity_seed inc
      /\ Incident.acknowledged inc' = Incident.acknowledged inc
      /\ (Incident.time_down_s inc'
          == Incident.time_down_s inc + inject_Z (Z.of_nat n))%Q
      /\ ((0 < n)%nat ->
          Incident.severity_current inc'
          = Severity.compute_severity (Incident.severity_seed inc)
              (Incident.time_down_s inc + inject_Z (Z.of_nat n)) 0.7 0.1
              (Incident.acknowledged inc))
      /\ (length ticks <= n)%nat.
Proof.
  induction n as [| n IH]; intros w incident_id camera_id inc Hrow Hst.
  - exists [], w, inc. cbn [run_ticker ret].
    split; [reflexivity |].
    split; [symmetry; apply insert_id, Hrow |].
    split; [exact Hst |].
    split; [reflexivity |].
    split; [reflexivity |].
    split; [cbn; ring |].
    split; [lia | cbn; lia].
  - cbn [run_ticker]. unfold bind at 1.
    rewrite (tick_active_eq _ _ _ _ Hrow Hst).
    destruct (ticked_fields inc) as (Hs1 & Hseed1 & Hack1 & Ht1 & Hsev1).
    destruct (IH (upd_timeline
                    (fun t => t ++ tick_events incident_id camera_id
                                     (tick_log env inc))
                    (upd_incidents (insert incident_id (ticked env inc)) w))
                 incident_id camera_id (ticked env inc))
      as (ticks & w' & inc' & Hrun & Hinc & Hs & Hseed & Hack & Ht & Hsev
          & Hlen).
    { cbn. apply lookup_insert_eq. }
    { rewrite Hs1. exact Hst. }
    exists (option_list (tick_log env inc) ++ ticks), w', inc'.
    unfold bind. rewrite Hrun. cbn [ret].
    split; [reflexivity |].
    split; [rewrite Hinc; cbn; apply insert_insert_eq |].
    split; [exact Hs |].
    split; [congruence |].
    split; [congruence |].
    assert (Htime : (Incident.time_down_s inc'
                     == Incident.time_down_s inc
                        + inject_Z (Z.of_nat (S n)))%Q).
    { rewrite Ht, Ht1, Nat2Z.inj_succ, <- Z.add_1_r, inject_Z_plus.
      cbn. ring. }
    split; [exact Htime |].
    split.
    + intros _. destruct n as [| n'].
      * (* the last tick is this one *)
        cbn [run_ticker ret] in Hrun. injection Hrun as <- <-.
        cbn in Hinc. rewrite insert_insert_eq in Hinc.
        assert (inc' = ticked env inc) as ->.
        { apply (f_equal (fun m => m !! incident_id)) in Hinc.
          cbn in Hinc. rewrite !lookup_insert_eq in Hinc. congruence. }
        rewrite Hsev1. apply compute_severity_Qeq. cbn. ring.
      * rewrite Hsev by lia. rewrite Hseed1, Hack1.
        apply compute_severity_Qeq.
        rewrite Ht1, !Nat2Z.inj_succ, <- !Z.add_1_r, !inject_Z_plus.
        cbn. ring.
    + rewrite length_app. destruct (tick_log env inc); cbn; lia.
Qed.

End TickerFacts.

(** X7.  The severity ticker stops at its first wake-up after the
    incident stopped being ACTIVE (acknowledged, closed, or no such row):
    the iteration breaks out of the loop and writes nothing. *)
Theorem ticker_stops_when_not_active
    (env : Env) (w : World) (incident_id camera_id : string) (n : nat) :
  (forall inc, incidents w !! incident_id = Some inc ->
               Incident.status inc ≠ "ACTIVE") ->
  Ticker._tick env incident_id camera_id w = (Ok None, w)
  /\ Ticker.run_ticker env n incident_id camera_id w = (Ok [], w).
Proof.
  intros Hno. pose proof (tick_inactive_eq env w incident_id camera_id Hno).
  split; [assumption |].
  destruct n as [| n]; [reflexivity |].
  cbn [Ticker.run_ticker]. unfold bind. rewrite H. reflexivity.
Qed.

Lemma ticker_stops_when_not_active_witness :
  Ticker._tick Examples.planner_down "inc1" "cam1" Examples.closed_world
  = (Ok None, Examples.closed_world)
  /\ Ticker.run_ticker Examples.planner_down 7 "inc1" "cam1"
       Examples.closed_world
     = (Ok [], Examples.closed_world).
Proof.
  apply (ticker_stops_when_not_active Examples.planner_down
           Examples.closed_world "inc1" "cam1" 7).
  intros inc Hrow.
  assert (incidents Examples.closed_world !! "inc1"
          = Some Examples.closed_incident) as Hclosed by reflexivity.
  rewrite Hclosed in Hrow. injection Hrow as <-. discriminate.
Defined.



(** X9.  Left alone for [n] wake-ups, the ticker of an ACTIVE incident
    never stops by itself: the incident stays ACTIVE with its seed, its
    time down is the old one plus [n] seconds, and its severity is that of
    [compute_severity] for the seed and the new time.  In particular an
    unacknowledged incident is at severity 5 once its time down exceeds
    120 seconds, whatever seed the planner gave, and an acknowledged one
    whose seed is at most 5 is at severity 4. *)
Theorem ticker_reaches_top
    (env : Env) (n : nat) (w : World) (incident_id camera_id : string)
    (inc : Incident.t) :
  incidents w !! incident_id = Some inc ->
  Incident.status inc = "ACTIVE" ->
  (0 < n)%nat ->
  exists ticks w' inc',
    Ticker.run_ticker env n incident_id camera_id w = (Ok ticks, w')
    /\ incidents w' = <[incident_id := inc']> (incidents w)
    /\ Incident.status inc' = "ACTIVE"
    /\ Incident.severity_seed inc' = Incident.severity_seed inc
    /\ (Incident.time_down_s inc'
        == Incident.time_down_s inc + inject_Z (Z.of_nat n))%Q
    /\ Incident.severity_current inc'
       = Severity.compute_severity (Incident.severity_seed inc)
           (Incident.time_down_s inc') 0.7 0.1 (Incident.acknowledged inc)
    /\ ((120 < Incident.time_down_s inc + inject_Z (Z.of_nat n))%Q ->
        Incident.severity_current inc'
        = if Incident.acknowledged inc
          then Z.max 4 (Z.min 5 (Incident.severity_seed inc - 1))
          else 5).
Proof.
  intros Hrow Hst Hn.
  destruct (run_ticker_active env n w incident_id camera_id inc Hrow Hst)
    as (ticks & w' & inc' & Hrun & Hinc & Hs & Hseed & Hack & Ht & Hsev & _).
  exists ticks, w', inc'.
  split; [exact Hrun |].
  split; [exact Hinc |].
  split; [exact Hs |].
  split; [exact Hseed |].
  split; [exact Ht |].
  specialize (Hsev Hn). split.
  - rewrite Hsev. symmetry. apply compute_severity_Qeq, Ht.
  - intros Hlong. rewrite Hsev, compute_severity_ticker.
    apply Qgtb_true in Hlong. rewrite Hlong.
    unfold Severity.clamp_1_5. destruct (Incident.acknowledged inc); lia.
Qed.

Lemma ticker_reaches_top_witness :
  exists ticks w' inc',
    Ticker.run_ticker Examples.planner_mild 3 "inc2" "cam1"
      Examples.active_world
    = (Ok ticks, w')
    /\ incidents w' !! "inc2" = Some inc'
    /\ (Incident.time_down_s inc' == 133)%Q
    /\ Incident.severity_current inc' = 5.
Proof.
  destruct (ticker_reaches_top Examples.planner_mild 3 Examples.active_world
              "inc2" "cam1" Examples.active_incident eq_refl eq_refl)
    as (ticks & w' & inc' & Hrun & Hinc & _ & _ & Ht & _ & Htop).
  { lia. }
  exists ticks, w', inc'.
  split; [exact Hrun |].
  split; [rewrite Hinc; apply lookup_insert_eq |].
  split; [rewrite Ht; reflexivity |].
  apply Htop. reflexivity.
Defined.

(** ** Frames: the parts of the state that a computation leaves alone *)

Section Frames.
Context {X : Type} (f : World -> X).

Lemma preserves_ret {A} (a : A) : preserves f (ret a).
Proof. intros w. reflexivity. Qed.

Lemma preserves_raise {A} (e : Exn) : preserves f (@raise A e).
Proof. intros w. reflexivity. Qed.

Lemma preserves_get : preserves f get.
Proof. intros w. reflexivity. Qed.

Lemma preserves_modify (g : World -> World) :
  (forall w, f (g w) = f w) -> preserves f (modify g).
Proof. intros H w. apply H. Qed.

Lemma preserves_bind {A B} (m : M A) (k : A -> M B) :
  preserves f m -> (forall a, preserves f (k a)) -> preserves f (bind m k).
Proof.
  intros Hm Hk w. unfold bind. specialize (Hm w).
  destruct (m w) as [[a | e] w1]; cbn in *.
  - rewrite Hk. exact Hm.
  - exact Hm.
Qed.

Lemma preserves_try_except {A} (m : M A) (handler : Exn -> M A) :
  preserves f m -> (forall e, preserves f (handler e)) ->
  preserves f (try_except m handler).
Proof.
  intros Hm Hh w. unfold try_except. specialize (Hm w).
  destruct (m w) as [[a | e] w1]; cbn in *.
  - exact Hm.
  - rewrite Hh. exact Hm.
Qed.

Lemma preserves_for_each {A} (xs : list A) (body : A -> M unit) :
  (forall x, preserves f (body x)) -> preserves f (for_each xs body).
Proof.
  intros Hb. induction xs as [| x xs IH]; cbn [for_each].
  - apply preserves_ret.
  - apply preserves_bind; [apply Hb | intros _; exact IH].
Qed.

Lemma preserves_scalar_one_or_none {A} (rows : list A) :
  preserves f (scalar_one_or_none rows).
Proof. intros w. destruct rows as [| ? [| ? ?]]; reflexivity. Qed.

Lemma preserves_scalar_one {A} (rows : list A) :
  preserves f (scalar_one rows).
Proof. intros w. destruct rows as [| ? [| ? ?]]; reflexivity. Qed.

Lemma preserves_select_camera camera_id :
  preserves f (select_camera camera_id).
Proof.
  apply preserves_bind; [apply preserves_get |].
  intros w. apply preserves_scalar_one_or_none.
Qed.

End Frames.

(** ** core/executor.py: the trail of a run *)

Section ExecutorTrail.
Import Trail.
Variable env : Env.
Variables incident_id camera_id primary_contact backup_contact
  summary_text : string.

Lemma extend_nothing w :
  extend (incidents w) [] [] [] w = w.
Proof. destruct w. unfold extend. cbn. rewrite !app_nil_r. reflexivity. Qed.

Lemma extend_extend rows1 logs1 events1 out1 rows2 logs2 events2 out2 w :
  extend rows2 logs2 events2 out2 (extend rows1 logs1 events1 out1 w)
  = extend rows2 (logs1 ++ logs2) (events1 ++ events2) (out1 ++ out2) w.
Proof. unfold extend. cbn. rewrite !app_assoc. reflexivity. Qed.

Lemma closed_rows_idemp rows :
  closed_rows incident_id (closed_rows incident_id rows)
  = closed_rows incident_id rows.
Proof.
  unfold closed_rows. destruct (rows !! incident_id) as [inc |] eqn:E.
  - rewrite lookup_insert_eq, insert_insert_eq. reflexivity.
  - rewrite E. reflexivity.
Qed.

Lemma run_action_trail (a : PlanAction) (w : World) :
  exists result out,
    Executor._run_action env a incident_id camera_id primary_contact
      backup_contact summary_text w
    = (Ok result,
       extend (if bool_decide (type a = CLOSE_INCIDENT)
               then closed_rows incident_id (incidents w) else incidents w)
              [] [] out w)
    /\ sends incident_id primary_contact backup_contact (type a) out.
Proof.
  destruct a as [t d ps]. destruct w as [cs incs ps' pl al cu tl g rt sp gw gc].
  unfold extend. cbn [type]. destruct t.
  - eexists _, []. cbn. rewrite !app_nil_r. split; reflexivity.
  - eexists _, [_]. cbn -[String.append String.substring].
    rewrite !app_nil_r. split; [reflexivity | eexists; reflexivity].
  - eexists _, [_]. cbn -[String.append String.substring].
    rewrite !app_nil_r. split; [reflexivity | eexists; reflexivity].
  - eexists _, [_]. cbn -[String.append String.substring].
    rewrite !app_nil_r. split; reflexivity.
  - eexists _, [_; _]. cbn -[String.append String.substring].
    unfold upd_gateway. cbn -[String.append String.substring].
    rewrite !app_nil_r, <- app_assoc.
    split; [reflexivity | eexists; reflexivity].
  - eexists _, []. cbn. rewrite !app_nil_r. split; reflexivity.
  - exists "Incident closed", [].
    unfold Executor._run_action, try_except, bind, get, incidents_by_id,
      closed_rows.
    cbn [type incidents]. rewrite !app_nil_r.
    destruct (incs !! incident_id) as [inc |]; split; reflexivity.
  - eexists _, []. cbn. rewrite !app_nil_r. split; reflexivity.
Qed.

Lemma execute_one_trail (a : PlanAction) (w : World) :
  exists result out,
    Executor.execute_one env incident_id camera_id primary_contact
      backup_contact summary_text a w
    = (Ok tt,
       extend (if bool_decide (type a = CLOSE_INCIDENT)
               then closed_rows incident_id (incidents w) else incidents w)
              [ActionLog.mk incident_id camera_id
                 (ActionType_value (type a)) (params a) result]
              [logged_event
                 (ActionLog.mk incident_id camera_id
                    (ActionType_value (type a)) (params a) result)]
              out w)
    /\ sends incident_id primary_contact backup_contact (type a) out.
Proof.
  destruct (run_action_trail a w) as (result & out & Hrun & Hout).
  exists result, out. split; [| exact Hout].
  unfold Executor.execute_one, bind. rewrite Hrun.
  unfold extend, logged_event. cbn. rewrite !app_nil_r. reflexivity.
Qed.

Lemma closes_cons a actions :
  closes (a :: actions)
  = bool_decide (type a = CLOSE_INCIDENT) || closes actions.
Proof.
  unfold closes.
  destruct (bool_decide (type a = CLOSE_INCIDENT)) eqn:Ea;
    [apply bool_decide_eq_true in Ea | apply bool_decide_eq_false in Ea];
    cbn [orb].
  - apply bool_decide_eq_true. constructor. exact Ea.
  - apply bool_decide_ext. rewrite Exists_cons. tauto.
Qed.

Lemma execute_actions_trail (actions : list PlanAction) :
  forall w,
  exists logs outs,
    Executor.execute_actions env actions incident_id camera_id
      primary_contact backup_contact summary_text w
    = (Ok tt,
       extend (if closes actions
               then closed_rows incident_id (incidents w) else incidents w)
              logs (map logged_event logs) (concat outs) w)
    /\ rows_of incident_id camera_id actions logs
    /\ Forall2 (fun a out =>
                  sends incident_id primary_contact backup_contact
                        (type a) out)
               actions outs.
Proof.
  induction actions as [| a actions IH]; intros w.
  - exists [], []. cbn. rewrite extend_nothing.
    split; [reflexivity | split; constructor].
  - destruct (execute_one_trail a w) as (result & out & Hone & Hout).
    unfold Executor.execute_actions. cbn [for_each].
    unfold bind at 1. rewrite Hone.
    match goal with
    | |- context [for_each actions ?body ?w1] =>
        destruct (IH w1) as (logs & outs & Hrest & Hlogs & Houts)
    end.
    unfold Executor.execute_actions in Hrest. rewrite Hrest.
    exists (ActionLog.mk incident_id camera_id (ActionType_value (type a))
              (params a) result :: logs), (out :: outs).
    rewrite extend_extend. cbn [incidents extend].
    split; [| split; [constructor; [reflexivity | exact Hlogs]
                     | constructor; assumption]].
    rewrite closes_cons. cbn [map concat app]. do 2 f_equal.
    destruct (bool_decide (type a = CLOSE_INCIDENT)), (closes actions);
      cbn [orb]; try reflexivity.
    apply closed_rows_idemp.
Qed.

Lemma sends_length t out :
  sends incident_id primary_contact backup_contact t out ->
  length out
  = ((if bool_decide (t ∈ Guard.contact_class) then 1 else 0)
     + (if bool_decide (t = ESCALATE_TO_BACKUP) then 2 else 0))%nat.
Proof.
  destruct t; cbn; intros H;
    repeat match goal with H : exists _, _ |- _ => destruct H end;
    subst; reflexivity.
Qed.

Lemma sends_recipient t out :
  sends incident_id primary_contact backup_contact t out ->
  Forall (fun o => recipient o
                   = if bool_decide (t = ESCALATE_TO_BACKUP)
                     then backup_contact else primary_contact) out.
Proof.
  destruct t; cbn; intros H;
    repeat match goal with H : exists _, _ |- _ => destruct H end;
    subst; repeat constructor.
Qed.

Lemma sent_length actions :
  forall outs,
    Forall2 (fun a out =>
               sends incident_id primary_contact backup_contact
                     (type a) out) actions outs ->
    length (concat outs)
    = (GuardTable.contacts actions + 2 * escalations actions)%nat.
Proof.
  induction actions as [| a actions IH]; intros outs Houts;
    inversion Houts as [| ? out ? outs' Hout Hrest]; subst.
  - reflexivity.
  - cbn [concat]. rewrite length_app, (IH _ Hrest), (sends_length _ _ Hout).
    unfold GuardTable.contacts, escalations. rewrite !filter_cons.
    destruct (decide (type a ∈ Guard.contact_class)) as [Hc | Hc];
      destruct (decide (type a = ESCALATE_TO_BACKUP)) as [He | He];
      rewrite ?(bool_decide_eq_true_2 _ Hc), ?(bool_decide_eq_false_2 _ Hc),
        ?(bool_decide_eq_true_2 _ He), ?(bool_decide_eq_false_2 _ He);
      cbn [length]; lia.
Qed.

Lemma sent_recipients actions :
  forall outs,
    Forall2 (fun a out =>
               sends incident_id primary_contact backup_contact
                     (type a) out) actions outs ->
    Forall (fun o => recipient o = primary_contact
                     \/ (recipient o = backup_contact
                         /\ (0 < escalations actions)%nat))
           (concat outs).
Proof.
  induction actions as [| a actions IH]; intros outs Houts;
    inversion Houts as [| ? out ? outs' Hout Hrest]; subst.
  - constructor.
  - cbn [concat]. apply Forall_app. split.
    + eapply Forall_impl; [apply (sends_recipient _ _ Hout) |].
      intros o Ho. cbn beta in Ho. unfold escalations.
      rewrite filter_cons.
      destruct (decide (type a = ESCALATE_TO_BACKUP)) as [He | He].
      * rewrite (bool_decide_eq_true_2 _ He) in Ho. right.
        split; [exact Ho | cbn; lia].
      * rewrite (bool_decide_eq_false_2 _ He) in Ho. left. exact Ho.
    + eapply Forall_impl; [apply (IH _ Hrest) |].
      intros o [Ho | [Ho Hn]]; [left; exact Ho | right].
      split; [exact Ho |]. unfold escalations in *. rewrite filter_cons.
      destruct (decide (type a = ESCALATE_TO_BACKUP)); cbn; lia.
Qed.

End ExecutorTrail.

(** X10.  [execute_actions] never raises, whatever the gateway answers
    and whatever the incident table holds.  It appends one row to the
    action log per action, in list order, with the incident, the camera,
    the type and the parameters of the action, and one [ACTION_EXECUTED]
    event to the timeline per row, carrying the same type, result and
    parameters.  It leaves the cameras, the notification policies, the
    plans, the configuration updates, the guard, the registry of replan
    tasks, the started tasks and the planner calls as they were. *)
Theorem execute_actions_audit_trail
    (env : Env) (actions : list PlanAction)
    (incident_id camera_id primary_contact backup_contact summary_text
       : string) (w : World) :
  exists logs,
    (Executor.execute_actions env actions incident_id camera_id
       primary_contact backup_contact summary_text w).1 = Ok tt
    /\ action_logs
         (Executor.execute_actions env actions incident_id camera_id
            primary_contact backup_contact summary_text w).2
       = action_logs w ++ logs
    /\ timeline
         (Executor.execute_actions env actions incident_id camera_id
            primary_contact backup_contact summary_text w).2
       = timeline w ++ map Trail.logged_event logs
    /\ map ActionLog.action_type logs
       = map (fun a => ActionType_value (type a)) actions
    /\ map ActionLog.params logs = map params actions
    /\ Forall (fun row => ActionLog.incident_id row = incident_id
                          /\ ActionLog.camera_id row = camera_id) logs
    /\ (let w' :=
          (Executor.execute_actions env actions incident_id camera_id
             primary_contact backup_contact summary_text w).2 in
        cameras w' = cameras w
        /\ notification_policies w' = notification_policies w
        /\ incident_plans w' = incident_plans w
        /\ config_updates w' = config_updates w
        /\ guard w' = guard w
        /\ _active_replan_tasks w' = _active_replan_tasks w
        /\ spawned w' = spawned w
        /\ gemini_calls w' = gemini_calls w).
Proof.
  destruct (execute_actions_trail env incident_id camera_id primary_contact
              backup_contact summary_text actions w)
    as (logs & outs & Hrun & Hlogs & _).
  exists logs. rewrite Hrun. cbn.
  split; [reflexivity |].
  split; [reflexivity |].
  split; [reflexivity |].
  unfold Trail.rows_of in Hlogs. clear Hrun.
  split; [| split; [| split]].
  - induction Hlogs as [| a row actions' logs' Hrow _ IH]; [reflexivity |].
    cbn. f_equal; [rewrite Hrow; reflexivity | exact IH].
  - induction Hlogs as [| a row actions' logs' Hrow _ IH]; [reflexivity |].
    cbn. f_equal; [rewrite Hrow; reflexivity | exact IH].
  - induction Hlogs as [| a row actions' logs' Hrow _ IH]; constructor.
    + rewrite Hrow. split; reflexivity.
    + exact IH.
  - repeat split.
Qed.

(** X11.  What [execute_actions] hands to the gateway: one message per
    SMS, heads-up or voice-call action and two (an SMS and a call) per
    [ESCALATE_TO_BACKUP], also for the actions that come after a
    [CLOSE_INCIDENT] in the list; nothing for any other type.  Every
    message goes to the primary contact, unless the list escalates, and
    then to the primary or the backup contact. *)
Theorem execute_actions_messages
    (env : Env) (actions : list PlanAction)
    (incident_id camera_id primary_contact backup_contact summary_text
       : string) (w : World) :
  exists out,
    gateway
      (Executor.execute_actions env actions incident_id camera_id
         primary_contact backup_contact summary_text w).2
    = gateway w ++ out
    /\ length out
       = (GuardTable.contacts actions + 2 * Trail.escalations actions)%nat
    /\ Forall (fun o => Trail.recipient o = primary_contact
                        \/ (Trail.recipient o = backup_contact
                            /\ (0 < Trail.escalations actions)%nat)) out.
Proof.
  destruct (execute_actions_trail env incident_id camera_id primary_contact
              backup_contact summary_text actions w)
    as (logs & outs & Hrun & _ & Houts).
  exists (concat outs). rewrite Hrun. cbn.
  split; [reflexivity |].
  split; [eapply sent_length, Houts | eapply sent_recipients, Houts].
Qed.

(** X12.  The only write of [execute_actions] to the incident table is
    that of [CLOSE_INCIDENT]: when the list holds one and the incident
    exists, its status becomes [CLOSED] and the rest of its row stays;
    otherwise the table is as before.  No row appears or disappears, and
    no other incident changes. *)
Theorem execute_actions_incidents
    (env : Env) (actions : list PlanAction)
    (incident_id camera_id primary_contact backup_contact summary_text
       : string) (w : World) :
  incidents
    (Executor.execute_actions env actions incident_id camera_id
       primary_contact backup_contact summary_text w).2
  = (if Trail.closes actions
     then Trail.closed_rows incident_id (incidents w) else incidents w)
  /\ dom (incidents
            (Executor.execute_actions env actions incident_id camera_id
               primary_contact backup_contact summary_text w).2)
     = dom (incidents w)
  /\ forall i, i ≠ incident_id ->
       incidents
         (Executor.execute_actions env actions incident_id camera_id
            primary_contact backup_contact summary_text w).2 !! i
       = incidents w !! i.
Proof.
  destruct (execute_actions_trail env incident_id camera_id primary_contact
              backup_contact summary_text actions w)
    as (logs & outs & Hrun & _ & _).
  rewrite Hrun. cbn. split; [reflexivity |].
  unfold Trail.closed_rows.
  destruct (Trail.closes actions); [| split; reflexivity].
  destruct (incidents w !! incident_id) as [inc |] eqn:Hrow;
    [| split; reflexivity].
  split.
  - rewrite dom_insert_L. apply elem_of_dom_2 in Hrow.
    apply (anti_symm (⊆)); intros i;
      rewrite ?elem_of_union, ?elem_of_singleton; [| tauto].
    intros [-> | Hi]; assumption.
  - intros i Hi. apply lookup_insert_ne. congruence.
Qed.

(** ** The messages of one trigger *)

Section Messages.
Import Trail.
Variable env : Env.
Variable R : Outgoing -> Prop.

Lemma emits_quiet {A} (m : M A) :
  preserves gateway m -> emits anything 0 R m.
Proof.
  intros Hm w. split; [| intros; exact I].
  exists []. rewrite Hm, app_nil_r. repeat split; [cbn; lia | constructor].
Qed.

Lemma emits_bind {A B} (Q1 : A -> Prop) (Q2 : B -> Prop) (n1 n2 : nat)
    (m : M A) (k : A -> M B) :
  emits Q1 n1 R m ->
  (forall a, Q1 a -> emits Q2 n2 R (k a)) ->
  emits Q2 (n1 + n2) R (bind m k).
Proof.
  intros Hm Hk w. unfold bind.
  destruct (Hm w) as [(out1 & Hg1 & Hl1 & HR1) HQ1].
  destruct (m w) as [[a | e] w1]; cbn in *.
  - destruct (Hk a (HQ1 a eq_refl) w1) as [(out2 & Hg2 & Hl2 & HR2) HQ2].
    split; [| exact HQ2].
    exists (out1 ++ out2). rewrite Hg2, Hg1, app_assoc, length_app.
    repeat split; [lia | apply Forall_app; split; assumption].
  - split; [| discriminate].
    exists out1. repeat split; [exact Hg1 | lia | exact HR1].
Qed.

Lemma emits_then {A B} (Q : B -> Prop) (n : nat) (m : M A) (k : A -> M B) :
  preserves gateway m ->
  (forall a, emits Q n R (k a)) ->
  emits Q n R (bind m k).
Proof.
  intros Hm Hk. change n with (0 + n)%nat.
  eapply emits_bind; [apply emits_quiet, Hm | intros a _; apply Hk].
Qed.

Lemma emits_before {A B} (Q : B -> Prop) (n : nat) (m : M A) (k : A -> M B) :
  emits anything n R m ->
  (forall a, preserves gateway (k a)) ->
  (forall a w b, (k a w).1 = Ok b -> Q b) ->
  emits Q n R (bind m k).
Proof.
  intros Hm Hk HQ. replace n with (n + 0)%nat by lia.
  eapply emits_bind; [exact Hm | intros a _].
  intros w. split; [apply emits_quiet, Hk | apply HQ].
Qed.

Lemma emits_weaken {A} (Q Q' : A -> Prop) (n n' : nat) (m : M A) :
  emits Q n R m -> (n <= n')%nat -> (forall a, Q a -> Q' a) ->
  emits Q' n' R m.
Proof.
  intros Hm Hn HQ w. destruct (Hm w) as [(out & Hg & Hl & HR) Hres].
  split; [| intros a Ha; apply HQ, Hres, Ha].
  exists out. repeat split; [exact Hg | lia | exact HR].
Qed.

End Messages.

Section TriggerMessages.
Import Trail.
Variable env : Env.

Lemma escalations_sublist (l1 l2 : list PlanAction) :
  sublist l1 l2 -> (escalations l1 <= escalations l2)%nat.
Proof.
  intros H. unfold escalations. apply sublist_length.
  induction H as [| x l1 l2 _ IH | x l1 l2 _ IH]; rewrite ?filter_cons.
  - constructor.
  - destruct (decide (type x = ESCALATE_TO_BACKUP));
      [apply sublist_skip |]; exact IH.
  - destruct (decide (type x = ESCALATE_TO_BACKUP));
      [apply sublist_cons |]; exact IH.
Qed.

(** What the guard lets through for one trigger. *)
Lemma guard_plan_result now actions camera_id camera incident :
  forall w guarded,
    (Planner.guard_plan now actions camera_id camera incident w).1
    = Ok guarded ->
    (GuardTable.contacts guarded.1 <= 1)%nat
    /\ (escalations guarded.1 <= escalations actions)%nat.
Proof.
  intros w guarded. unfold Planner.guard_plan, bind, get.
  rewrite approve_plan_table. cbn. intros [= <-]. cbn. split.
  - apply table_run_contacts. cbn. lia.
  - apply escalations_sublist, kept_sublist.
Qed.

Lemma preserves_guard_plan {X} (f : World -> X) now actions camera_id
    camera incident :
  (forall g w, f (upd_guard g w) = f w) ->
  preserves f (Planner.guard_plan now actions camera_id camera incident).
Proof.
  intros Hf w. unfold Planner.guard_plan, bind, get.
  rewrite approve_plan_table. cbn. apply Hf.
Qed.

Lemma preserves_log_event {X} (f : World -> X) incident_id camera_id kind
    payload :
  (forall g w, f (upd_timeline g w) = f w) ->
  preserves f (log_event incident_id camera_id kind payload).
Proof. intros Hf. apply preserves_modify. intros w. apply Hf. Qed.

Lemma emits_execute_actions actions incident_id camera_id primary_contact
    backup_contact summary_text :
  emits anything
    (GuardTable.contacts actions + 2 * escalations actions)
    (fun o => recipient o = primary_contact
              \/ (recipient o = backup_contact
                  /\ (0 < escalations actions)%nat))
    (Executor.execute_actions env actions incident_id camera_id
       primary_contact backup_contact summary_text).
Proof.
  intros w. split; [| intros; exact I].
  destruct (execute_actions_trail env incident_id camera_id primary_contact
              backup_contact summary_text actions w)
    as (logs & outs & Hrun & _ & Houts).
  exists (concat outs). rewrite Hrun. cbn.
  split; [reflexivity |].
  split; [erewrite sent_length by exact Houts; lia |].
  eapply sent_recipients, Houts.
Qed.

Lemma emits_persist_and_execute now packet camera incident plan :
  emits anything (1 + 2 * escalations (actions plan))
    (fun o => recipient o = Camera.primary_contact camera
              \/ (recipient o = Camera.backup_contact camera
                  /\ (0 < escalations (actions plan))%nat))
    (Planner.persist_and_execute env now packet camera incident plan).
Proof.
  unfold Planner.persist_and_execute. cbv zeta.
  apply emits_then; [apply preserves_get | intros w0].
  apply emits_then; [apply preserves_scalar_one | intros inc].
  apply emits_then; [apply preserves_modify; reflexivity | intros _].
  apply emits_then; [apply preserves_modify; reflexivity | intros _].
  apply emits_then; [apply preserves_log_event; reflexivity | intros _].
  change (1 + 2 * escalations (actions plan))%nat
    with (0 + (1 + 2 * escalations (actions plan)))%nat.
  eapply emits_bind
    with (Q1 := fun guarded : list PlanAction * list Guard.Decision =>
                  (GuardTable.contacts guarded.1 <= 1)%nat
                  /\ (escalations guarded.1
                      <= escalations (actions plan))%nat).
  { intros w. split.
    - exists []. rewrite preserves_guard_plan by reflexivity.
      rewrite app_nil_r. repeat split; [cbn; lia | constructor].
    - apply guard_plan_result. }
  intros guarded [Hcontacts Hesc].
  apply emits_then; [apply preserves_log_event; reflexivity | intros _].
  apply emits_before.
  - eapply emits_weaken with (Q := anything);
      [| | intros; exact I].
    + intros w. destruct (emits_execute_actions guarded.1 (Incident.id incident)
                  (TelemetryPacket.camera_id packet)
                  (Camera.primary_contact camera)
                  (Camera.backup_contact camera)
                  (match Incident.summary_text incident with
                   | Some s => str_or s (_generate_summary env incident)
                   | None => _generate_summary env incident
                   end) w) as [(out & Hg & Hl & HR) _].
      split; [| intros; exact I].
      exists out. split; [exact Hg |]. split; [exact Hl |].
      eapply Forall_impl; [exact HR |].
      intros o [Ho | [Ho Hn]]; [left; exact Ho | right].
      split; [exact Ho | lia].
    + lia.
  - intros _.
    apply preserves_bind;
      [destruct (Planner.needs_strong_verify plan);
         [apply preserves_modify; reflexivity | apply preserves_ret]
      | intros _].
    apply preserves_bind;
      [apply preserves_bind;
         [apply preserves_modify; reflexivity
         | intros _; apply preserves_modify; reflexivity]
      | intros _].
    apply preserves_bind;
      [apply preserves_modify; reflexivity | intros _; apply preserves_ret].
  - intros; exact I.
Qed.

End TriggerMessages.

(** X13.  Guard and executor together: whatever plan the planner
    returned for a trigger, the guarded execution of [handle_incident]
    (with the default cooldown of five seconds) hands at most one message
    to the gateway for the primary contact, an SMS, a heads-up or a call,
    and two for each [ESCALATE_TO_BACKUP] of the plan: at most
    [1 + 2 * e] messages for a plan with [e] escalations.  Each goes to
    the camera's primary contact, or to its backup contact when the plan
    escalates. *)
Theorem one_trigger_messages
    (env : Env) (now : Q) (packet : TelemetryPacket.t) (camera : Camera.t)
    (incident : Incident.t) (plan : PlannerPlan) (w : World) :
  exists out,
    gateway
      (Planner.persist_and_execute env now packet camera incident plan w).2
    = gateway w ++ out
    /\ (length out <= 1 + 2 * Trail.escalations (actions plan))%nat
    /\ Forall (fun o =>
                 Trail.recipient o = Camera.primary_contact camera
                 \/ (Trail.recipient o = Camera.backup_contact camera
                     /\ (0 < Trail.escalations (actions plan))%nat)) out.
Proof.
  destruct (emits_persist_and_execute env now packet camera incident plan w)
    as [Hout _].
  exact Hout.
Qed.

(** ** api/incidents.py and api/twilio.py: the acknowledgement paths *)

Section Acknowledgements.

Lemma approve_plan_after_reset p now actions g :
  (Guard.approve_plan p now actions
     (Guard.reset_camera_state (Guard.camera_id p) g)).1
  = (Guard.approve_plan p now actions Guard.initial).1.
Proof.
  rewrite !approve_plan_table. cbn.
  destruct (table_run_agree p now actions
              (Guard.reset_camera_state (Guard.camera_id p) g)
              Guard.initial) as [Hds _].
  { split; cbn; rewrite lookup_delete_eq, lookup_empty; reflexivity. }
  rewrite Hds. reflexivity.
Qed.

Lemma acknowledge_incident_run w incident_id ack_by inc :
  incidents w !! incident_id = Some inc ->
  IncidentsApi.acknowledge_incident incident_id ack_by w
  = (Ok ("acknowledged", incident_id),
     upd_timeline
       (fun t => t ++ [mkEvent incident_id (Incident.camera_id inc)
                         "ACK_RECEIVED" (PAck ack_by None)])
       (upd_guard (Guard.reset_camera_state (Incident.camera_id inc))
          (upd_active_replan_tasks (fun tasks => tasks ∖ {[incident_id]})
             (upd_incidents
                (insert incident_id
                   (Incident.set_status "ACKED"
                      (Incident.set_ack_by (Some ack_by)
                         (Incident.set_acknowledged true inc))))
                w)))).
Proof.
  intros Hrow. unfold IncidentsApi.acknowledge_incident, bind, get.
  rewrite (incidents_by_id_Some _ _ _ Hrow). reflexivity.
Qed.

Lemma false_alarm_run w incident_id inc :
  incidents w !! incident_id = Some inc ->
  IncidentsApi.false_alarm incident_id w
  = (Ok ("closed", "false_alarm"),
     upd_timeline
       (fun t => t ++ [mkEvent incident_id (Incident.camera_id inc)
                         "CLOSED" (PReason "false_alarm" None)])
       (upd_guard (Guard.reset_camera_state (Incident.camera_id inc))
          (upd_active_replan_tasks (fun tasks => tasks ∖ {[incident_id]})
             (upd_incidents
                (insert incident_id
                   (Incident.set_acknowledged true
                      (Incident.set_verdict "FALSE_ALARM"
                         (Incident.set_status "CLOSED" inc))))
                w)))).
Proof.
  intros Hrow. unfold IncidentsApi.false_alarm, bind, get.
  rewrite (incidents_by_id_Some _ _ _ Hrow). reflexivity.
Qed.

End Acknowledgements.

(** X14.  An acknowledgement or a false-alarm report for an existing
    incident, whatever its status, takes the incident out of the registry
    of replan loops, forgets what the guard holds for the incident's
    camera, sends nothing and touches no other incident.  The next call of
    [approve_plan] for that camera then decides as in a fresh process: no
    cooldown is running and no call attempt is counted. *)
Theorem acknowledgement_frees_the_camera
    (w : World) (incident_id ack_by : string) (inc : Incident.t)
    (p : Guard.Args) (now : Q) (actions : list PlanAction) :
  incidents w !! incident_id = Some inc ->
  Guard.camera_id p = Incident.camera_id inc ->
  Forall (fun w' =>
            (incident_id ∉ _active_replan_tasks w')
            /\ guard w'
               = Guard.reset_camera_state (Incident.camera_id inc) (guard w)
            /\ gateway w' = gateway w
            /\ (forall i, i ≠ incident_id ->
                  incidents w' !! i = incidents w !! i)
            /\ (Guard.approve_plan p now actions (guard w')).1
               = (Guard.approve_plan p now actions Guard.initial).1)
         [ snd (IncidentsApi.acknowledge_incident incident_id ack_by w);
           snd (IncidentsApi.false_alarm incident_id w) ].
Proof.
  intros Hrow Hcam.
  rewrite (acknowledge_incident_run _ _ _ _ Hrow),
    (false_alarm_run _ _ _ Hrow).
  repeat constructor; cbn;
    try (rewrite elem_of_difference, elem_of_singleton; tauto);
    try (intros i Hi; apply lookup_insert_ne; congruence);
    rewrite <- Hcam; apply approve_plan_after_reset.
Qed.

Lemma acknowledgement_frees_the_camera_witness :
  Forall (fun w' =>
            ("inc2" ∉ _active_replan_tasks w')
            /\ guard w'
               = Guard.reset_camera_state "cam1" Examples.contacted
            /\ gateway w' = []
            /\ (forall i, i ≠ "inc2" ->
                  incidents w' !! i
                  = incidents (Examples.world_with Examples.active_incident
                                 Examples.contacted) !! i)
            /\ (Guard.approve_plan
                  (Guard.default_args "cam1" true true true 1) 101
                  [mkPlanAction SEND_SMS_PRIMARY 0 ∅] (guard w')).1
               = (Guard.approve_plan
                    (Guard.default_args "cam1" true true true 1) 101
                    [mkPlanAction SEND_SMS_PRIMARY 0 ∅] Guard.initial).1)
         [ snd (IncidentsApi.acknowledge_incident "inc2" "nurse"
                  (Examples.world_with Examples.active_incident
                     Examples.contacted));
           snd (IncidentsApi.false_alarm "inc2"
                  (Examples.world_with Examples.active_incident
                     Examples.contacted)) ].
Proof.
  apply (acknowledgement_frees_the_camera
           (Examples.world_with Examples.active_incident Examples.contacted)
           "inc2" "nurse" Examples.active_incident
           (Guard.default_args "cam1" true true true 1) 101
           [mkPlanAction SEND_SMS_PRIMARY 0 ∅]);
    reflexivity.
Defined.

(** X15.  A request that names no existing incident changes nothing:
    [acknowledge_incident] and [false_alarm] raise the HTTP error 404
    "Incident not found", and [dtmf_webhook] answers with the TwiML
    "Incident not found." whatever digits it was sent. *)
Theorem unknown_incident_is_refused
    (w : World) (incident_id ack_by Digits : string) :
  incidents w !! incident_id = None ->
  IncidentsApi.acknowledge_incident incident_id ack_by w
  = (Raise (HTTPException 404 "Incident not found"), w)
  /\ IncidentsApi.false_alarm incident_id w
     = (Raise (HTTPException 404 "Incident not found"), w)
  /\ TwilioApi.dtmf_webhook incident_id Digits w
     = (Ok "<Response><Say>Incident not found.</Say></Response>", w).
Proof.
  intros Hrow.
  unfold IncidentsApi.acknowledge_incident, IncidentsApi.false_alarm,
    TwilioApi.dtmf_webhook, bind, get.
  rewrite (incidents_by_id_None _ _ Hrow). repeat split.
Qed.

Lemma unknown_incident_is_refused_witness :
  IncidentsApi.acknowledge_incident "nope" "nurse" Examples.active_world
  = (Raise (HTTPException 404 "Incident not found"), Examples.active_world)
  /\ IncidentsApi.false_alarm "nope" Examples.active_world
     = (Raise (HTTPException 404 "Incident not found"),
        Examples.active_world)
  /\ TwilioApi.dtmf_webhook "nope" "1" Examples.active_world
     = (Ok "<Response><Say>Incident not found.</Say></Response>",
        Examples.active_world).
Proof.
  apply (unknown_incident_is_refused Examples.active_world "nope" "nurse"
           "1").
  reflexivity.
Defined.

Section Dtmf.
Import TwilioApi Digits.

Lemma dtmf_webhook_run w incident_id Digits inc :
  incidents w !! incident_id = Some inc ->
  exists msg,
    dtmf_webhook incident_id Digits w
    = (Ok ("<Response><Say voice='Polly.Joanna'>" +:+ msg
           +:+ "</Say></Response>"),
       after_digit incident_id inc (strip Digits) w)
    /\ (strip Digits ∉ ["1"; "2"; "3"; "4"] ->
        msg = "Invalid option. Goodbye.").
Proof.
  intros Hrow. unfold dtmf_webhook, after_digit, bind at 1 2, get.
  rewrite (incidents_by_id_Some _ _ _ Hrow). cbn [scalar_one_or_none ret].
  destruct (decide (strip Digits = "1")) as [E1 | E1].
  { eexists. split; [reflexivity |]. rewrite E1. intros H.
    exfalso. apply H. repeat constructor. }
  destruct (decide (strip Digits = "2")) as [E2 | E2].
  { eexists. split; [reflexivity |]. rewrite E2. intros H.
    exfalso. apply H. repeat constructor. }
  destruct (decide (strip Digits = "3")) as [E3 | E3].
  { eexists. split; [reflexivity |]. rewrite E3. intros H.
    exfalso. apply H. repeat constructor. }
  destruct (decide (strip Digits = "4")) as [E4 | E4].
  { eexists. split; [reflexivity |]. rewrite E4. intros H.
    exfalso. apply H. repeat constructor. }
  eexists. split; reflexivity.
Qed.

End Dtmf.

(** X16.  Whatever digits it receives, [dtmf_webhook] returns a TwiML
    response and never raises.  It sends nothing through the gateway,
    starts no task, and leaves the cameras, the plans, the action log and
    every other incident as they were; no incident row appears or
    disappears; it writes at most one timeline event.  Digits other than
    1, 2, 3 and 4 (after [str.strip()], which removes the white space of
    Unicode at both ends) change nothing at all. *)
Theorem dtmf_webhook_frame (w : World) (incident_id Digits : string) :
  exists body events,
    (TwilioApi.dtmf_webhook incident_id Digits w).1 = Ok body
    /\ timeline (TwilioApi.dtmf_webhook incident_id Digits w).2
       = timeline w ++ events
    /\ (length events <= 1)%nat
    /\ (let w' := (TwilioApi.dtmf_webhook incident_id Digits w).2 in
        gateway w' = gateway w
        /\ spawned w' = spawned w
        /\ cameras w' = cameras w
        /\ incident_plans w' = incident_plans w
        /\ action_logs w' = action_logs w
        /\ dom (incidents w') = dom (incidents w)
        /\ forall i, i ≠ incident_id ->
             incidents w' !! i = incidents w !! i)
    /\ (TwilioApi.strip Digits ∉ ["1"; "2"; "3"; "4"] ->
        (TwilioApi.dtmf_webhook incident_id Digits w).2 = w).
Proof.
  destruct (incidents w !! incident_id) as [inc |] eqn:Hrow.
  - destruct (dtmf_webhook_run w incident_id Digits inc Hrow)
      as (msg & Hrun & Hmsg).
    rewrite Hrun. unfold Digits.after_digit.
    assert (Hdom : forall inc',
               dom (<[incident_id := inc']> (incidents w))
               = dom (incidents w)).
    { intros inc'. rewrite dom_insert_L. apply elem_of_dom_2 in Hrow.
      apply (anti_symm (⊆)); intros i;
        rewrite ?elem_of_union, ?elem_of_singleton; [| tauto].
      intros [-> | Hi]; assumption. }
    assert (Hne : forall inc' i,
               i ≠ incident_id ->
               <[incident_id := inc']> (incidents w) !! i
               = incidents w !! i).
    { intros inc' i Hi. apply lookup_insert_ne. congruence. }
    destruct (decide (TwilioApi.strip Digits = "1")) as [E1 | E1];
      [| destruct (decide (TwilioApi.strip Digits = "2")) as [E2 | E2];
         [| destruct (decide (TwilioApi.strip Digits = "3")) as [E3 | E3];
            [| destruct (decide (TwilioApi.strip Digits = "4"))
                 as [E4 | E4]]]].
    1-4: eexists _, [_]; cbn;
      (split; [reflexivity |]); (split; [reflexivity |]); (split; [lia |]);
      (split; [repeat (split; [reflexivity |]);
               split; [apply Hdom | apply Hne] |]);
      intros Hbad; exfalso; apply Hbad;
      rewrite ?E1, ?E2, ?E3, ?E4; repeat constructor.
    exists ("<Response><Say voice='Polly.Joanna'>" +:+ msg
            +:+ "</Say></Response>"), [].
    cbn. rewrite app_nil_r.
    split; [reflexivity |]. split; [reflexivity |]. split; [lia |].
    split; [repeat split | reflexivity].
  - unfold TwilioApi.dtmf_webhook, bind, get.
    rewrite (incidents_by_id_None _ _ Hrow). cbn.
    eexists _, []. rewrite app_nil_r.
    split; [reflexivity |]. split; [reflexivity |]. split; [cbn; lia |].
    split; [repeat split | reflexivity].
Qed.

Lemma dtmf_webhook_frame_witness :
  let nbsp := String (Ascii.ascii_of_nat 194)
                (String (Ascii.ascii_of_nat 160) EmptyString) in
  let em_space := String (Ascii.ascii_of_nat 226)
                    (String (Ascii.ascii_of_nat 128)
                       (String (Ascii.ascii_of_nat 131) EmptyString)) in
  (TwilioApi.strip (em_space +:+ " 9" +:+ nbsp) = "9"
   /\ (TwilioApi.dtmf_webhook "inc2" (em_space +:+ " 9" +:+ nbsp)
         Examples.active_world).2
      = Examples.active_world)
  /\ (TwilioApi.strip ("1" +:+ nbsp) = "1"
      /\ (Incident.acknowledged
            <$> incidents (TwilioApi.dtmf_webhook "inc2" ("1" +:+ nbsp)
                             Examples.active_world).2 !! "inc2")
         = Some true).
Proof.
  intros nbsp em_space. split; [split; [reflexivity |] | split; reflexivity].
  destruct (dtmf_webhook_frame Examples.active_world "inc2"
              (em_space +:+ " 9" +:+ nbsp))
    as (body & events & _ & _ & _ & _ & Hsame).
  apply Hsame.
  change (TwilioApi.strip (em_space +:+ " 9" +:+ nbsp)) with "9".
  rewrite !elem_of_cons, elem_of_nil.
  intros [H | [H | [H | [H | []]]]]; discriminate.
Defined.

(** X17.  Digit 3 answers "Escalating to backup contact now." and only
    records it: the escalation stage of the incident becomes
    [min(stage + 1, 2)], so it never exceeds 2, and an [ESCALATION] event
    with the new stage is logged.  The handler sends nothing, starts no
    task, leaves the replan registry and the guard alone, does not
    acknowledge the incident and does not look at its status. *)
Theorem dtmf_escalation_only_records
    (w : World) (incident_id Digits : string) (inc : Incident.t) :
  incidents w !! incident_id = Some inc ->
  TwilioApi.strip Digits = "3" ->
  exists inc',
    TwilioApi.dtmf_webhook incident_id Digits w
    = (Ok ("<Response><Say voice='Polly.Joanna'>"
           +:+ "Escalating to backup contact now." +:+ "</Say></Response>"),
       upd_timeline
         (fun t => t ++ [mkEvent incident_id (Incident.camera_id inc)
                           "ESCALATION"
                           (PStage (Incident.escalation_stage inc') "3")])
         (upd_incidents (insert incident_id inc') w))
    /\ inc' = Incident.set_escalation_stage
               (Z.min (Incident.escalation_stage inc + 1) 2) inc
    /\ Incident.escalation_stage inc' <= 2
    /\ (Incident.escalation_stage inc < 2 ->
        Incident.escalation_stage inc'
        = Incident.escalation_stage inc + 1)
    /\ Incident.status inc' = Incident.status inc
    /\ Incident.acknowledged inc' = Incident.acknowledged inc.
Proof.
  intros Hrow Hdigit.
  exists (Incident.set_escalation_stage
            (Z.min (Incident.escalation_stage inc + 1) 2) inc).
  split.
  - unfold TwilioApi.dtmf_webhook, bind at 1 2, get.
    rewrite (incidents_by_id_Some _ _ _ Hrow), Hdigit. reflexivity.
  - cbn. repeat split; lia.
Qed.

Lemma dtmf_escalation_only_records_witness :
  exists inc',
    TwilioApi.dtmf_webhook "inc2" " 3 " Examples.active_world
    = (Ok ("<Response><Say voice='Polly.Joanna'>"
           +:+ "Escalating to backup contact now." +:+ "</Say></Response>"),
       upd_timeline
         (fun t => t ++ [mkEvent "inc2" "cam1" "ESCALATION"
                           (PStage (Incident.escalation_stage inc') "3")])
         (upd_incidents (insert "inc2" inc') Examples.active_world))
    /\ Incident.escalation_stage inc' = 2.
Proof.
  destruct (dtmf_escalation_only_records Examples.active_world "inc2" " 3 "
              Examples.active_incident eq_refl eq_refl)
    as (inc' & Hrun & -> & _).
  eexists. split; [exact Hrun | reflexivity].
Defined.

(** X18.  The telephone and the API agree: digit 1 leaves the incident
    table, the guard and the replan registry exactly as
    [acknowledge_incident] with [ack_by = "voice_dtmf"] does, and digit 4
    exactly as [false_alarm] does; only the logged payload differs (it
    names the digit). *)
Theorem dtmf_matches_api (w : World) (incident_id D1 D4 : string) :
  TwilioApi.strip D1 = "1" ->
  TwilioApi.strip D4 = "4" ->
  (let w1 := (TwilioApi.dtmf_webhook incident_id D1 w).2 in
   let w2 :=
     (IncidentsApi.acknowledge_incident incident_id "voice_dtmf" w).2 in
   incidents w1 = incidents w2 /\ guard w1 = guard w2
   /\ _active_replan_tasks w1 = _active_replan_tasks w2
   /\ map ev_kind (timeline w1) = map ev_kind (timeline w2))
  /\ (let w1 := (TwilioApi.dtmf_webhook incident_id D4 w).2 in
      let w2 := (IncidentsApi.false_alarm incident_id w).2 in
      incidents w1 = incidents w2 /\ guard w1 = guard w2
      /\ _active_replan_tasks w1 = _active_replan_tasks w2
      /\ map ev_kind (timeline w1) = map ev_kind (timeline w2)).
Proof.
  intros H1 H4. destruct (incidents w !! incident_id) as [inc |] eqn:Hrow.
  - destruct (dtmf_webhook_run w incident_id D1 inc Hrow) as (? & -> & _).
    destruct (dtmf_webhook_run w incident_id D4 inc Hrow) as (? & -> & _).
    rewrite (acknowledge_incident_run _ _ _ _ Hrow),
      (false_alarm_run _ _ _ Hrow), H1, H4.
    unfold Digits.after_digit.
    repeat match goal with
           | |- context [decide (?a = ?b)] =>
               destruct (decide (a = b)); try congruence
           end.
    cbn. rewrite !map_app. repeat split.
  - unfold TwilioApi.dtmf_webhook, IncidentsApi.acknowledge_incident,
      IncidentsApi.false_alarm, bind, get.
    rewrite (incidents_by_id_None _ _ Hrow). cbn. repeat split.
Qed.

Lemma dtmf_matches_api_witness :
  incidents (TwilioApi.dtmf_webhook "inc2" "1 " Examples.active_world).2
  = incidents (IncidentsApi.acknowledge_incident "inc2" "voice_dtmf"
                 Examples.active_world).2
  /\ incidents (TwilioApi.dtmf_webhook "inc2" "4" Examples.active_world).2
     = incidents (IncidentsApi.false_alarm "inc2" Examples.active_world).2.
Proof.
  destruct (dtmf_matches_api Examples.active_world "inc2" "1 " "4"
              eq_refl eq_refl) as [(H1 & _) (H4 & _)].
  split; [exact H1 | exact H4].
Defined.

(** ** core/planner.py: the edges of the incident path *)

Section IncidentPath.
Variable env : Env.

Lemma select_camera_run camera_id w :
  select_camera camera_id w
  = (Ok (cameras w !! camera_id), w).
Proof.
  unfold select_camera, bind, get.
  destruct (cameras w !! camera_id); reflexivity.
Qed.

Lemma kept_at_insert key inc inc' i w :
  incidents w !! key = Some inc ->
  kept_columns inc' = kept_columns inc ->
  kept_at i (upd_incidents (insert key inc') w) = kept_at i w.
Proof.
  intros Hrow Hkept. unfold kept_at. cbn.
  destruct (decide (i = key)) as [-> | Hne].
  - rewrite lookup_insert_eq, Hrow. cbn. rewrite Hkept. reflexivity.
  - rewrite lookup_insert_ne by congruence. reflexivity.
Qed.

Lemma preserves_execute_actions_kept i actions incident_id camera_id
    primary_contact backup_contact summary_text :
  preserves (kept_at i)
    (Executor.execute_actions env actions incident_id camera_id
       primary_contact backup_contact summary_text).
Proof.
  intros w.
  destruct (execute_actions_trail env incident_id camera_id primary_contact
              backup_contact summary_text actions w)
    as (logs & outs & Hrun & _ & _).
  rewrite Hrun. unfold kept_at, Trail.extend, Trail.closed_rows. cbn.
  destruct (Trail.closes actions); [| reflexivity].
  destruct (incidents w !! incident_id) as [inc |] eqn:Hrow; [| reflexivity].
  destruct (decide (i = incident_id)) as [-> | Hne].
  - rewrite lookup_insert_eq, Hrow. reflexivity.
  - rewrite lookup_insert_ne by congruence. reflexivity.
Qed.

Lemma preserves_load_by_id {A X} (f : World -> X) (key : string)
    (k : Incident.t -> M A) :
  (forall w inc, incidents w !! key = Some inc -> f (k inc w).2 = f w) ->
  preserves f (let! w := get in
               let! inc := scalar_one (incidents_by_id key w) in
               k inc).
Proof.
  intros Hk w. unfold bind, get, incidents_by_id.
  destruct (incidents w !! key) as [inc |] eqn:Hrow; cbn.
  - apply Hk, Hrow.
  - reflexivity.
Qed.

Lemma preserves_plan_with_retry {X} (f : World -> X) packet camera
    policy_text incident_state agent_notes :
  (forall g w, f (upd_gemini_calls g w) = f w) ->
  preserves f
    (Planner.plan_with_retry env packet camera policy_text incident_state
       agent_notes).
Proof.
  intros Hf.
  assert (Hcall : forall req, preserves f (Planner.call_incident_plan env req)).
  { intros req. unfold Planner.call_incident_plan.
    apply preserves_bind; [apply preserves_get | intros w0].
    apply preserves_bind; [apply preserves_modify; intros; apply Hf |].
    intros _. destruct (incident_plan env _ req);
      [apply preserves_ret | apply preserves_raise]. }
  unfold Planner.plan_with_retry. cbv zeta.
  apply preserves_bind; [apply Hcall | intros raw].
  apply preserves_bind; [| intros plan; apply preserves_ret].
  destruct (negb _ && _); [| apply preserves_ret].
  apply preserves_try_except.
  - apply preserves_bind; [apply Hcall | intros; apply preserves_ret].
  - intros _. apply preserves_ret.
Qed.

Lemma preserves_persist_and_execute_kept i now packet camera incident plan :
  preserves (kept_at i)
    (Planner.persist_and_execute env now packet camera incident plan).
Proof.
  unfold Planner.persist_and_execute. cbv zeta.
  apply preserves_load_by_id. intros w inc Hrow.
  unfold bind at 1, update_incident, modify. cbn [fst snd].
  match goal with
  | |- kept_at i (?rest ?w1).2 = _ =>
      transitivity (kept_at i w1);
        [| eapply kept_at_insert; [exact Hrow | reflexivity]];
        generalize w1; change (preserves (kept_at i) rest)
  end.
  apply preserves_bind; [apply preserves_modify; reflexivity | intros _].
  apply preserves_bind; [apply preserves_log_event; reflexivity | intros _].
  apply preserves_bind;
    [apply preserves_guard_plan; reflexivity | intros guarded].
  apply preserves_bind; [apply preserves_log_event; reflexivity | intros _].
  apply preserves_bind; [apply preserves_execute_actions_kept | intros _].
  apply preserves_bind;
    [destruct (Planner.needs_strong_verify plan);
       [apply preserves_modify; reflexivity | apply preserves_ret]
    | intros _].
  apply preserves_bind;
    [apply preserves_bind;
       [apply preserves_modify; reflexivity
       | intros _; apply preserves_modify; reflexivity]
    | intros _].
  apply preserves_bind;
    [apply preserves_modify; reflexivity | intros _; apply preserves_ret].
Qed.

Lemma preserves_plan_incident_kept i now packet camera incident :
  preserves (kept_at i)
    (Planner.plan_incident env now packet camera incident).
Proof.
  unfold Planner.plan_incident. cbv zeta.
  apply preserves_bind; [apply preserves_get | intros w0].
  apply preserves_bind; [apply preserves_scalar_one_or_none | intros policy].
  apply preserves_bind; [apply preserves_log_event; reflexivity | intros _].
  apply preserves_bind;
    [apply preserves_plan_with_retry; reflexivity | intros plan].
  apply preserves_persist_and_execute_kept.
Qed.

Lemma handle_incident_fresh now new_id packet w camera :
  cameras w !! TelemetryPacket.camera_id packet = Some camera ->
  active_incidents (TelemetryPacket.camera_id packet) w = [] ->
  Planner.handle_incident env now new_id packet w
  = Planner.plan_incident env now packet camera
      (Planner.new_incident env new_id packet camera)
      (upd_incidents
         (insert new_id (Planner.new_incident env new_id packet camera)) w).
Proof.
  intros Hcam Hnone. unfold Planner.handle_incident, bind at 1.
  rewrite select_camera_run, Hcam. unfold bind at 1 2, get.
  rewrite Hnone. reflexivity.
Qed.

End IncidentPath.

(** X19.  A trigger that cannot be attributed changes nothing.  For a
    camera that is not in the camera table [handle_incident] returns the
    error "Camera not found"; for a camera that has two or more ACTIVE
    incidents it raises [MultipleResultsFound].  In both cases no incident
    is created, no event is logged, the planner is not called and nothing
    is sent. *)
Theorem unattributable_trigger_changes_nothing
    (env : Env) (now : Q) (new_id : string) (packet : TelemetryPacket.t)
    (w : World) :
  (cameras w !! TelemetryPacket.camera_id packet = None ->
   Planner.handle_incident env now new_id packet w
   = (Ok Planner.CameraNotFound, w))
  /\ (is_Some (cameras w !! TelemetryPacket.camera_id packet) ->
      (2 <= length (active_incidents (TelemetryPacket.camera_id packet) w))%nat
      -> Planner.handle_incident env now new_id packet w
         = (Raise MultipleResultsFound, w)).
Proof.
  split.
  - intros Hcam. unfold Planner.handle_incident, bind at 1.
    rewrite select_camera_run, Hcam. reflexivity.
  - intros [camera Hcam] Hmany. unfold Planner.handle_incident, bind at 1.
    rewrite select_camera_run, Hcam. unfold bind at 1 2, get.
    destruct (active_incidents _ w) as [| a [| b rest]];
      [cbn in Hmany; lia | cbn in Hmany; lia | reflexivity].
Qed.

Lemma unattributable_trigger_changes_nothing_witness :
  Planner.handle_incident Examples.planner_mild 1000 "new"
    (TelemetryPacket.mk "cam7" "bedroom" 0.9 0.1 [] None)
    Cases.two_active_world
  = (Ok Planner.CameraNotFound, Cases.two_active_world)
  /\ Planner.handle_incident Examples.planner_mild 1000 "new"
       Examples.trigger1 Cases.two_active_world
     = (Raise MultipleResultsFound, Cases.two_active_world).
Proof.
  split.
  - apply (unattributable_trigger_changes_nothing Examples.planner_mild 1000
             "new" (TelemetryPacket.mk "cam7" "bedroom" 0.9 0.1 [] None)
             Cases.two_active_world).
    reflexivity.
  - apply (unattributable_trigger_changes_nothing Examples.planner_mild 1000
             "new" Examples.trigger1 Cases.two_active_world).
    + eexists. reflexivity.
    + vm_compute. lia.
Defined.

(** X20.  [handle_incident] never acknowledges and never escalates: on
    every incident row that it does not create, the identifier, the
    camera, the risk score, the time down, the acknowledgement and who
    gave it, the escalation stage, the language and the frames are after
    the call what they were before it, whether the call returns or
    raises and whatever the planner answered.  The row stored under the
    new identifier is the only exception, and only when the camera has no
    ACTIVE incident. *)
Theorem handle_incident_keeps_columns
    (env : Env) (now : Q) (new_id : string) (packet : TelemetryPacket.t)
    (w : World) (i : string) :
  i ≠ new_id
  \/ active_incidents (TelemetryPacket.camera_id packet) w ≠ [] ->
  kept_at i (Planner.handle_incident env now new_id packet w).2
  = kept_at i w.
Proof.
  intros Hi. unfold Planner.handle_incident, bind at 1.
  rewrite select_camera_run.
  destruct (cameras w !! TelemetryPacket.camera_id packet) as [camera |];
    [| reflexivity].
  unfold bind at 1 2, get.
  destruct (active_incidents _ w) as [| a [| b rest]].
  - destruct Hi as [Hi | Hi]; [| congruence].
    cbn [scalar_one_or_none ret]. unfold bind at 1 2, add_incident, modify.
    cbn [ret]. rewrite preserves_plan_incident_kept.
    unfold kept_at. cbn. rewrite lookup_insert_ne by congruence.
    reflexivity.
  - cbn [scalar_one_or_none ret]. unfold bind at 1. cbn [ret].
    apply preserves_plan_incident_kept.
  - reflexivity.
Qed.

Lemma handle_incident_keeps_columns_witness :
  kept_at "inc2"
    (Planner.handle_incident Examples.planner_mild 1000 "new"
       Examples.trigger1 Examples.active_world).2
  = kept_at "inc2" Examples.active_world.
Proof.
  apply (handle_incident_keeps_columns Examples.planner_mild 1000 "new"
           Examples.trigger1 Examples.active_world "inc2").
  left. discriminate.
Defined.

(** X21.  The first trigger of a camera that has no ACTIVE incident opens
    exactly one: the row stored under the new identifier names the
    camera of the packet, holds the first four frames of the packet, is
    not acknowledged, at escalation stage 0 and at time down 0; every
    other incident row keeps those columns; and when the call returns, it
    returns the plan of the new incident.  This holds whatever the
    planner answers, also when the call raises because the planner
    client did. *)
Theorem first_trigger_opens_incident
    (env : Env) (now : Q) (new_id : string) (packet : TelemetryPacket.t)
    (w : World) (camera : Camera.t) :
  cameras w !! TelemetryPacket.camera_id packet = Some camera ->
  active_incidents (TelemetryPacket.camera_id packet) w = [] ->
  kept_at new_id (Planner.handle_incident env now new_id packet w).2
  = Some (mkKept new_id (TelemetryPacket.camera_id packet) 0.8 0.0 false
            None 0 (Planner.incident_language env packet camera)
            (Some (take 4 (TelemetryPacket.frames_jpeg_base64 packet))))
  /\ dom (incidents (Planner.handle_incident env now new_id packet w).2)
     = {[new_id]} ∪ dom (incidents w)
  /\ forall r,
       (Planner.handle_incident env now new_id packet w).1 = Ok r ->
       planned_for new_id r.
Proof.
  intros Hcam Hnone.
  rewrite (handle_incident_fresh env now new_id packet w camera Hcam Hnone).
  destruct (ensures_plan_incident env now packet camera
              (Planner.new_incident env new_id packet camera)
              (upd_incidents
                 (insert new_id
                    (Planner.new_incident env new_id packet camera)) w))
    as [[Hdom _] Hres].
  split; [| split].
  - rewrite preserves_plan_incident_kept. unfold kept_at. cbn.
    rewrite lookup_insert_eq. reflexivity.
  - rewrite Hdom. cbn. apply dom_insert_L.
  - exact Hres.
Qed.

Lemma first_trigger_opens_incident_witness :
  kept_at "new"
    (Planner.handle_incident Examples.planner_mild 1000 "new"
       Examples.trigger3 Cases.quiet_world).2
  = Some (mkKept "new" "cam1" 0.8 0.0 false None 0
            (Planner.incident_language Examples.planner_mild
               Examples.trigger3 Examples.cam1)
            (Some ["frame1"; "frame2"; "frame3"]))
  /\ dom (incidents
            (Planner.handle_incident Examples.planner_mild 1000 "new"
               Examples.trigger3 Cases.quiet_world).2)
     = {[ "new" ]} ∪ dom (incidents Cases.quiet_world).
Proof.
  destruct (first_trigger_opens_incident Examples.planner_mild 1000 "new"
              Examples.trigger3 Cases.quiet_world Examples.cam1
              eq_refl eq_refl) as (Hrow & Hdom & _).
  split; [exact Hrow | exact Hdom].
Defined.

(** X22.  When the first call of the planner client raises, the error
    leaves [handle_incident]: there is no retry and no fallback plan.
    The new incident was already stored, ACTIVE at severity 3, and its
    [TRIGGER_RECEIVED] logged; but no plan is stored, nothing is sent,
    and neither the replan loop nor the severity ticker of the incident
    is started. *)
Theorem planner_error_leaves_incident_unplanned
    (env : Env) (now : Q) (new_id : string) (packet : TelemetryPacket.t)
    (w : World) (camera : Camera.t) (policy : option NotificationPolicy.t) :
  cameras w !! TelemetryPacket.camera_id packet = Some camera ->
  active_incidents (TelemetryPacket.camera_id packet) w = [] ->
  policies_of (TelemetryPacket.camera_id packet) w = option_list policy ->
  incident_plan env (length (gemini_calls w))
    (Planner.incident_request packet
       (_build_policy_text env policy camera)
       (Planner._build_incident_state
          (Planner.new_incident env new_id packet camera))
       (_get_active_notes env (TelemetryPacket.camera_id packet))
       (take 4 (TelemetryPacket.frames_jpeg_base64 packet)))
  = Failure ->
  exists w',
    Planner.handle_incident env now new_id packet w
    = (Raise PlannerError, w')
    /\ incidents w'
       = <[new_id := Planner.new_incident env new_id packet camera]>
           (incidents w)
    /\ Incident.status (Planner.new_incident env new_id packet camera)
       = "ACTIVE"
    /\ Incident.severity_current
         (Planner.new_incident env new_id packet camera) = 3
    /\ timeline w'
       = timeline w
         ++ [mkEvent new_id (TelemetryPacket.camera_id packet)
               "TRIGGER_RECEIVED"
               (PTrigger "FALL_TRIGGER"
                  (TelemetryPacket.motion_energy packet)
                  (TelemetryPacket.stillness_score packet))]
    /\ length (gemini_calls w') = S (length (gemini_calls w))
    /\ incident_plans w' = incident_plans w
    /\ gateway w' = gateway w
    /\ spawned w' = spawned w
    /\ _active_replan_tasks w' = _active_replan_tasks w
    /\ guard w' = guard w.
Proof.
  intros Hcam Hnone Hpol Hfail.
  unfold Planner.handle_incident, bind at 1.
  rewrite select_camera_run, Hcam. unfold bind at 1 2, get.
  rewrite Hnone. cbn [scalar_one_or_none ret].
  unfold bind at 1 2, add_incident, modify. cbn [ret].
  unfold Planner.plan_incident, bind at 1 2, get.
  assert (Hpol' : forall w1, policies_of (TelemetryPacket.camera_id packet)
                               (upd_incidents w1 w) = option_list policy).
  { intros w1. exact Hpol. }
  rewrite Hpol'.
  assert (scalar_one_or_none (option_list policy)
          = (ret policy : M (option NotificationPolicy.t))) as ->.
  { destruct policy; reflexivity. }
  cbn [ret]. unfold bind at 1, log_event, modify.
  unfold Planner.plan_with_retry, bind at 1 2.
  unfold Planner.call_incident_plan, bind at 1 2, get, modify.
  cbn [gemini_calls upd_timeline upd_incidents]. rewrite Hfail.
  eexists. split; [reflexivity |].
  cbn. rewrite length_app. cbn. repeat split; lia.
Qed.

Lemma planner_error_leaves_incident_unplanned_witness :
  exists w',
    Planner.handle_incident Cases.planner_raises 1000 "new"
      Examples.trigger1 Cases.quiet_world
    = (Raise PlannerError, w')
    /\ dom (incidents w') = {[ "new" ]}
    /\ spawned w' = []
    /\ gateway w' = [].
Proof.
  destruct (planner_error_leaves_incident_unplanned Cases.planner_raises
              1000 "new" Examples.trigger1 Cases.quiet_world Examples.cam1
              None eq_refl eq_refl eq_refl eq_refl)
    as (w' & Hrun & Hinc & _ & _ & _ & _ & _ & Hgw & Hsp & _).
  exists w'. split; [exact Hrun |].
  split; [rewrite Hinc; reflexivity |].
  split; [exact Hsp | exact Hgw].
Defined.

(** ** core/idle.py: what a run of the optimiser writes *)

Section IdleRun.
Import Idle.

(** A suggestion either leaves the state as it is, or rewrites the
    configuration of its camera and records it twice. *)
Lemma apply_suggestion_run (s : Suggestion) (w : World) :
  (apply_suggestion s w).2 = w
  \/ exists cam,
       cameras w !! target s = Some cam
       /\ filter (fun kv => kv.1 ∈ allowed_keys) (patch s) ≠ ∅
       /\ apply_suggestion s w
          = (Ok tt,
             upd_timeline
               (fun t => t ++ [mkEvent "system" (target s)
                                 "CONFIG_SUGGESTION_APPLIED"
                                 (PConfig
                                    (filter (fun kv => kv.1 ∈ allowed_keys)
                                            (patch s))
                                    (sg_reason s))])
               (upd_config_updates
                  (fun rows =>
                     rows ++ [ConfigUpdate.mk (target s) (sg_reason s)
                                (sg_confidence s)
                                (filter (fun kv => kv.1 ∈ allowed_keys)
                                        (patch s))
                                true])
                  (upd_cameras
                     (insert (target s)
                        (Camera.set_config
                           (Some (filter (fun kv => kv.1 ∈ allowed_keys)
                                         (patch s)
                                  ∪ default ∅ (Camera.config cam)))
                           cam))
                     w))).
Proof.
  remember (apply_suggestion s w) as res eqn:Hres.
  unfold apply_suggestion in Hres. fold (target s) in Hres.
  fold (patch s) in Hres.
  destruct (decide (target s = "")); [left; subst res; reflexivity |].
  unfold bind at 1 in Hres.
  destruct (is_camera_idle_spec (target s) w) as (r & Hidle & _).
  rewrite Hidle in Hres. destruct r as [[|] | e]; cbn [negb] in Hres;
    [| left; subst res; reflexivity | left; subst res; reflexivity].
  destruct (decide (patch s = ∅)); [left; subst res; reflexivity |].
  destruct (decide (filter _ (patch s) = ∅));
    [left; subst res; reflexivity |].
  unfold try_except, bind at 1 in Hres. rewrite select_camera_run in Hres.
  destruct (cameras w !! target s) as [cam |] eqn:Hcam;
    [| left; subst res; reflexivity].
  right. exists cam. subst res. split; [reflexivity |].
  split; [assumption | reflexivity].
Qed.

Lemma apply_suggestion_frame {X} (f : World -> X) (s : Suggestion) :
  (forall g w, f (upd_timeline g w) = f w) ->
  (forall g w, f (upd_config_updates g w) = f w) ->
  (forall key cam new w,
     cameras w !! key = Some cam ->
     f (upd_cameras (insert key (Camera.set_config new cam)) w) = f w) ->
  preserves f (apply_suggestion s).
Proof.
  intros Htl Hcu Hcam w.
  destruct (apply_suggestion_run s w) as [-> | (cam & Hrow & _ & ->)];
    [reflexivity |].
  cbn [snd]. rewrite Htl, Hcu. apply Hcam, Hrow.
Qed.

Lemma apply_config_suggestions_preserves {X} (f : World -> X) suggestions :
  (forall g w, f (upd_timeline g w) = f w) ->
  (forall g w, f (upd_config_updates g w) = f w) ->
  (forall key cam new w,
     cameras w !! key = Some cam ->
     f (upd_cameras (insert key (Camera.set_config new cam)) w) = f w) ->
  preserves f (apply_config_suggestions suggestions).
Proof.
  intros Htl Hcu Hcam. apply preserves_for_each.
  intros s. apply apply_suggestion_frame; assumption.
Qed.

(** The value of a key outside the allowed ones survives a suggestion. *)
Lemma apply_suggestion_other_keys (s : Suggestion) (w : World) c k :
  k ∉ allowed_keys ->
  config_value (apply_suggestion s w).2 c k = config_value w c k.
Proof.
  intros Hk.
  destruct (apply_suggestion_run s w) as [-> | (cam & Hrow & _ & ->)];
    [reflexivity |].
  unfold config_value. cbn.
  destruct (decide (c = target s)) as [-> | Hne].
  - rewrite lookup_insert_eq, Hrow. cbn.
    rewrite lookup_union_r; [reflexivity |].
    apply map_lookup_filter_None. right. intros v _. exact Hk.
  - rewrite lookup_insert_ne by congruence. reflexivity.
Qed.

Lemma apply_suggestion_rows (s : Suggestion) (w : World) :
  exists ups evs,
    config_updates (apply_suggestion s w).2 = config_updates w ++ ups
    /\ timeline (apply_suggestion s w).2 = timeline w ++ evs
    /\ length ups = length evs
    /\ (length evs <= 1)%nat
    /\ Forall (fun u => ConfigUpdate.applied u = true
                        /\ dom (ConfigUpdate.config_json u) ⊆ allowed_keys
                        /\ ConfigUpdate.config_json u ≠ ∅) ups
    /\ Forall (fun e => ev_kind e = "CONFIG_SUGGESTION_APPLIED"
                        /\ ev_incident_id e = "system") evs.
Proof.
  destruct (apply_suggestion_run s w) as [-> | (cam & Hrow & Hne & ->)].
  - exists [], []. rewrite !app_nil_r.
    repeat split; try constructor. cbn. lia.
  - eexists [_], [_]. cbn.
    split; [reflexivity |]. split; [reflexivity |].
    split; [reflexivity |]. split; [lia |].
    split; repeat constructor; cbn; [| exact Hne].
    intros k Hk. apply elem_of_dom in Hk as [v Hv].
    apply map_lookup_filter_Some in Hv as [_ Hv]. exact Hv.
Qed.

End IdleRun.

Section IdleAbort.
Import Idle.

Lemma for_each_app {A} (xs ys : list A) (body : A -> M unit) (w : World) :
  for_each (xs ++ ys) body w
  = match for_each xs body w with
    | (Ok _, w1) => for_each ys body w1
    | (Raise e, w1) => (Raise e, w1)
    end.
Proof.
  revert w. induction xs as [| x xs IH]; intros w; [reflexivity |].
  cbn [app for_each]. unfold bind.
  destruct (body x w) as [[[] | e] w1]; [apply IH | reflexivity].
Qed.

Lemma apply_suggestion_outcome (s : Suggestion) (w : World) :
  (apply_suggestion s w).1 = Ok tt
  \/ (apply_suggestion s w).1 = Raise MultipleResultsFound.
Proof.
  remember (apply_suggestion s w) as res eqn:Hres.
  unfold apply_suggestion in Hres.
  destruct (decide _); [left; subst res; reflexivity |].
  unfold bind at 1 in Hres. unfold is_camera_idle, bind at 1 in Hres.
  rewrite select_camera_run in Hres.
  destruct (cameras w !! _) as [cam |]; [| left; subst res; reflexivity].
  destruct (Qgtb _ _); [left; subst res; reflexivity |].
  unfold bind at 1 2, get in Hres.
  destruct (active_incidents _ w) as [| a [| b rest]];
    [| left; subst res; reflexivity | right; subst res; reflexivity].
  cbn [scalar_one_or_none ret negb] in Hres.
  destruct (decide _); [left; subst res; reflexivity |].
  destruct (decide _); [left; subst res; reflexivity |].
  unfold try_except, bind at 1 in Hres. rewrite select_camera_run in Hres.
  destruct (cameras w !! _); left; subst res; reflexivity.
Qed.

Lemma apply_config_suggestions_outcome suggestions :
  forall w,
    (apply_config_suggestions suggestions w).1 = Ok tt
    \/ (apply_config_suggestions suggestions w).1
       = Raise MultipleResultsFound.
Proof.
  unfold apply_config_suggestions.
  induction suggestions as [| s rest IH]; intros w; [left; reflexivity |].
  cbn [for_each]. unfold bind.
  destruct (apply_suggestion_outcome s w) as [H | H];
    destruct (apply_suggestion s w) as [[[] | e] w1]; cbn in H;
    try discriminate.
  - apply IH.
  - right. cbn. congruence.
Qed.

Lemma is_camera_idle_ambiguous c w cam :
  cameras w !! c = Some cam ->
  (Camera.risk_score cam <= 0.3)%Q ->
  (2 <= length (active_incidents c w))%nat ->
  is_camera_idle c w = (Raise MultipleResultsFound, w).
Proof.
  intros Hcam Hrisk Hmany. unfold is_camera_idle, bind at 1.
  rewrite select_camera_run, Hcam.
  apply Qgtb_false in Hrisk. rewrite Hrisk.
  unfold bind at 1 2, get.
  destruct (active_incidents c w) as [| a [| b rest]];
    [cbn in Hmany; lia | cbn in Hmany; lia | reflexivity].
Qed.

Lemma optimiser_frame_risk suggestions w c :
  incidents (apply_config_suggestions suggestions w).2 = incidents w
  /\ Camera.risk_score <$> cameras (apply_config_suggestions suggestions w).2
                            !! c
     = Camera.risk_score <$> cameras w !! c.
Proof.
  split.
  - apply apply_config_suggestions_preserves; reflexivity.
  - apply (apply_config_suggestions_preserves
             (fun w => Camera.risk_score <$> cameras w !! c));
      try reflexivity.
    intros key cam new w0 Hrow. cbn.
    destruct (decide (c = key)) as [-> | Hne].
    + rewrite lookup_insert_eq, Hrow. reflexivity.
    + rewrite lookup_insert_ne by congruence. reflexivity.
Qed.

End IdleAbort.

(** X23.  A run of [apply_config_suggestions] writes nothing but the
    [config] column of cameras, the table of configuration updates and
    the timeline: the incidents, the guard, the notification policies,
    the plans, the action log, the replan registry and the started tasks
    are as before and nothing is sent; no camera appears or disappears
    and every camera keeps its contacts, its switches and its risk
    score. *)
Theorem optimiser_only_writes_config
    (suggestions : list Idle.Suggestion) (w : World) (c : string) :
  let w' := (Idle.apply_config_suggestions suggestions w).2 in
  incidents w' = incidents w
  /\ guard w' = guard w
  /\ gateway w' = gateway w
  /\ notification_policies w' = notification_policies w
  /\ incident_plans w' = incident_plans w
  /\ action_logs w' = action_logs w
  /\ _active_replan_tasks w' = _active_replan_tasks w
  /\ spawned w' = spawned w
  /\ dom (cameras w') = dom (cameras w)
  /\ Camera.set_config None <$> cameras w' !! c
     = Camera.set_config None <$> cameras w !! c.
Proof.
  cbv zeta.
  repeat (split;
          [apply apply_config_suggestions_preserves; reflexivity |]).
  split.
  - apply (apply_config_suggestions_preserves
             (fun w => dom (cameras w))); try reflexivity.
    intros key cam new w0 Hrow. cbn. rewrite dom_insert_L.
    apply elem_of_dom_2 in Hrow.
    apply (anti_symm (⊆)); intros i;
      rewrite ?elem_of_union, ?elem_of_singleton; [| tauto].
    intros [-> | Hi]; assumption.
  - apply (apply_config_suggestions_preserves
             (fun w => Camera.set_config None <$> cameras w !! c));
      try reflexivity.
    intros key cam new w0 Hrow. cbn.
    destruct (decide (c = key)) as [-> | Hne].
    + rewrite lookup_insert_eq, Hrow. reflexivity.
    + rewrite lookup_insert_ne by congruence. reflexivity.
Qed.

(** X24.  Only the five allowed keys ever change in a camera's
    configuration: for every camera and every key outside them (among
    them [check_interval_s] and [language]) the configured value after a
    run of the optimiser is the value before it.  The run appends as many
    configuration updates as [CONFIG_SUGGESTION_APPLIED] events, at most
    one of each per suggestion; every update is marked applied and
    records a non-empty patch of allowed keys only. *)
Theorem optimiser_changes_allowed_keys_only
    (suggestions : list Idle.Suggestion) (w : World) :
  (forall c k,
     k ∉ Idle.allowed_keys ->
     Idle.config_value (Idle.apply_config_suggestions suggestions w).2 c k
     = Idle.config_value w c k)
  /\ exists ups evs,
       config_updates (Idle.apply_config_suggestions suggestions w).2
       = config_updates w ++ ups
       /\ timeline (Idle.apply_config_suggestions suggestions w).2
          = timeline w ++ evs
       /\ length ups = length evs
       /\ (length evs <= length suggestions)%nat
       /\ Forall (fun u => ConfigUpdate.applied u = true
                           /\ dom (ConfigUpdate.config_json u)
                              ⊆ Idle.allowed_keys
                           /\ ConfigUpdate.config_json u ≠ ∅) ups
       /\ Forall (fun e => ev_kind e = "CONFIG_SUGGESTION_APPLIED"
                           /\ ev_incident_id e = "system") evs.
Proof.
  split.
  - intros c k Hk. revert w. unfold Idle.apply_config_suggestions.
    induction suggestions as [| s rest IH]; intros w; [reflexivity |].
    cbn [for_each]. unfold bind.
    pose proof (apply_suggestion_other_keys s w c k Hk) as Hone.
    destruct (Idle.apply_suggestion s w) as [[[] | e] w1]; cbn in Hone.
    + rewrite IH. exact Hone.
    + exact Hone.
  - revert w. unfold Idle.apply_config_suggestions.
    induction suggestions as [| s rest IH]; intros w.
    + exists [], []. cbn. rewrite !app_nil_r.
      repeat split; try constructor.
    + cbn [for_each]. unfold bind.
      destruct (apply_suggestion_rows s w)
        as (ups1 & evs1 & Hu1 & He1 & Hl1 & Hn1 & Hf1 & Hg1).
      destruct (Idle.apply_suggestion s w) as [[[] | e] w1]; cbn in Hu1, He1.
      * destruct (IH w1) as (ups2 & evs2 & Hu2 & He2 & Hl2 & Hn2 & Hf2 & Hg2).
        exists (ups1 ++ ups2), (evs1 ++ evs2).
        rewrite Hu2, He2, Hu1, He1, !app_assoc, !length_app.
        repeat split; try lia; try (apply Forall_app; split; assumption).
        cbn. lia.
      * exists ups1, evs1. cbn.
        repeat split; try assumption. lia.
Qed.

Lemma optimiser_changes_allowed_keys_only_witness :
  Idle.config_value
    (Idle.apply_config_suggestions
       [Examples.suggest_mixed; Examples.suggest_interval]
       Examples.closed_world).2 "cam1" "check_interval_s"
  = Idle.config_value Examples.closed_world "cam1" "check_interval_s".
Proof.
  destruct (optimiser_changes_allowed_keys_only
              [Examples.suggest_mixed; Examples.suggest_interval]
              Examples.closed_world) as [Hkeys _].
  apply Hkeys. vm_compute. intros H. discriminate H.
Defined.

(** X25.  One ambiguous camera stops the whole run.  When a suggestion
    names a camera whose risk score is at most 0.3 and that has two or
    more ACTIVE incidents, the idleness test raises
    [MultipleResultsFound] outside the [try] of the loop body: the run
    ends there with that error.  The suggestions listed before it have
    been handled, the suggestion itself and all the suggestions listed
    after it, for whatever camera, are not. *)
Theorem ambiguous_camera_aborts_run
    (before after : list Idle.Suggestion) (s : Idle.Suggestion)
    (w : World) (cam : Camera.t) :
  Idle.target s ≠ "" ->
  cameras w !! Idle.target s = Some cam ->
  (Camera.risk_score cam <= 0.3)%Q ->
  (2 <= length (active_incidents (Idle.target s) w))%nat ->
  Idle.apply_config_suggestions (before ++ s :: after) w
  = (Raise MultipleResultsFound,
     (Idle.apply_config_suggestions before w).2).
Proof.
  intros Hname Hcam Hrisk Hmany.
  unfold Idle.apply_config_suggestions. rewrite for_each_app.
  pose proof (apply_config_suggestions_outcome before w) as Hout.
  pose proof (optimiser_frame_risk before w (Idle.target s)) as Hframe.
  unfold Idle.apply_config_suggestions in Hout, Hframe.
  destruct (for_each before Idle.apply_suggestion w) as [[[] | e] w1];
    cbn in Hout, Hframe.
  - destruct Hframe as (Hinc & Hrow).
    rewrite Hcam in Hrow. cbn in Hrow.
    destruct (cameras w1 !! Idle.target s) as [cam1 |] eqn:Hcam1;
      [| discriminate].
    cbn in Hrow. injection Hrow as Hrow.
    cbn [for_each]. unfold bind at 1, Idle.apply_suggestion.
    fold (Idle.target s).
    destruct (decide (Idle.target s = "")); [contradiction |].
    unfold bind at 1.
    rewrite (is_camera_idle_ambiguous (Idle.target s) w1 cam1 Hcam1).
    + reflexivity.
    + rewrite Hrow. exact Hrisk.
    + unfold active_incidents in *. rewrite Hinc. exact Hmany.
  - destruct Hout as [Hout | Hout]; [discriminate |].
    injection Hout as ->. reflexivity.
Qed.

Lemma ambiguous_camera_aborts_run_witness :
  Idle.apply_config_suggestions
    ([] ++ Examples.suggest_mixed :: [Examples.suggest_interval])
    Cases.two_active_world
  = (Raise MultipleResultsFound, Cases.two_active_world).
Proof.
  apply (ambiguous_camera_aborts_run [] [Examples.suggest_interval]
           Examples.suggest_mixed Cases.two_active_world Examples.cam1).
  - discriminate.
  - reflexivity.
  - unfold Qle. simpl. lia.
  - vm_compute. lia.
Defined.

(** ** core/planner.py: the fallback plan, and what the guard makes of it *)

Section Fallback.
Import Guard GuardTable.

Lemma fallback_actions motion voice :
  actions (Planner._fallback_plan motion voice)
  = mkPlanAction SEND_SMS_PRIMARY 0 ∅
    :: (if voice && Qgtb motion 0.8
        then [mkPlanAction START_VOICE_CALL_PRIMARY 1.0 ∅] else []).
Proof.
  unfold Planner._fallback_plan.
  destruct voice, (Qgtb motion 0.8); reflexivity.
Qed.

Lemma sms_then_call p now g :
  0 < cooldown_contact_s p ->
  let sms := mkPlanAction SEND_SMS_PRIMARY 0 ∅ in
  let call := mkPlanAction START_VOICE_CALL_PRIMARY 1.0 ∅ in
  kept [sms; call] (table_run p now g [sms; call]).1 = [sms]
  \/ kept [sms; call] (table_run p now g [sms; call]).1 = []
  \/ (kept [sms; call] (table_run p now g [sms; call]).1 = [call]
      /\ sms_enabled p = false).
Proof.
  intros Hpos sms call. rewrite table_run_cons. cbn [fst]. rewrite kept_cons.
  destruct (Guard.approved (decision_for p now g sms)) eqn:Hsms.
  - left. f_equal. rewrite table_run_cons. cbn [fst]. rewrite kept_cons.
    rewrite cooling_rejects; [reflexivity | exact Hpos | | ].
    + apply on_approval_stamps. unfold contact_class, sms. cbn.
      rewrite !elem_of_cons. tauto.
    + unfold contact_class, call. cbn. rewrite !elem_of_cons. tauto.
  - right. rewrite table_run_cons. cbn [fst]. rewrite kept_cons.
    destruct (Guard.approved (decision_for p now g call)) eqn:Hcall;
      [right | left; reflexivity].
    split; [reflexivity |].
    revert Hsms Hcall. unfold decision_for, rejection, sms, call. cbn [type].
    destruct (cooldown_elapsed p now g); cbn [negb]; [| discriminate].
    destruct (sms_enabled p); cbn [negb]; [discriminate | reflexivity].
Qed.

End Fallback.

(** X26.  The fallback plan is a possible fall of severity 3, or 4 when
    the motion energy is above 0.8, and always asks for strong
    verification.  Through the guard of
    [handle_incident] at most one of its actions is approved, and the
    call is approved only when the SMS is disabled for the camera: when
    the SMS goes out, the call that follows it is rejected by the
    cooldown that the SMS just started. *)
Theorem fallback_plan_through_guard
    (motion : Q) (voice sms acked : bool) (camera_id : string) (stage : Z)
    (now : Q) (g : Guard.GuardState) :
  let plan := Planner._fallback_plan motion voice in
  let approved :=
    (Guard.approve_plan
       (Guard.default_args camera_id acked voice sms stage) now
       (actions plan) g).1.1 in
  Planner.needs_strong_verify plan = true
  /\ verdict plan = POSSIBLE_FALL
  /\ 3 <= severity_seed plan <= 4
  /\ (severity_seed plan = 4 <-> (0.8 < motion)%Q)
  /\ (length approved <= 1)%nat
  /\ (mkPlanAction START_VOICE_CALL_PRIMARY 1.0 ∅ ∈ approved ->
      sms = false /\ voice = true /\ (0.8 < motion)%Q).
Proof.
  cbv zeta. rewrite approve_plan_table, fallback_actions. cbn [fst].
  split; [| split; [reflexivity | split; [| split]]].
  - unfold Planner.needs_strong_verify, Planner._fallback_plan. cbn.
    destruct (Qgtb motion 0.8); reflexivity.
  - unfold Planner._fallback_plan. cbn. destruct (Qgtb motion 0.8); lia.
  - unfold Planner._fallback_plan. cbn.
    destruct (Qgtb motion 0.8) eqn:E; Qprop E;
      (split; [intros ? | intros ?]); try lia; try lra; try assumption.
  - destruct (voice && Qgtb motion 0.8) eqn:Hcall.
    + apply andb_true_iff in Hcall as [-> Hm]. apply Qgtb_true in Hm.
      destruct (sms_then_call
                  (Guard.default_args camera_id acked true sms stage) now g)
        as [-> | [-> | [-> Hsms]]]; cbn; try lia.
      * split; [lia |]. rewrite !elem_of_cons, elem_of_nil.
        intros [[=] | []].
      * split; [lia |]. rewrite elem_of_nil. intros [].
      * split; [lia |]. intros _. cbn in Hsms. tauto.
    + rewrite table_run_cons. cbn [fst]. rewrite kept_cons.
      destruct (Guard.approved _); cbn; (split; [lia |]);
        rewrite ?elem_of_cons, ?elem_of_nil; intros H;
        repeat destruct H as [H | H]; try discriminate H; try contradiction.
Qed.

(** ** core/planner.py: the strong verification task *)

Section StrongVerifyFacts.
Variable env : Env.
Variable strong_verify :
  list string -> Q -> Q -> PlannerPlan -> IncidentState -> Reply.

Lemma strong_verify_task_run incident_id packet current_plan w :
  StrongVerify._strong_verify_task env strong_verify incident_id packet
    current_plan w
  = (Ok tt,
     match incidents w !! incident_id with
     | None => w
     | Some inc =>
         match StrongVerify.strong_plan_for env strong_verify packet current_plan inc with
         | None => w
         | Some strong_plan =>
             let inc' :=
               Incident.set_reasons_current (Some (reasons strong_plan))
                 (Incident.set_confidence (confidence strong_plan)
                    (Incident.set_verdict
                       (Verdict_value (verdict strong_plan))
                       (Incident.set_plan_version
                          (Incident.plan_version inc + 1) inc))) in
             let inc' :=
               Incident.set_summary_text
                 (Some (_generate_summary env inc')) inc' in
             upd_timeline
               (fun t => t ++ [mkEvent incident_id
                                 (TelemetryPacket.camera_id packet)
                                 "PLAN_CREATED"
                                 (PPlan "strong"
                                    (Incident.plan_version inc + 1)
                                    strong_plan)])
               (upd_incident_plans
                  (fun rows =>
                     rows ++ [IncidentPlan.mk incident_id
                                (Incident.plan_version inc + 1) "strong"
                                (Verdict_value (verdict strong_plan))
                                (severity_seed strong_plan)
                                (confidence strong_plan)
                                (reasons strong_plan) (actions strong_plan)
                                (replan_interval_s strong_plan)])
                  (upd_incidents (insert incident_id inc') w))
         end
     end).
Proof.
  unfold StrongVerify._strong_verify_task, StrongVerify.strong_plan_for,
    try_except,
    bind at 1 2, get.
  destruct (incidents w !! incident_id) as [inc |] eqn:Hrow.
  - rewrite (incidents_by_id_Some _ _ _ Hrow). cbn [scalar_one_or_none ret].
    unfold bind at 1.
    destruct (strong_verify _ _ _ _ _) as [raw |]; [| reflexivity].
    cbn [ret]. destruct (_parse_plan env raw) as [strong_plan |];
      [| reflexivity].
    unfold bind at 1 2, get.
    rewrite (incidents_by_id_Some _ _ _ Hrow). reflexivity.
  - rewrite (incidents_by_id_None _ _ Hrow). reflexivity.
Qed.

End StrongVerifyFacts.

(** X27.  The strong verification task revises the verdict and never
    acts.  It never raises; it sends nothing, starts no task and leaves
    the guard, the replan registry, the cameras and the action log as
    they were; it touches no incident but its own, and on its own neither
    the status, the severity seed, the current severity, the
    acknowledgement nor the escalation stage: the actions and the
    severity of the strong plan are stored in the plan table and go no
    further.  When the incident exists and the reply parses, the plan
    version grows by one, the verdict and the confidence become those of
    the strong plan, and one plan row marked "strong" and one
    [PLAN_CREATED] event carry the new version; in every other case (no
    such incident, a client error, an unparseable reply) nothing
    changes. *)
Theorem strong_verify_only_revises_verdict
    (env : Env)
    (strong_verify :
       list string -> Q -> Q -> PlannerPlan -> IncidentState -> Reply)
    (incident_id : string) (packet : TelemetryPacket.t)
    (current_plan : PlannerPlan) (w : World) :
  let run :=
    StrongVerify._strong_verify_task env strong_verify incident_id packet
      current_plan w in
  run.1 = Ok tt
  /\ gateway run.2 = gateway w
  /\ spawned run.2 = spawned w
  /\ guard run.2 = guard w
  /\ _active_replan_tasks run.2 = _active_replan_tasks w
  /\ cameras run.2 = cameras w
  /\ action_logs run.2 = action_logs w
  /\ (forall i, i ≠ incident_id -> incidents run.2 !! i = incidents w !! i)
  /\ match incidents w !! incident_id with
     | None => run.2 = w
     | Some inc =>
         match StrongVerify.strong_plan_for env strong_verify packet
                 current_plan inc with
         | None => run.2 = w
         | Some strong_plan =>
             exists inc',
               incidents run.2 !! incident_id = Some inc'
               /\ kept_columns inc' = kept_columns inc
               /\ Incident.status inc' = Incident.status inc
               /\ Incident.severity_seed inc' = Incident.severity_seed inc
               /\ Incident.severity_current inc'
                  = Incident.severity_current inc
               /\ Incident.plan_version inc' = Incident.plan_version inc + 1
               /\ Incident.verdict inc'
                  = Verdict_value (verdict strong_plan)
               /\ Incident.confidence inc' = confidence strong_plan
               /\ incident_plans run.2
                  = incident_plans w
                    ++ [IncidentPlan.mk incident_id
                          (Incident.plan_version inc + 1) "strong"
                          (Verdict_value (verdict strong_plan))
                          (severity_seed strong_plan)
                          (confidence strong_plan) (reasons strong_plan)
                          (actions strong_plan)
                          (replan_interval_s strong_plan)]
               /\ timeline run.2
                  = timeline w
                    ++ [mkEvent incident_id
                          (TelemetryPacket.camera_id packet) "PLAN_CREATED"
                          (PPlan "strong" (Incident.plan_version inc + 1)
                                 strong_plan)]
         end
     end.
Proof.
  cbv zeta. rewrite strong_verify_task_run. cbn [fst snd].
  split; [reflexivity |].
  destruct (incidents w !! incident_id) as [inc |] eqn:Hrow;
    [| repeat split].
  destruct (StrongVerify.strong_plan_for env strong_verify packet
              current_plan inc) as [strong_plan |];
    [| repeat split].
  cbn. repeat (split; [reflexivity |]).
  split.
  - intros i Hi. apply lookup_insert_ne. congruence.
  - eexists. split; [apply lookup_insert_eq |]. repeat split.
Qed.

(** ** api/vision.py: the plan of an uploaded incident *)

Section UploadPlan.
Import Guard GuardTable.
Variable env : Env.
Variable value_error : Exn.
Variable validation_error : Exn.

Lemma store_plan_run inc_id camera_id plan w :
  VisionApi.store_plan inc_id camera_id plan w
  = match incidents w !! inc_id with
    | None =>
        (Ok None,
         upd_timeline
           (fun t => t ++ [mkEvent inc_id camera_id "PLAN_FAILED"
                             (PReason "Incident not found" None)]) w)
    | Some inc =>
        (Ok (Some (Incident.plan_version inc + 1)),
         upd_incident_plans
           (fun rows =>
              rows ++ [IncidentPlan.mk inc_id (Incident.plan_version inc + 1)
                         "video_upload" (Verdict_value (verdict plan))
                         (severity_seed plan) (confidence plan)
                         (reasons plan) (actions plan)
                         (replan_interval_s plan)])
           (upd_incidents
              (insert inc_id
                 (Incident.set_plan_version (Incident.plan_version inc + 1)
                    inc)) w))
    end.
Proof.
  unfold VisionApi.store_plan, try_except, bind at 1 2, get.
  destruct (incidents w !! inc_id) as [inc |] eqn:Hrow.
  - rewrite (incidents_by_id_Some _ _ _ Hrow). reflexivity.
  - rewrite (incidents_by_id_None _ _ Hrow). reflexivity.
Qed.

Lemma table_run_keeps_stamp p now actions :
  forall g,
    _last_contact_time g !! camera_id p = Some now ->
    _last_contact_time (table_run p now g actions).2 !! camera_id p
    = Some now.
Proof.
  induction actions as [| a rest IH]; intros g Hg; [exact Hg |].
  rewrite table_run_cons. cbn [snd]. apply IH.
  destruct (Guard.approved _); [apply on_approval_keeps_stamp |]; exact Hg.
Qed.

Lemma table_run_stamped p now actions :
  forall g,
    (0 < contacts (kept actions (table_run p now g actions).1))%nat ->
    _last_contact_time (table_run p now g actions).2 !! camera_id p
    = Some now.
Proof.
  induction actions as [| a rest IH]; intros g;
    [unfold kept, contacts; cbn; lia |].
  rewrite table_run_cons. cbn [fst snd]. rewrite kept_cons.
  destruct (Guard.approved (decision_for p now g a)) eqn:Hok; [| apply IH].
  rewrite contacts_cons.
  destruct (decide (type a ∈ contact_class)) as [Hty | Hty]; [| apply IH].
  intros _. apply table_run_keeps_stamp, on_approval_stamps, Hty.
Qed.

Lemma cooling_rejects_contact p now g a :
  Cooldown.running (camera_id p) (cooldown_contact_s p) now g ->
  type a ∈ contact_class ->
  Guard.approved (decision_for p now g a) = false.
Proof.
  intros (t & Hg & Ht) Hty.
  assert (Hcool : cooldown_elapsed p now g = false).
  { unfold cooldown_elapsed. rewrite Hg. cbn.
    destruct (Qle_bool _ _) eqn:E; [| reflexivity].
    apply Qle_bool_iff in E. lra. }
  unfold contact_class in Hty. rewrite !elem_of_cons, elem_of_nil in Hty.
  unfold decision_for.
  destruct Hty as [-> | [-> | [-> | []]]];
    unfold rejection; rewrite Hcool; reflexivity.
Qed.

Lemma cooling_on_approval p now g ty :
  0 < cooldown_contact_s p ->
  Cooldown.running (camera_id p) (cooldown_contact_s p) now g ->
  Cooldown.running (camera_id p) (cooldown_contact_s p) now
    (on_approval p now g ty).
Proof.
  intros Hpos (t & Hg & Ht). unfold Cooldown.running.
  rewrite on_approval_last.
  destruct (bool_decide (ty ∈ stamps_contact)).
  - exists now. rewrite lookup_insert_eq. split; [reflexivity |].
    assert (0 < inject_Z (cooldown_contact_s p))%Q
      by (rewrite <- (Zlt_Qlt 0); exact Hpos).
    lra.
  - exists t. split; assumption.
Qed.

Lemma table_run_all_cooling p now actions :
  0 < cooldown_contact_s p ->
  forall g,
    Cooldown.running (camera_id p) (cooldown_contact_s p) now g ->
    contacts (kept actions (table_run p now g actions).1) = 0%nat.
Proof.
  intros Hpos. induction actions as [| a rest IH]; intros g Hg;
    [reflexivity |].
  rewrite table_run_cons. cbn [fst]. rewrite kept_cons.
  destruct (Guard.approved (decision_for p now g a)) eqn:Hok;
    [| apply IH, Hg].
  rewrite contacts_cons.
  destruct (decide (type a ∈ contact_class)) as [Hty | Hty].
  - rewrite (cooling_rejects_contact p now g a Hg Hty) in Hok. discriminate.
  - apply IH, cooling_on_approval; assumption.
Qed.

Lemma upload_plan_actions severity :
  Forall (fun a => type a ≠ ESCALATE_TO_BACKUP /\ type a ≠ CLOSE_INCIDENT)
         (VisionApi.upload_actions severity).
Proof.
  unfold VisionApi.upload_actions. destruct (4 <=? severity); cbn;
    repeat constructor; discriminate.
Qed.

Lemma no_escalations (l : list PlanAction) :
  Forall (fun a => type a ≠ ESCALATE_TO_BACKUP /\ type a ≠ CLOSE_INCIDENT) l ->
  Trail.escalations l = 0%nat /\ Trail.closes l = false.
Proof.
  intros H. unfold Trail.escalations, Trail.closes.
  induction H as [| a l [Ha1 Ha2] _ [IH1 IH2]]; [split; reflexivity |].
  rewrite filter_cons, decide_False by exact Ha1. split; [exact IH1 |].
  apply bool_decide_eq_false. apply bool_decide_eq_false in IH2.
  rewrite Exists_cons. tauto.
Qed.

Lemma upload_plan_run severity verdict v w :
  VisionApi.Verdict_of verdict = Some v ->
  1 <= severity <= 5 ->
  VisionApi.upload_plan value_error validation_error severity verdict w
  = (Ok (VisionApi.plan_fields severity v verdict), w).
Proof.
  intros Hv Hsev. unfold VisionApi.upload_plan. rewrite Hv.
  replace ((1 <=? severity) && (severity <=? 5)) with true by lia.
  reflexivity.
Qed.

Lemma Verdict_of_value verdict v :
  VisionApi.Verdict_of verdict = Some v -> Verdict_value v = verdict.
Proof.
  unfold VisionApi.Verdict_of. intros Hv.
  repeat match type of Hv with
         | context [decide (?a = ?b)] =>
             destruct (decide (a = b)) as [-> |]
         end; try discriminate; injection Hv as <-; reflexivity.
Qed.

Lemma generate_plan_run now plan_id inc_id camera_id severity verdict v w
    inc cam :
  VisionApi.Verdict_of verdict = Some v ->
  1 <= severity <= 5 ->
  incidents w !! inc_id = Some inc ->
  cameras w !! camera_id = Some cam ->
  let plan := VisionApi.plan_fields severity v verdict in
  let p := default_args camera_id false (Camera.voice_enabled cam)
             (Camera.sms_enabled cam) 0 in
  let approved := kept (actions plan) (table_run p now (guard w)
                                         (actions plan)).1 in
  exists logs out,
    VisionApi._generate_plan_for_incident env value_error validation_error
      now plan_id inc_id camera_id severity verdict w
    = (Ok tt,
       Trail.extend
         (<[inc_id := Incident.set_plan_version
                        (Incident.plan_version inc + 1) inc]> (incidents w))
         logs
         (mkEvent inc_id camera_id "PLAN_CREATED"
            (PPlan "video_upload" (Incident.plan_version inc + 1) plan)
          :: map Trail.logged_event logs
          ++ [mkEvent inc_id camera_id "ACTION_DONE"
                (PDone (length approved) plan_id)])
         out
         (upd_guard
            (fun _ => (table_run p now (guard w) (actions plan)).2)
            (upd_incident_plans
               (fun rows =>
                  rows ++ [IncidentPlan.mk inc_id
                             (Incident.plan_version inc + 1) "video_upload"
                             (Verdict_value v) severity 0.75
                             (reasons plan) (actions plan) 10.0]) w)))
    /\ Trail.rows_of inc_id camera_id approved logs
    /\ length out = contacts approved
    /\ Forall (fun o => Trail.recipient o = Camera.primary_contact cam) out.
Proof.
  intros Hv Hsev Hrow Hcam plan p approved.
  unfold VisionApi._generate_plan_for_incident.
  unfold bind at 1. rewrite (upload_plan_run _ _ _ _ Hv Hsev). fold plan.
  unfold bind at 1. rewrite store_plan_run, Hrow.
  unfold bind at 1, log_event, modify. unfold bind at 1.
  rewrite select_camera_run. cbn [cameras upd_timeline upd_incident_plans
                                    upd_incidents].
  rewrite Hcam. unfold bind at 1, get.
  cbn [guard upd_timeline upd_incident_plans upd_incidents].
  fold p. rewrite approve_plan_table. fold approved.
  unfold bind at 1, modify. unfold bind at 1.
  match goal with
  | |- context [Executor.execute_actions env approved ?a ?b ?c ?d ?e ?w1] =>
      destruct (execute_actions_trail env a b c d e approved w1)
        as (logs & outs & Hrun & Hrows & Houts)
  end.
  rewrite Hrun.
  assert (Hsub : Forall (fun a => type a ≠ ESCALATE_TO_BACKUP
                                  /\ type a ≠ CLOSE_INCIDENT) approved).
  { apply Forall_forall. intros a Ha.
    pose proof (upload_plan_actions severity) as Hall.
    rewrite Forall_forall in Hall. apply Hall.
    eapply elem_of_sublist; [exact Ha | apply kept_sublist]. }
  destruct (no_escalations approved Hsub) as [Hesc Hclose].
  exists logs, (concat outs). split; [| split; [exact Hrows | split]].
  - rewrite Hclose. unfold Trail.extend, upd_timeline. cbn.
    rewrite <- !app_assoc. reflexivity.
  - erewrite sent_length by exact Houts. rewrite Hesc. lia.
  - eapply Forall_impl; [eapply sent_recipients, Houts |].
    intros o [Ho | [_ Hn]]; [exact Ho | lia].
Qed.

Lemma generate_plan_no_camera now plan_id inc_id camera_id severity verdict
    v w inc :
  VisionApi.Verdict_of verdict = Some v ->
  1 <= severity <= 5 ->
  incidents w !! inc_id = Some inc ->
  cameras w !! camera_id = None ->
  VisionApi._generate_plan_for_incident env value_error validation_error
    now plan_id inc_id camera_id severity verdict w
  = (Ok tt,
     upd_timeline
       (fun t => t ++ [mkEvent inc_id camera_id "PLAN_CREATED"
                         (PPlan "video_upload"
                            (Incident.plan_version inc + 1)
                            (VisionApi.plan_fields severity v verdict))])
       (upd_incident_plans
          (fun rows =>
             rows ++ [IncidentPlan.mk inc_id
                        (Incident.plan_version inc + 1) "video_upload"
                        (Verdict_value v) severity 0.75
                        ["Video upload detection: " +:+ verdict]
                        (VisionApi.upload_actions severity) 10.0])
          (upd_incidents
             (insert inc_id
                (Incident.set_plan_version (Incident.plan_version inc + 1)
                   inc)) w))).
Proof.
  intros Hv Hsev Hrow Hcam.
  unfold VisionApi._generate_plan_for_incident.
  unfold bind at 1. rewrite (upload_plan_run _ _ _ _ Hv Hsev).
  unfold bind at 1. rewrite store_plan_run, Hrow.
  unfold bind at 1, log_event, modify. unfold bind at 1.
  rewrite select_camera_run.
  cbn [cameras upd_timeline upd_incident_plans upd_incidents].
  rewrite Hcam. reflexivity.
Qed.

End UploadPlan.

(** X28.  The plan of an incident created from a video upload.  A verdict
    that is no value of [Verdict], or a severity outside 1..5, makes the
    constructors of the plan raise before anything is written.  Otherwise,
    when no incident has the identifier, the function logs one
    [PLAN_FAILED] "Incident not found" and does nothing else; when there
    is one, it raises the plan version of the incident by one, stores the
    plan under that version with the model [video_upload] and logs
    [PLAN_CREATED] with the plan; when the camera does not exist it stops
    there.  With the camera, the plan is guarded as for an unacknowledged
    incident at stage 0 and the approved actions are executed: one row of
    the action log and one [ACTION_EXECUTED] event for each, and a final
    [ACTION_DONE] event with their number and the identifier of the plan.
    At most one message goes to the gateway, for the camera's primary
    contact; a message that goes out starts the cooldown of the camera at
    [now]; and while a cooldown of the camera is running nothing goes out
    at all, so that of the plans generated within five seconds for
    incidents of one camera only the first one sends. *)
Theorem upload_plan_execution
    (env : Env) (value_error validation_error : Exn) (now : Q)
    (plan_id inc_id camera_id : string) (severity : Z) (verdict : string)
    (w : World) :
  let run :=
    VisionApi._generate_plan_for_incident env value_error validation_error
      now plan_id inc_id camera_id severity verdict w in
  (VisionApi.Verdict_of verdict = None -> run = (Raise value_error, w))
  /\ (is_Some (VisionApi.Verdict_of verdict) -> ~ 1 <= severity <= 5 ->
      run = (Raise validation_error, w))
  /\ (forall v,
        VisionApi.Verdict_of verdict = Some v ->
        1 <= severity <= 5 ->
        let plan :=
          mkPlannerPlan v severity 0.75
            ["Video upload detection: " +:+ verdict]
            (VisionApi.upload_actions severity) 10.0 in
        Verdict_value v = verdict
        /\ (incidents w !! inc_id = None ->
            run = (Ok tt,
                   upd_timeline
                     (fun t => t ++ [mkEvent inc_id camera_id "PLAN_FAILED"
                                       (PReason "Incident not found" None)])
                     w))
        /\ (forall inc,
              incidents w !! inc_id = Some inc ->
              let created :=
                mkEvent inc_id camera_id "PLAN_CREATED"
                  (PPlan "video_upload" (Incident.plan_version inc + 1)
                     plan) in
              run.1 = Ok tt
              /\ incidents run.2
                 = <[inc_id := Incident.set_plan_version
                                 (Incident.plan_version inc + 1) inc]>
                     (incidents w)
              /\ incident_plans run.2
                 = incident_plans w
                   ++ [IncidentPlan.mk inc_id (Incident.plan_version inc + 1)
                         "video_upload" verdict severity 0.75
                         ["Video upload detection: " +:+ verdict]
                         (VisionApi.upload_actions severity) 10.0]
              /\ (cameras w !! camera_id = None ->
                  timeline run.2 = timeline w ++ [created]
                  /\ gateway run.2 = gateway w /\ guard run.2 = guard w
                  /\ action_logs run.2 = action_logs w)
              /\ (forall cam,
                    cameras w !! camera_id = Some cam ->
                    let guarded :=
                      Guard.approve_plan
                        (Guard.default_args camera_id false
                           (Camera.voice_enabled cam)
                           (Camera.sms_enabled cam) 0)
                        now (VisionApi.upload_actions severity) (guard w) in
                    exists logs out,
                      timeline run.2
                      = timeline w
                        ++ created :: map Trail.logged_event logs
                        ++ [mkEvent inc_id camera_id "ACTION_DONE"
                              (PDone (length guarded.1.1) plan_id)]
                      /\ action_logs run.2 = action_logs w ++ logs
                      /\ Trail.rows_of inc_id camera_id guarded.1.1 logs
                      /\ guard run.2 = guarded.2
                      /\ gateway run.2 = gateway w ++ out
                      /\ (length out <= 1)%nat
                      /\ Forall (fun o => Trail.recipient o
                                          = Camera.primary_contact cam) out
                      /\ (out ≠ [] ->
                          Guard._last_contact_time (guard run.2) !! camera_id
                          = Some now)
                      /\ (Cooldown.running camera_id 5 now (guard w) ->
                          out = [])))).
Proof.
  cbv zeta. split; [| split].
  - intros Hv. unfold VisionApi._generate_plan_for_incident, bind at 1.
    unfold VisionApi.upload_plan. rewrite Hv. reflexivity.
  - intros [v Hv] Hsev.
    unfold VisionApi._generate_plan_for_incident, bind at 1.
    unfold VisionApi.upload_plan. rewrite Hv.
    replace ((1 <=? severity) && (severity <=? 5)) with false by lia.
    reflexivity.
  - intros v Hv Hsev.
    pose proof (Verdict_of_value verdict v Hv) as Hval.
    split; [exact Hval |]. split.
    + intros Hrow. unfold VisionApi._generate_plan_for_incident.
      unfold bind at 1.
      rewrite (upload_plan_run value_error validation_error _ _ _ _ Hv Hsev).
      unfold bind at 1. rewrite store_plan_run, Hrow. reflexivity.
    + intros inc Hrow.
      destruct (cameras w !! camera_id) as [cam |] eqn:Hcam.
      * destruct (generate_plan_run env value_error validation_error now
                    plan_id inc_id camera_id severity verdict v w inc cam
                    Hv Hsev Hrow Hcam)
          as (logs & out & -> & Hrows & Hlen & Hto).
        cbn [fst snd]. unfold Trail.extend. cbn.
        split; [reflexivity |]. split; [reflexivity |].
        split; [rewrite Hval; reflexivity |].
        split; [discriminate |].
        intros cam' [= <-]. rewrite approve_plan_table. cbn [fst snd].
        exists logs, out.
        split; [reflexivity |]. split; [reflexivity |].
        split; [exact Hrows |]. split; [reflexivity |].
        split; [reflexivity |].
        split; [rewrite Hlen; apply table_run_contacts; cbn; lia |].
        split; [exact Hto |].
        split.
        -- intros Hout.
           apply (table_run_stamped
                    (Guard.default_args camera_id false
                       (Camera.voice_enabled cam) (Camera.sms_enabled cam)
                       0)).
           cbv zeta in Hlen.
           match goal with
           | |- (0 < ?n)%nat => replace n with (length out)
           end.
           destruct out; [contradiction | cbn; lia].
        -- intros Hcool. apply length_zero_iff_nil. rewrite Hlen.
           apply table_run_all_cooling; [cbn; lia | exact Hcool].
      * rewrite (generate_plan_no_camera env value_error validation_error
                   now plan_id inc_id camera_id severity verdict v w inc
                   Hv Hsev Hrow Hcam). cbn.
        split; [reflexivity |]. split; [reflexivity |].
        split; [rewrite Hval; reflexivity |].
        split; [intros _; repeat split |].
        intros cam [=].
Qed.

Lemma upload_plan_execution_witness :
  let run (severity : Z) (verdict : string) (w : World) :=
    VisionApi._generate_plan_for_incident Examples.planner_down
      (HTTPException 0 "ValueError") (HTTPException 0 "ValidationError")
      103 "plan1" "inc1" "cam1" severity verdict w in
  gateway (run 4 "CONFIRMED_FALL" Examples.closed_world).2
  = gateway Examples.closed_world
  /\ run 6 "CONFIRMED_FALL" Examples.closed_world
     = (Raise (HTTPException 0 "ValidationError"), Examples.closed_world)
  /\ run 4 "FALL" Examples.closed_world
     = (Raise (HTTPException 0 "ValueError"), Examples.closed_world).
Proof.
  intros run.
  destruct (upload_plan_execution Examples.planner_down
              (HTTPException 0 "ValueError")
              (HTTPException 0 "ValidationError") 103 "plan1" "inc1" "cam1"
              4 "CONFIRMED_FALL" Examples.closed_world) as (_ & _ & Hrun).
  destruct (Hrun CONFIRMED_FALL eq_refl ltac:(lia)) as (_ & _ & Hinc).
  destruct (Hinc Examples.closed_incident eq_refl) as (_ & _ & _ & _ & Hcam).
  destruct (Hcam Examples.cam1 eq_refl)
    as (logs & out & _ & _ & _ & _ & Hout & _ & _ & _ & Hcool).
  split; [| split].
  - unfold run. rewrite Hout, Hcool, app_nil_r; [reflexivity |].
    exists 100%Q. split; [reflexivity |]. unfold Qlt. simpl. lia.
  - apply (upload_plan_execution Examples.planner_down
             (HTTPException 0 "ValueError")
             (HTTPException 0 "ValidationError") 103 "plan1" "inc1" "cam1"
             6 "CONFIRMED_FALL" Examples.closed_world).
    + eexists. reflexivity.
    + lia.
  - apply (upload_plan_execution Examples.planner_down
             (HTTPException 0 "ValueError")
             (HTTPException 0 "ValidationError") 103 "plan1" "inc1" "cam1"
             4 "FALL" Examples.closed_world).
    reflexivity.
Defined.

(** ** core/planner.py: the replan loop *)

Section ReplanFrames.
Import Replan.
Context {X : Type} (f : World -> X).

Lemma keeps_lret {A} (a : A) : keeps f (lret a).
Proof. intros l w. reflexivity. Qed.

Lemma keeps_lraise {A} (e : Exn) : keeps f (@lraise A e).
Proof. intros l w. reflexivity. Qed.

Lemma keeps_tell incident_id camera_id ev :
  (forall g w, f (upd_timeline g w) = f w) ->
  keeps f (tell incident_id camera_id ev).
Proof. intros Hf l w. apply Hf. Qed.

Lemma keeps_lift {A} (m : M A) : preserves f m -> keeps f (lift m).
Proof.
  intros Hm l w. unfold lift. specialize (Hm w).
  destruct (m w) as [o w1]. exact Hm.
Qed.

Lemma keeps_lbind {A B} (m : L A) (k : A -> L B) :
  keeps f m -> (forall a, keeps f (k a)) -> keeps f (lbind m k).
Proof.
  intros Hm Hk l w. unfold lbind. specialize (Hm l w).
  destruct (m l w) as [[[a | e] l1] w1]; cbn in *.
  - rewrite Hk. exact Hm.
  - exact Hm.
Qed.

Lemma keeps_ltry {A} (m : L A) (handler : Exn -> L A) :
  keeps f m -> (forall e, keeps f (handler e)) -> keeps f (ltry m handler).
Proof.
  intros Hm Hh l w. unfold ltry. specialize (Hm l w).
  destruct (m l w) as [[[a | e] l1] w1]; cbn in *.
  - exact Hm.
  - rewrite Hh. exact Hm.
Qed.

(** A row loaded by its key, then used. *)
Lemma keeps_load {A} (key : string) (k : Incident.t -> L A) :
  (forall l w inc, incidents w !! key = Some inc -> f (k inc l w).2 = f w) ->
  keeps f (let* w := lift get in
           let* inc := lift (scalar_one (incidents_by_id key w)) in
           k inc).
Proof.
  intros Hk l w. unfold lbind, lift, get, incidents_by_id.
  destruct (incidents w !! key) as [inc |] eqn:Hrow; cbn.
  - apply Hk, Hrow.
  - reflexivity.
Qed.

End ReplanFrames.

Section ReplanRows.
Import Replan.
Variable env : Env.
Variable type_error : Exn.
Variables incident_id camera_id : string.

(** A view [proj] of the row stored under [i] that the writes of the
    loop cannot change: either [i] is another incident, or the view does
    not look at the columns that the loop writes. *)
Context {Y : Type} (proj : Incident.t -> Y) (i : string).
Hypothesis Hview :
  forall inc inc',
    i = incident_id -> blank inc' = blank inc -> proj inc' = proj inc.

Let view (w : World) : option Y := proj <$> incidents w !! i.

Lemma view_insert inc inc' w :
  incidents w !! incident_id = Some inc ->
  blank inc' = blank inc ->
  view (upd_incidents (insert incident_id inc') w) = view w.
Proof.
  intros Hrow Hblank. unfold view. cbn.
  destruct (decide (i = incident_id)) as [Hi | Hi].
  - rewrite Hi, lookup_insert_eq, Hrow. cbn. f_equal.
    apply Hview; [exact Hi | exact Hblank].
  - rewrite lookup_insert_ne by congruence. reflexivity.
Qed.

Lemma preserves_call_incident_plan_view req :
  preserves view (Planner.call_incident_plan env req).
Proof.
  unfold Planner.call_incident_plan.
  apply preserves_bind; [apply preserves_get | intros w0].
  apply preserves_bind; [apply preserves_modify; reflexivity |].
  intros _. destruct (incident_plan env _ req);
    [apply preserves_ret | apply preserves_raise].
Qed.

Lemma preserves_execute_actions_view actions primary_contact
    backup_contact summary_text :
  preserves view
    (Executor.execute_actions env actions incident_id camera_id
       primary_contact backup_contact summary_text).
Proof.
  intros w.
  destruct (execute_actions_trail env incident_id camera_id primary_contact
              backup_contact summary_text actions w)
    as (logs & outs & Hrun & _ & _).
  rewrite Hrun. unfold Trail.extend, Trail.closed_rows. cbn [snd].
  destruct (Trail.closes actions); [| reflexivity].
  destruct (incidents w !! incident_id) as [inc |] eqn:Hrow; [| reflexivity].
  change (view (upd_incidents
                  (insert incident_id (Incident.set_status "CLOSED" inc)) w)
          = view w).
  eapply view_insert; [exact Hrow | reflexivity].
Qed.

Lemma keeps_after_update {A} inc inc' (rest : L A) l w :
  incidents w !! incident_id = Some inc ->
  blank inc' = blank inc ->
  keeps view rest ->
  view ((lift (update_incident incident_id inc') >>> rest) l w).2 = view w.
Proof.
  intros Hrow Hblank Hrest. unfold lbind, lift, update_incident, modify.
  cbn. rewrite Hrest. eapply view_insert; eassumption.
Qed.

Lemma keeps_replan now1 now2 :
  keeps view (_replan env type_error now1 now2 incident_id camera_id).
Proof.
  unfold _replan. apply keeps_ltry; [| intros _; apply keeps_lret].
  apply keeps_lbind; [apply keeps_lift, preserves_get | intros w0].
  apply keeps_lbind;
    [apply keeps_lift, preserves_scalar_one_or_none | intros incident].
  destruct incident as [incident |]; [| apply keeps_lret].
  destruct (negb _); [apply keeps_lret |].
  apply keeps_lbind;
    [apply keeps_lift, preserves_select_camera | intros camera].
  destruct camera as [camera |]; [| apply keeps_lret].
  apply keeps_lbind; [apply keeps_lift, preserves_get | intros w1].
  apply keeps_lbind;
    [apply keeps_lift, preserves_scalar_one_or_none | intros policy].
  apply keeps_lbind;
    [apply keeps_lift, preserves_call_incident_plan_view | intros raw].
  cbv zeta. apply keeps_load. intros l w inc Hrow.
  apply (keeps_after_update inc); [exact Hrow | reflexivity |].
  apply keeps_lbind;
    [apply keeps_lift, preserves_modify; reflexivity | intros _].
  apply keeps_lbind; [apply keeps_tell; reflexivity | intros _].
  apply keeps_lbind;
    [apply keeps_lift, preserves_guard_plan; reflexivity | intros guarded].
  apply keeps_lbind.
  { unfold escalation_due. cbv zeta.
    destruct (Incident.acknowledged incident); [apply keeps_lret |].
    destruct (py_gt _ _) as [[|] |];
      [apply keeps_lret | apply keeps_lret | apply keeps_lraise]. }
  intros due. apply keeps_lbind.
  { destruct due; [| apply keeps_lret].
    apply keeps_lbind;
      [apply keeps_lift, preserves_guard_plan; reflexivity | intros esc].
    destruct esc.1; [apply keeps_lret |].
    apply keeps_load. intros l2 w2 inc2 Hrow2.
    apply (keeps_after_update inc2); [exact Hrow2 | reflexivity |].
    apply keeps_lbind;
      [apply keeps_tell; reflexivity | intros _; apply keeps_lret]. }
  intros approved.
  apply keeps_lbind;
    [apply keeps_lift, preserves_execute_actions_view
    | intros _; apply keeps_lret].
Qed.

End ReplanRows.

(** X29.  One iteration of the replan loop never raises: it breaks the
    loop, goes on, or goes on after an error.  It breaks, and then changes
    nothing, when its incident no longer exists or is no longer ACTIVE,
    and when its camera no longer exists.  Whatever the planner answers,
    replanning rewrites neither the severity nor the verdict: of its own
    incident it writes only the status (through a [CLOSE_INCIDENT]), the
    plan version, the reasons, the summary and the escalation stage, so
    the seed, the current severity, the verdict, the confidence, the time
    down and the acknowledgement stay; and it writes no other incident
    row. *)
Theorem replan_keeps_severity
    (env : Env) (type_error : Exn) (now1 now2 : Q)
    (incident_id camera_id : string) (l : list Replan.LoopEvent)
    (w : World) (i : string) :
  let run :=
    Replan._replan env type_error now1 now2 incident_id camera_id l w in
  (exists step, run.1.1 = Ok step)
  /\ Replan.blank <$> incidents run.2 !! i = Replan.blank <$> incidents w !! i
  /\ (i ≠ incident_id -> incidents run.2 !! i = incidents w !! i)
  /\ ((forall inc, incidents w !! incident_id = Some inc ->
                   Incident.status inc ≠ "ACTIVE")
      \/ cameras w !! camera_id = None ->
      run = (Ok Replan.Break, l, w)).
Proof.
  cbv zeta. split; [| split; [| split]].
  - unfold Replan._replan, Replan.ltry.
    match goal with
    | |- context [match ?m l w with _ => _ end] =>
        destruct (m l w) as [[[step | e] l1] w1]
    end; eexists; reflexivity.
  - apply (keeps_replan env type_error incident_id camera_id
             Replan.blank i).
    intros inc inc' _ H. exact H.
  - intros Hi.
    pose proof (keeps_replan env type_error incident_id camera_id
                  (fun inc => inc) i) as Hkeep.
    specialize (Hkeep ltac:(intros inc inc' Heq; congruence) now1 now2 l w).
    cbn in Hkeep. rewrite !option_fmap_id in Hkeep. exact Hkeep.
  - intros Hstop.
    unfold Replan._replan, Replan.ltry, Replan.lbind at 1 2, Replan.lift,
      get.
    destruct (incidents w !! incident_id) as [inc |] eqn:Hrow.
    + rewrite (incidents_by_id_Some _ _ _ Hrow).
      cbn [scalar_one_or_none ret]. rewrite eqb_ACTIVE.
      destruct (decide (Incident.status inc = "ACTIVE")) as [Hact | Hact].
      * destruct Hstop as [Hstop | Hcam];
          [exfalso; exact (Hstop inc eq_refl Hact) |].
        rewrite (bool_decide_eq_true_2 _ Hact). cbn [negb].
        unfold Replan.lbind at 1. rewrite select_camera_run, Hcam.
        reflexivity.
      * rewrite (bool_decide_eq_false_2 _ Hact). reflexivity.
    + rewrite (incidents_by_id_None _ _ Hrow). reflexivity.
Qed.

Lemma replan_keeps_severity_witness :
  Replan._replan Examples.planner_mild PlannerError 1000 1001 "inc1" "cam1"
    [] Examples.closed_world
  = (Ok Replan.Break, [], Examples.closed_world).
Proof.
  destruct (replan_keeps_severity Examples.planner_mild PlannerError 1000
              1001 "inc1" "cam1" [] Examples.closed_world "inc1")
    as (_ & _ & _ & Hstop).
  apply Hstop. left. intros inc Hrow.
  assert (incidents Examples.closed_world !! "inc1"
          = Some Examples.closed_incident) as Hclosed by reflexivity.
  rewrite Hclosed in Hrow. injection Hrow as <-. discriminate.
Defined.

Section GuardRuns.
Import Replan.
Variable env : Env.
Variable type_error : Exn.

Lemma guard_plan_run now actions camera_id camera incident w :
  Planner.guard_plan now actions camera_id camera incident w
  = (Ok (Guard.kept actions
           (GuardTable.table_run
              (Guard.default_args camera_id (Incident.acknowledged incident)
                 (Camera.voice_enabled camera) (Camera.sms_enabled camera)
                 (Incident.escalation_stage incident))
              now (guard w) actions).1,
         (GuardTable.table_run
            (Guard.default_args camera_id (Incident.acknowledged incident)
               (Camera.voice_enabled camera) (Camera.sms_enabled camera)
               (Incident.escalation_stage incident))
            now (guard w) actions).1),
     upd_guard
       (fun _ =>
          (GuardTable.table_run
             (Guard.default_args camera_id (Incident.acknowledged incident)
                (Camera.voice_enabled camera) (Camera.sms_enabled camera)
                (Incident.escalation_stage incident))
             now (guard w) actions).2) w).
Proof.
  unfold Planner.guard_plan, bind, get. rewrite approve_plan_table.
  reflexivity.
Qed.

Lemma escalation_approved p now g :
  Guard.acknowledged p = false ->
  Guard.escalation_stage p < Guard.max_escalation_stage p ->
  Guard.kept [mkPlanAction ESCALATE_TO_BACKUP 0 ∅]
    (GuardTable.table_run p now g [mkPlanAction ESCALATE_TO_BACKUP 0 ∅]).1
  = [mkPlanAction ESCALATE_TO_BACKUP 0 ∅].
Proof.
  intros Hack Hstage. rewrite table_run_cons. cbn [fst]. rewrite kept_cons.
  unfold GuardTable.decision_for, GuardTable.rejection. cbn [type].
  rewrite Hack. apply Z.ltb_lt in Hstage. rewrite Hstage. reflexivity.
Qed.

End GuardRuns.

Section ReplanRun.
Import Replan.

Lemma lbind_lift {A B} (m : M A) (k : A -> L B) l w a w1 :
  m w = (Ok a, w1) -> lbind (lift m) k l w = k a l w1.
Proof. intros H. unfold lbind, lift. rewrite H. reflexivity. Qed.

Lemma lbind_tell {B} incident_id camera_id ev (k : unit -> L B) l w :
  lbind (tell incident_id camera_id ev) k l w
  = k tt (l ++ [ev])
      (upd_timeline (fun t => t ++ [event_of incident_id camera_id ev]) w).
Proof. reflexivity. Qed.

Lemma lbind_lret {A B} (a : A) (k : A -> L B) l w :
  lbind (lret a) k l w = k a l w.
Proof. reflexivity. Qed.

Lemma lbind_assoc {A B C} (m : L A) (k1 : A -> L B) (k2 : B -> L C) l w :
  lbind (lbind m k1) k2 l w = lbind m (fun x => lbind (k1 x) k2) l w.
Proof.
  unfold lbind. destruct (m l w) as [[[a | e] l1] w1]; reflexivity.
Qed.

Lemma ltry_ok {A} (m : L A) handler l w a l1 w1 :
  m l w = (Ok a, l1, w1) -> ltry m handler l w = (Ok a, l1, w1).
Proof. intros H. unfold ltry. rewrite H. reflexivity. Qed.

End ReplanRun.

(** One step of a run of the loop: the next computation on the process
    state returns. *)
Ltac loop_step tac :=
  rewrite ?lbind_assoc; erewrite lbind_lift; [| tac]; cbv beta iota zeta.

Section ReplanEscalates.
Import Replan.
Variable env : Env.
Variable type_error : Exn.

Lemma sends_escalation incident_id primary_contact backup_contact
    (approved : list PlanAction) outs :
  Forall2 (fun a out =>
             Trail.sends incident_id primary_contact backup_contact
                         (type a) out)
          (approved ++ [mkPlanAction ESCALATE_TO_BACKUP 0 ∅]) outs ->
  exists outs1 body,
    concat outs
    = concat outs1
      ++ [Sms backup_contact body; VoiceCall backup_contact incident_id]
    /\ Forall2 (fun a out =>
                  Trail.sends incident_id primary_contact backup_contact
                              (type a) out) approved outs1.
Proof.
  intros H. apply Forall2_app_inv_l in H as (outs1 & outs2 & H1 & H2 & ->).
  inversion H2 as [| ? out ? rest Hout Hrest]; subst.
  inversion Hrest; subst. cbn in Hout. destruct Hout as [body ->].
  exists outs1, body. rewrite concat_app. cbn. rewrite ?app_nil_r.
  split; [reflexivity | exact H1].
Qed.

Lemma replan_escalation_run (now1 now2 : Q) (incident_id camera_id : string)
    (l : list LoopEvent) (w : World) (inc : Incident.t) (cam : Camera.t)
    (policy : option NotificationPolicy.t) (raw : string) :
  incidents w !! incident_id = Some inc ->
  Incident.status inc = "ACTIVE" ->
  cameras w !! camera_id = Some cam ->
  policies_of camera_id w = option_list policy ->
  incident_plan env (length (gemini_calls w))
    (replan_request env inc cam policy camera_id) = Text raw ->
  Incident.acknowledged inc = false ->
  py_gt (Incident.time_down_s inc)
    (default (JNum 60)
       (default ∅ (Camera.config cam) !! "escalation_delay_s"))
  = Some true ->
  Incident.escalation_stage inc < 2 ->
  let plan :=
    match _parse_plan env raw with
    | Some plan => plan
    | None => Planner._fallback_plan 0.3 (Camera.voice_enabled cam)
    end in
  exists inc' out body,
    _replan env type_error now1 now2 incident_id camera_id l w
    = (Ok Again,
       l ++ [REPLAN (Incident.plan_version inc + 1) plan;
             ESCALATION (Incident.escalation_stage inc + 1)],
       (_replan env type_error now1 now2 incident_id camera_id l w).2)
    /\ incidents
         (_replan env type_error now1 now2 incident_id camera_id l w).2
         !! incident_id = Some inc'
    /\ Incident.escalation_stage inc' = Incident.escalation_stage inc + 1
    /\ Incident.plan_version inc' = Incident.plan_version inc + 1
    /\ gateway
         (_replan env type_error now1 now2 incident_id camera_id l w).2
       = gateway w ++ out
         ++ [Sms (Camera.backup_contact cam) body;
             VoiceCall (Camera.backup_contact cam) incident_id]
    /\ (length out <= 1 + 2 * Trail.escalations (actions plan))%nat.
Proof.
  intros Hrow Hact Hcam Hpol Hreply Hack Hgt Hstage plan.
  assert (Hrun : exists inc' out body w',
             _replan env type_error now1 now2 incident_id camera_id l w
             = (Ok Again,
                l ++ [REPLAN (Incident.plan_version inc + 1) plan;
                      ESCALATION (Incident.escalation_stage inc + 1)], w')
             /\ incidents w' !! incident_id = Some inc'
             /\ Incident.escalation_stage inc'
                = Incident.escalation_stage inc + 1
             /\ Incident.plan_version inc' = Incident.plan_version inc + 1
             /\ gateway w'
                = gateway w ++ out
                  ++ [Sms (Camera.backup_contact cam) body;
                      VoiceCall (Camera.backup_contact cam) incident_id]
             /\ (length out <= 1 + 2 * Trail.escalations (actions plan))%nat).
  2: { destruct Hrun as (inc' & out & body & w' & Hrun & H).
       exists inc', out, body. rewrite Hrun. cbn [snd].
       split; [reflexivity | exact H]. }
  unfold _replan.
  (* the body returns *)
  match goal with
  | |- exists inc' out body w', ltry ?m ?h l w = _ /\ _ =>
      enough (exists inc' out body w',
                 m l w
                 = (Ok Again,
                    l ++ [REPLAN (Incident.plan_version inc + 1) plan;
                          ESCALATION (Incident.escalation_stage inc + 1)],
                    w')
                 /\ incidents w' !! incident_id = Some inc'
                 /\ Incident.escalation_stage inc'
                    = Incident.escalation_stage inc + 1
                 /\ Incident.plan_version inc'
                    = Incident.plan_version inc + 1
                 /\ gateway w'
                    = gateway w ++ out
                      ++ [Sms (Camera.backup_contact cam) body;
                          VoiceCall (Camera.backup_contact cam) incident_id]
                 /\ (length out
                     <= 1 + 2 * Trail.escalations (actions plan))%nat)
        as (inc' & out & body & w' & Hbody & H);
        [exists inc', out, body, w';
         split; [apply ltry_ok, Hbody | exact H] |]
  end.
  loop_step ltac:(reflexivity).
  loop_step ltac:(rewrite (incidents_by_id_Some _ _ _ Hrow); reflexivity).
  rewrite eqb_ACTIVE, (bool_decide_eq_true_2 _ Hact).
  cbv beta iota delta [negb].
  loop_step ltac:(rewrite select_camera_run, Hcam; reflexivity).
  loop_step ltac:(reflexivity).
  loop_step ltac:(rewrite Hpol; destruct policy; reflexivity).
  loop_step ltac:(unfold Planner.call_incident_plan, bind, get, modify;
                  rewrite Hreply; reflexivity).
  fold plan.
  loop_step ltac:(reflexivity).
  loop_step ltac:(unfold incidents_by_id; cbn [incidents upd_gemini_calls];
                  rewrite Hrow; reflexivity).
  set (inc1 := Incident.set_summary_text _ _).
  loop_step ltac:(reflexivity).
  loop_step ltac:(reflexivity).
  rewrite lbind_tell.
  loop_step ltac:(apply guard_plan_run).
  cbn [guard upd_timeline upd_incident_plans upd_incidents upd_gemini_calls
       fst].
  set (p := Guard.default_args _ _ _ _ _).
  set (tr1 := GuardTable.table_run p now1 (guard w) (actions plan)).
  unfold escalation_due. cbv zeta. rewrite Hack, Hgt.
  apply Z.ltb_lt in Hstage. rewrite Hstage, lbind_lret.
  cbv beta iota.
  loop_step ltac:(apply guard_plan_run).
  fold p. cbn [guard upd_guard fst].
  rewrite escalation_approved;
    [| exact Hack | apply Z.ltb_lt in Hstage; exact Hstage].
  cbv beta iota.
  loop_step ltac:(reflexivity).
  loop_step ltac:(unfold incidents_by_id;
                  cbn [incidents upd_guard upd_timeline upd_incident_plans
                       upd_incidents];
                  rewrite lookup_insert_eq; reflexivity).
  loop_step ltac:(reflexivity).
  rewrite ?lbind_assoc, lbind_tell, ?lbind_assoc, lbind_lret.
  cbv beta iota.
  match goal with
  | |- context [Executor.execute_actions env ?acts ?a ?b ?c ?d ?e] =>
      match goal with
      | |- context [lbind (lift _) _ ?l1 ?w1] =>
          destruct (execute_actions_trail env a b c d e acts w1)
            as (logs & outs & Hexec & _ & Houts)
      end
  end.
  loop_step ltac:(exact Hexec).
  unfold lret.
  destruct (sends_escalation _ _ _ _ _ Houts) as (outs1 & body & Hcat & H1).
  assert (Hbound : (length (concat outs1)
                     <= 1 + 2 * Trail.escalations (actions plan))%nat).
  { erewrite sent_length by exact H1.
    pose proof (table_run_contacts p now1 (actions plan) ltac:(cbn; lia)
                  (guard w)) as Hc.
    pose proof (escalations_sublist _ _
                  (kept_sublist (actions plan) tr1.1)) as He.
    fold tr1 in Hc. lia. }
  unfold Trail.extend, Trail.closed_rows.
  cbn [incidents gateway upd_incidents upd_guard upd_timeline
       upd_incident_plans upd_gemini_calls].
  rewrite insert_insert_eq, lookup_insert_eq, Hcat, <- app_assoc.
  destruct (Trail.closes _).
  - eexists _, (concat outs1), body, _.
    split; [reflexivity |]. cbn [incidents gateway].
    rewrite lookup_insert_eq.
    split; [reflexivity |]. repeat split. exact Hbound.
  - eexists _, (concat outs1), body, _.
    split; [reflexivity |]. cbn [incidents gateway].
    rewrite lookup_insert_eq.
    split; [reflexivity |]. repeat split. exact Hbound.
Qed.

End ReplanEscalates.

(** X30.  The escalation step of the replan loop.  For an ACTIVE,
    unacknowledged incident below stage 2 whose time down exceeds the
    escalation delay of its camera (60 seconds unless configured), and
    when the planner replies, the iteration goes on to the next one and
    always escalates: the guard approves its [ESCALATE_TO_BACKUP], the
    escalation stage and the plan version of the incident each grow by
    one, a [REPLAN] and an [ESCALATION] event are logged in that order,
    and the last two messages handed to the gateway are an SMS and a call
    to the backup contact.  Before them the plan of the iteration sends
    at most one message for the primary contact and two for each
    escalation that the plan itself lists. *)
Theorem replan_escalates
    (env : Env) (type_error : Exn) (now1 now2 : Q)
    (incident_id camera_id : string) (l : list Replan.LoopEvent)
    (w : World) (inc : Incident.t) (cam : Camera.t)
    (policy : option NotificationPolicy.t) (raw : string) :
  incidents w !! incident_id = Some inc ->
  Incident.status inc = "ACTIVE" ->
  cameras w !! camera_id = Some cam ->
  policies_of camera_id w = option_list policy ->
  incident_plan env (length (gemini_calls w))
    (Replan.replan_request env inc cam policy camera_id) = Text raw ->
  Incident.acknowledged inc = false ->
  Replan.py_gt (Incident.time_down_s inc)
    (default (JNum 60)
       (default ∅ (Camera.config cam) !! "escalation_delay_s"))
  = Some true ->
  Incident.escalation_stage inc < 2 ->
  let run :=
    Replan._replan env type_error now1 now2 incident_id camera_id l w in
  let plan :=
    match _parse_plan env raw with
    | Some plan => plan
    | None => Planner._fallback_plan 0.3 (Camera.voice_enabled cam)
    end in
  exists inc' out body,
    run.1 = (Ok Replan.Again,
             l ++ [Replan.REPLAN (Incident.plan_version inc + 1) plan;
                   Replan.ESCALATION (Incident.escalation_stage inc + 1)])
    /\ incidents run.2 !! incident_id = Some inc'
    /\ Incident.escalation_stage inc' = Incident.escalation_stage inc + 1
    /\ Incident.escalation_stage inc' <= 2
    /\ Incident.plan_version inc' = Incident.plan_version inc + 1
    /\ gateway run.2
       = gateway w ++ out
         ++ [Sms (Camera.backup_contact cam) body;
             VoiceCall (Camera.backup_contact cam) incident_id]
    /\ (length out <= 1 + 2 * Trail.escalations (actions plan))%nat.
Proof.
  intros Hrow Hact Hcam Hpol Hreply Hack Hgt Hstage run plan.
  destruct (replan_escalation_run env type_error now1 now2 incident_id
              camera_id l w inc cam policy raw Hrow Hact Hcam Hpol Hreply
              Hack Hgt Hstage)
    as (inc' & out & body & Hrun & Hinc & Hst & Hpv & Hgw & Hlen).
  exists inc', out, body. subst run.
  split; [rewrite Hrun; reflexivity |].
  split; [exact Hinc |].
  split; [exact Hst |].
  split; [lia |].
  split; [exact Hpv |].
  split; [exact Hgw | exact Hlen].
Qed.

Lemma replan_escalates_witness :
  exists inc' out body,
    (Replan._replan Examples.planner_mild PlannerError 1000 1001 "inc2"
       "cam1" [] Examples.active_world).1
    = (Ok Replan.Again,
       [Replan.REPLAN 3 Examples.mild_plan; Replan.ESCALATION 2])
    /\ incidents
         (Replan._replan Examples.planner_mild PlannerError 1000 1001 "inc2"
            "cam1" [] Examples.active_world).2 !! "inc2"
       = Some inc'
    /\ Incident.escalation_stage inc' = 2
    /\ gateway
         (Replan._replan Examples.planner_mild PlannerError 1000 1001 "inc2"
            "cam1" [] Examples.active_world).2
       = out ++ [Sms "+15550101" body; VoiceCall "+15550101" "inc2"].
Proof.
  destruct (replan_escalates Examples.planner_mild PlannerError 1000 1001
              "inc2" "cam1" [] Examples.active_world
              Examples.active_incident Examples.cam1 None "{}"
              eq_refl eq_refl eq_refl eq_refl eq_refl eq_refl eq_refl)
    as (inc' & out & body & Hrun & Hinc & Hst & _ & _ & Hgw & _).
  { reflexivity. }
  exists inc', out, body.
  split; [exact Hrun |].
  split; [exact Hinc |].
  split; [exact Hst | exact Hgw].
Defined.

(** ** core/planner.py: the retry and the fallback plan, through
    [handle_incident] *)

Section RetryAndFallback.
Variable env : Env.

Lemma plan_with_retry_run packet camera policy_text incident_state
    agent_notes w raw1 :
  let request :=
    Planner.incident_request packet policy_text incident_state agent_notes in
  let frames := TelemetryPacket.frames_jpeg_base64 packet in
  incident_plan env (length (gemini_calls w)) (request (take 4 frames))
  = Text raw1 ->
  _parse_plan env raw1 = None ->
  exists plan,
    Planner.plan_with_retry env packet camera policy_text incident_state
      agent_notes w
    = (Ok plan,
       upd_gemini_calls
         (fun calls => calls ++ [request (take 4 frames);
                                 request (take 2 frames)]) w)
    /\ (match incident_plan env (S (length (gemini_calls w)))
                (request (take 2 frames)) with
        | Text raw2 => _parse_plan env raw2 = None
        | Failure => True
        end ->
        plan = Planner._fallback_plan (TelemetryPacket.motion_energy packet)
                 (Camera.voice_enabled camera))
    /\ (forall raw2 plan2,
          incident_plan env (S (length (gemini_calls w)))
            (request (take 2 frames)) = Text raw2 ->
          _parse_plan env raw2 = Some plan2 ->
          plan = plan2).
Proof.
  intros request frames Hfirst Hparse1.
  unfold Planner.plan_with_retry, Planner.call_incident_plan, try_except,
    bind, get, modify, ret, raise. fold request. fold frames.
  rewrite Hfirst, Hparse1. simpl.
  rewrite length_app. simpl. rewrite Nat.add_1_r.
  assert (Hw : forall w0 : World,
             upd_gemini_calls (fun calls => calls ++ [request (take 2 frames)])
               (upd_gemini_calls
                  (fun calls => calls ++ [request (take 4 frames)]) w0)
             = upd_gemini_calls
                 (fun calls => calls ++ [request (take 4 frames);
                                         request (take 2 frames)]) w0).
  { intros w0. unfold upd_gemini_calls. cbn. rewrite <- app_assoc.
    reflexivity. }
  destruct (incident_plan env (S (length (gemini_calls w))) _) as [raw2 |].
  - destruct (_parse_plan env raw2) as [plan2 |] eqn:Hparse2.
    + exists plan2. cbn. rewrite Hw. split; [reflexivity |].
      split; [discriminate |].
      intros ? ? [= <-] H. congruence.
    + eexists. cbn. rewrite Hw. split; [reflexivity |].
      split; [reflexivity |]. intros ? ? [= <-] H. congruence.
  - eexists. cbn. rewrite Hw. split; [reflexivity |].
    split; [reflexivity |]. discriminate.
Qed.

Lemma persist_and_execute_run now packet camera incident plan w inc :
  incidents w !! Incident.id incident = Some inc ->
  exists executed events w',
    Planner.persist_and_execute env now packet camera incident plan w
    = (Ok (Planner.Planned (Incident.id incident)
             (Incident.plan_version inc + 1) (Verdict_value (verdict plan))
             (severity_seed plan) executed), w')
    /\ incident_plans w'
       = incident_plans w
         ++ [IncidentPlan.mk (Incident.id incident)
               (Incident.plan_version inc + 1) "fast"
               (Verdict_value (verdict plan)) (severity_seed plan)
               (confidence plan) (reasons plan) (actions plan)
               (replan_interval_s plan)]
    /\ timeline w'
       = timeline w
         ++ mkEvent (Incident.id incident) (TelemetryPacket.camera_id packet)
              "PLAN_CREATED"
              (PPlan "fast" (Incident.plan_version inc + 1) plan)
            :: events
    /\ gemini_calls w' = gemini_calls w.
Proof.
  intros Hrow. unfold Planner.persist_and_execute. cbv zeta.
  unfold bind at 1, get. unfold bind at 1.
  rewrite (incidents_by_id_Some _ _ _ Hrow). cbn [scalar_one ret].
  unfold bind at 1, update_incident, modify.
  unfold bind at 1. unfold bind at 1, log_event, modify.
  unfold bind at 1. rewrite guard_plan_run. cbn [fst snd].
  unfold bind at 1.
  match goal with
  | |- context [Executor.execute_actions env ?acts ?a ?b ?c ?d ?e] =>
      match goal with
      | |- context [bind (Executor.execute_actions env acts a b c d e) _ ?w1]
        => destruct (execute_actions_trail env a b c d e acts w1)
             as (logs & outs & Hexec & _ & _)
      end
  end.
  unfold bind at 1. rewrite Hexec.
  unfold Planner._start_replan_loop, Planner._start_severity_ticker, bind,
    modify, ret.
  destruct (Planner.needs_strong_verify plan).
  - eexists _, _, _. split; [reflexivity |].
    unfold Trail.extend. cbn. rewrite <- !app_assoc.
    split; [reflexivity |]. split; reflexivity.
  - eexists _, _, _. split; [reflexivity |].
    unfold Trail.extend. cbn. rewrite <- !app_assoc.
    split; [reflexivity |]. split; reflexivity.
Qed.

Lemma preserves_persist_and_execute_calls now packet camera incident plan :
  preserves gemini_calls
    (Planner.persist_and_execute env now packet camera incident plan).
Proof.
  unfold Planner.persist_and_execute. cbv zeta.
  apply preserves_load_by_id. intros w inc Hrow.
  destruct (persist_and_execute_run now packet camera incident plan w inc
              Hrow) as (executed & events & w' & Hrun & _ & _ & Hcalls).
  unfold Planner.persist_and_execute in Hrun. cbv zeta in Hrun.
  unfold bind at 1, get in Hrun. unfold bind at 1 in Hrun.
  rewrite (incidents_by_id_Some _ _ _ Hrow) in Hrun.
  cbn [scalar_one ret] in Hrun. rewrite Hrun. exact Hcalls.
Qed.

Lemma handle_incident_active now new_id packet w camera inc :
  cameras w !! TelemetryPacket.camera_id packet = Some camera ->
  active_incidents (TelemetryPacket.camera_id packet) w = [inc] ->
  Planner.handle_incident env now new_id packet w
  = Planner.plan_incident env now packet camera inc w.
Proof.
  intros Hcam Hone. unfold Planner.handle_incident, bind at 1.
  rewrite select_camera_run, Hcam. unfold bind at 1 2, get.
  rewrite Hone. reflexivity.
Qed.

Lemma plan_incident_retry now packet camera incident w policy raw1 :
  let camera_id := TelemetryPacket.camera_id packet in
  let frames := TelemetryPacket.frames_jpeg_base64 packet in
  let request :=
    Planner.incident_request packet (_build_policy_text env policy camera)
      (Planner._build_incident_state incident)
      (_get_active_notes env camera_id) in
  let run := Planner.plan_incident env now packet camera incident w in
  policies_of camera_id w = option_list policy ->
  incident_plan env (length (gemini_calls w)) (request (take 4 frames))
  = Text raw1 ->
  _parse_plan env raw1 = None ->
  exists plan,
    (match incident_plan env (S (length (gemini_calls w)))
             (request (take 2 frames)) with
     | Text raw2 => _parse_plan env raw2 = None
     | Failure => True
     end ->
     plan = Planner._fallback_plan (TelemetryPacket.motion_energy packet)
              (Camera.voice_enabled camera))
    /\ (forall raw2 plan2,
          incident_plan env (S (length (gemini_calls w)))
            (request (take 2 frames)) = Text raw2 ->
          _parse_plan env raw2 = Some plan2 ->
          plan = plan2)
    /\ gemini_calls run.2
       = gemini_calls w ++ [request (take 4 frames); request (take 2 frames)]
    /\ forall inc,
         incidents w !! Incident.id incident = Some inc ->
         exists executed events,
           run.1
           = Ok (Planner.Planned (Incident.id incident)
                   (Incident.plan_version inc + 1)
                   (Verdict_value (verdict plan)) (severity_seed plan)
                   executed)
           /\ incident_plans run.2
              = incident_plans w
                ++ [IncidentPlan.mk (Incident.id incident)
                      (Incident.plan_version inc + 1) "fast"
                      (Verdict_value (verdict plan)) (severity_seed plan)
                      (confidence plan) (reasons plan) (actions plan)
                      (replan_interval_s plan)]
           /\ timeline run.2
              = timeline w
                ++ mkEvent (Incident.id incident) camera_id
                     "TRIGGER_RECEIVED"
                     (PTrigger "FALL_TRIGGER"
                        (TelemetryPacket.motion_energy packet)
                        (TelemetryPacket.stillness_score packet))
                   :: mkEvent (Incident.id incident) camera_id "PLAN_CREATED"
                        (PPlan "fast" (Incident.plan_version inc + 1) plan)
                   :: events.
Proof.
  intros camera_id frames request run Hpol Hfirst Hparse1.
  set (w1 := upd_timeline
               (fun t => t ++ [mkEvent (Incident.id incident) camera_id
                                 "TRIGGER_RECEIVED"
                                 (PTrigger "FALL_TRIGGER"
                                    (TelemetryPacket.motion_energy packet)
                                    (TelemetryPacket.stillness_score packet))])
               w).
  destruct (plan_with_retry_run packet camera
              (_build_policy_text env policy camera)
              (Planner._build_incident_state incident)
              (_get_active_notes env camera_id) w1 raw1 Hfirst Hparse1)
    as (plan & Hretry & Hfall & Hparsed).
  assert (Heq : run = Planner.persist_and_execute env now packet camera
                        incident plan
                        (upd_gemini_calls
                           (fun calls => calls ++ [request (take 4 frames);
                                                   request (take 2 frames)])
                           w1)).
  { unfold run, Planner.plan_incident. cbv zeta. unfold bind at 1, get.
    fold camera_id. rewrite Hpol.
    assert (scalar_one_or_none (option_list policy)
            = (ret policy : M (option NotificationPolicy.t))) as ->.
    { destruct policy; reflexivity. }
    unfold bind at 1. cbn [ret]. unfold bind at 1, log_event, modify.
    fold w1. unfold bind at 1. rewrite Hretry. reflexivity. }
  exists plan. split; [exact Hfall |]. split; [exact Hparsed |].
  rewrite Heq. split.
  - rewrite preserves_persist_and_execute_calls. reflexivity.
  - intros inc Hrow.
    destruct (persist_and_execute_run now packet camera incident plan
                (upd_gemini_calls
                   (fun calls => calls ++ [request (take 4 frames);
                                           request (take 2 frames)]) w1)
                inc Hrow)
      as (executed & events & w' & -> & Hplans & Htl & _).
    exists executed, events. cbn [fst snd].
    split; [reflexivity |]. split; [exact Hplans |].
    rewrite Htl. cbn. rewrite <- app_assoc. reflexivity.
Qed.

End RetryAndFallback.

(** C3, amended.  When the reply of the planner to [handle_incident]'s
    request fails to parse, the planner is called exactly once more, with
    the first two frames of the packet (the first call carries the first
    four), whatever that second call then does.  When it raises or its
    reply fails to parse as well, [handle_incident] plans the incident
    with the fallback plan, stores it as the next plan version of the
    incident and logs it: verdict POSSIBLE_FALL, severity seed 4 if
    [motion > 0.8] else 3, confidence 0.3, the single reason "Fallback
    plan: Gemini unavailable or returned invalid response", the actions
    SEND_SMS_PRIMARY with delay 0 followed by START_VOICE_CALL_PRIMARY with
    delay 1.0 exactly when voice is enabled and the seed is at least 4, and
    a replan interval of 5.0.  When the reply of the second call parses,
    the plan it gives is the one stored.  [active] is the ACTIVE incident
    of the camera, if it has one, stored under its identifier; otherwise
    the incident is the new one. *)
Theorem planner_failure_falls_back
    (env : Env) (now : Q) (new_id : string) (packet : TelemetryPacket.t)
    (w : World) (camera : Camera.t) (active : option Incident.t)
    (policy : option NotificationPolicy.t) (raw1 : string) :
  let camera_id := TelemetryPacket.camera_id packet in
  let frames := TelemetryPacket.frames_jpeg_base64 packet in
  let incident :=
    default (Planner.new_incident env new_id packet camera) active in
  let request :=
    Planner.incident_request packet (_build_policy_text env policy camera)
      (Planner._build_incident_state incident)
      (_get_active_notes env camera_id) in
  let second :=
    incident_plan env (S (length (gemini_calls w)))
      (request (take 2 frames)) in
  let fallback :=
    Planner._fallback_plan (TelemetryPacket.motion_energy packet)
      (Camera.voice_enabled camera) in
  let stored (plan : PlannerPlan) :=
    IncidentPlan.mk (Incident.id incident)
      (Incident.plan_version incident + 1) "fast"
      (Verdict_value (verdict plan)) (severity_seed plan) (confidence plan)
      (reasons plan) (actions plan) (replan_interval_s plan) in
  let run := Planner.handle_incident env now new_id packet w in
  cameras w !! camera_id = Some camera ->
  active_incidents camera_id w = option_list active ->
  policies_of camera_id w = option_list policy ->
  incident_plan env (length (gemini_calls w)) (request (take 4 frames))
  = Text raw1 ->
  _parse_plan env raw1 = None ->
  gemini_calls run.2
  = gemini_calls w ++ [request (take 4 frames); request (take 2 frames)]
  /\ ((forall inc, active = Some inc ->
                   incidents w !! Incident.id inc = Some inc) ->
      (match second with
       | Text raw2 => _parse_plan env raw2 = None
       | Failure => True
       end ->
       exists executed events,
         run.1
         = Ok (Planner.Planned (Incident.id incident)
                 (Incident.plan_version incident + 1) "POSSIBLE_FALL"
                 (severity_seed fallback) executed)
         /\ incident_plans run.2 = incident_plans w ++ [stored fallback]
         /\ timeline run.2
            = timeline w
              ++ mkEvent (Incident.id incident) camera_id "TRIGGER_RECEIVED"
                   (PTrigger "FALL_TRIGGER"
                      (TelemetryPacket.motion_energy packet)
                      (TelemetryPacket.stillness_score packet))
                 :: mkEvent (Incident.id incident) camera_id "PLAN_CREATED"
                      (PPlan "fast" (Incident.plan_version incident + 1)
                         fallback)
                 :: events)
      /\ (forall raw2 plan2,
            second = Text raw2 ->
            _parse_plan env raw2 = Some plan2 ->
            incident_plans run.2 = incident_plans w ++ [stored plan2]))
  /\ verdict fallback = POSSIBLE_FALL
  /\ severity_seed fallback
     = (if Qgtb (TelemetryPacket.motion_energy packet) 0.8 then 4 else 3)
  /\ confidence fallback = 0.3%Q
  /\ reasons fallback
     = ["Fallback plan: Gemini unavailable or returned invalid response"]
  /\ actions fallback
     = mkPlanAction SEND_SMS_PRIMARY 0 ∅
       :: (if Camera.voice_enabled camera && (4 <=? severity_seed fallback)
           then [mkPlanAction START_VOICE_CALL_PRIMARY 1.0 ∅] else [])
  /\ replan_interval_s fallback = 5.0%Q.
Proof.
  intros camera_id frames incident request second fallback stored run
    Hcam Hact Hpol Hfirst Hparse1.
  assert (Hrun : exists w0,
             run = Planner.plan_incident env now packet camera incident w0
             /\ policies_of camera_id w0 = option_list policy
             /\ gemini_calls w0 = gemini_calls w
             /\ incident_plans w0 = incident_plans w
             /\ timeline w0 = timeline w
             /\ ((forall inc, active = Some inc ->
                              incidents w !! Incident.id inc = Some inc) ->
                 incidents w0 !! Incident.id incident = Some incident)).
  { destruct active as [inc |]; cbn [option_list] in Hact.
    - exists w. split; [apply handle_incident_active; assumption |].
      repeat (split; [first [exact Hpol | reflexivity] |]).
      intros Hkey. apply Hkey. reflexivity.
    - eexists. split; [apply handle_incident_fresh; assumption |].
      repeat (split; [first [exact Hpol | reflexivity] |]).
      intros _. cbn. apply lookup_insert_eq. }
  destruct Hrun as (w0 & Hrun & Hpol0 & Hcalls0 & Hplans0 & Htl0 & Hrow0).
  rewrite <- Hcalls0 in Hfirst.
  destruct (plan_incident_retry env now packet camera incident w0 policy raw1
              Hpol0 Hfirst Hparse1)
    as (plan & Hfall & Hparsed & Hcalls & Hrows).
  cbv zeta in Hcalls, Hrows. rewrite <- Hrun in Hcalls, Hrows.
  rewrite Hcalls0 in Hfall, Hparsed, Hcalls.
  split; [exact Hcalls |].
  split.
  - intros Hkey.
    destruct (Hrows incident (Hrow0 Hkey))
      as (executed & events & Hres & Hplans & Htl).
    rewrite Hplans0 in Hplans. rewrite Htl0 in Htl. split.
    + intros Hsecond. specialize (Hfall Hsecond). subst plan.
      exists executed, events.
      split; [exact Hres |]. split; [exact Hplans | exact Htl].
    + intros raw2 plan2 Hsecond Hparse2.
      rewrite (Hparsed raw2 plan2 Hsecond Hparse2) in Hplans. exact Hplans.
  - unfold fallback, Planner._fallback_plan.
    destruct (Camera.voice_enabled camera),
      (Qgtb (TelemetryPacket.motion_energy packet) 0.8);
      cbn; repeat split.
Qed.

(** C3 amended, on a trigger with three frames for a camera with an ACTIVE
    incident, and a planner whose replies never parse. *)
Lemma planner_failure_falls_back_witness :
  let run :=
    Planner.handle_incident Examples.planner_down 1000 "new"
      Examples.trigger3 Examples.active_world in
  map rq_frames_b64 (gemini_calls run.2)
  = [["frame1"; "frame2"; "frame3"]; ["frame1"; "frame2"]]
  /\ incident_plans run.2
     = [IncidentPlan.mk "inc2" 3 "fast" "POSSIBLE_FALL" 4 0.3
          ["Fallback plan: Gemini unavailable or returned invalid response"]
          [mkPlanAction SEND_SMS_PRIMARY 0 ∅;
           mkPlanAction START_VOICE_CALL_PRIMARY 1.0 ∅] 5.0].
Proof.
  destruct (planner_failure_falls_back Examples.planner_down 1000 "new"
              Examples.trigger3 Examples.active_world Examples.cam1
              (Some Examples.active_incident) None "not json")
    as (Hcalls & Hstored & _);
    [reflexivity | reflexivity | reflexivity | reflexivity | reflexivity |].
  split; [rewrite Hcalls; reflexivity |].
  destruct Hstored as [Hfall _].
  { intros inc [= <-]. reflexivity. }
  destruct Hfall as (executed & events & _ & Hplans & _); [reflexivity |].
  rewrite Hplans. reflexivity.
Defined.
